(** * mobi-teste: dynamic pricing and the ride lifecycle

    A shallow embedding of [src/utils/pricing.ts] and of the ride handlers of
    [src/pages/DriverHome.tsx], the RideStatus page (src/unnamed/part_004) and
    [src/pages/RideRequest.tsx], with the properties the specification states
    about them.

    Modelling conventions.
    - A JavaScript [number] that holds a price, a rate or a distance is an
      exact rational ([Q]): finite values, exact arithmetic.  The results of
      [parseInt] are integers or NaN and are modelled as [option Z], [None]
      being NaN.
    - Strings are [string]; arrays are lists; a Firestore document is a finite
      map from field names to values and a collection a finite map from
      document ids to documents. *)

From Stdlib Require Import ZArith QArith Qround Qminmax Lqa Lia.
From Stdlib Require Import String Ascii List.
From stdpp Require Import gmap strings pretty.
From Equations Require Import Equations.
Import ListNotations.

Set Warnings "-register-all".
Local Open Scope Z_scope.

(* ===================================================================== *)
(** * JavaScript primitives used by the code                              *)
(* ===================================================================== *)

Module JS.

(** The ASCII members of ECMAScript's [WhiteSpace] and [LineTerminator]:
    TAB, LF, VT, FF, CR and SPACE. *)
Definition isWhiteSpace (c : ascii) : bool :=
  let n := Z.of_nat (nat_of_ascii c) in
  ((9 <=? n) && (n <=? 13)) || (n =? 32).

(** The prefix stripped by [parseInt] before it reads the number. *)
Fixpoint trimStart (s : string) : string :=
  match s with
  | String c s' => if isWhiteSpace c then trimStart s' else s
  | EmptyString => EmptyString
  end.

(** Value of a character as a digit, for radices up to 36. *)
Definition digitValue (c : ascii) : option Z :=
  let n := Z.of_nat (nat_of_ascii c) in
  if (48 <=? n) && (n <=? 57) then Some (n - 48)
  else if (97 <=? n) && (n <=? 122) then Some (n - 87)
  else if (65 <=? n) && (n <=? 90) then Some (n - 55)
  else None.

(** The longest prefix of radix-[radix] digits of [s], read as a number;
    [acc] is what has been read so far ([None]: nothing yet). *)
Fixpoint parseDigits (radix : Z) (s : string) (acc : option Z) : option Z :=
  match s with
  | String c s' =>
      match digitValue c with
      | Some d =>
          if d <? radix
          then parseDigits radix s'
                 (Some (match acc with Some a => a * radix + d | None => d end))
          else acc
      | None => acc
      end
  | EmptyString => acc
  end.

(** [parseInt(string)] with no radix argument: leading white space, an
    optional sign, an optional [0x]/[0X] prefix (radix 16, else 10), then the
    longest run of digits; NaN ([None]) when there is no digit. *)
Definition parseInt (input : string) : option Z :=
  let s := trimStart input in
  let '(sign, s) :=
    match s with
    | String "-"%char r => (-1, r)
    | String "+"%char r => (1, r)
    | _ => (1, s)
    end in
  let '(radix, s) :=
    match s with
    | String "0"%char (String "x"%char r) => (16, r)
    | String "0"%char (String "X"%char r) => (16, r)
    | _ => (10, s)
    end in
  option_map (Z.mul sign) (parseDigits radix s None).

(** [s.split(sep)] for a one-character separator: never the empty array. *)
Fixpoint split (sep : ascii) (s : string) : list string :=
  match s with
  | EmptyString => [EmptyString]
  | String c s' =>
      if Ascii.eqb c sep then EmptyString :: split sep s'
      else match split sep s' with
           | h :: t => String c h :: t
           | [] => [String c EmptyString]
           end
  end.

(** [String(a[i])]: reading past the end of an array gives [undefined], which
    [parseInt] first converts to the string ["undefined"]. *)
Definition indexToString (a : list string) (i : nat) : string :=
  match nth_error a i with
  | Some s => s
  | None => "undefined"%string
  end.

(** NaN-propagating arithmetic and comparisons on integer-valued numbers. *)
Definition nmul (a b : option Z) : option Z :=
  match a, b with Some x, Some y => Some (x * y) | _, _ => None end.

Definition nadd (a b : option Z) : option Z :=
  match a, b with Some x, Some y => Some (x + y) | _, _ => None end.

Definition nge (a b : option Z) : bool :=
  match a, b with Some x, Some y => y <=? x | _, _ => false end.

Definition nle (a b : option Z) : bool :=
  match a, b with Some x, Some y => x <=? y | _, _ => false end.

(** [n.toString()] for an integer, and [s.padStart(len, fill)] for a
    one-character fill. *)
Definition toString (n : Z) : string := pretty n.

Fixpoint replicateChar (n : nat) (c : ascii) : string :=
  match n with
  | O => EmptyString
  | S n' => String c (replicateChar n' c)
  end.

Definition padStart (s : string) (len : nat) (fill : ascii) : string :=
  String.append (replicateChar (len - String.length s) fill) s.

(** [Math.round]: the closest integer, ties towards plus infinity. *)
Definition Math_round (x : Q) : Q := inject_Z (Qfloor (x + (1 # 2))%Q).

(** [Math.max] of two numbers. *)
Definition Math_max (a b : Q) : Q := if Qle_bool a b then b else a.

(** [Math.pow(2, n)] for a natural exponent. *)
Definition Math_pow2 (n : nat) : Z := 2 ^ Z.of_nat n.

(** A [Date], by its local-time fields; [getHours] and [getMinutes] read
    two of them. *)
Record Date := mkDate {
  fullYear : Z;
  month : Z;
  date : Z;
  hours : Z;
  minutes : Z;
  seconds : Z;
  milliseconds : Z
}.

Definition getHours (d : Date) : Z := hours d.
Definition getMinutes (d : Date) : Z := minutes d.

End JS.

(* ===================================================================== *)
(** * src/types/vehicle.ts and src/utils/pricing.ts                        *)
(* ===================================================================== *)

Module Pricing.
Import JS.

Record PeakHourPeriod := mkPeriod {
  start : string;   (* "HH:mm" *)
  end_ : string     (* "HH:mm"; the field [end] of the source *)
}.

Record DynamicPricing := mkDynamicPricing {
  rainMultiplier : Q;
  peakHoursMultiplier : Q;
  peakHours : list PeakHourPeriod
}.

Record VehicleCategory := mkCategory {
  id : string;
  name : string;
  description : string;
  basePrice : Q;
  pricePerKm : Q;
  minPrice : Q;
  icon : string;
  dynamicPricing : DynamicPricing
}.

Record PricingFactors := mkFactors {
  isRaining : bool;
  currentTime : Date;
  distance : Q      (* metres *)
}.

(** [calculatePrice], pricing.ts lines 20-33. *)
Definition calculatePrice (distanceInMeters pricePerKm basePrice : Q) : Q :=
  let distanceInKm := (distanceInMeters / 1000)%Q in
  let totalPrice := (basePrice + distanceInKm * pricePerKm)%Q in
  (Math_round (totalPrice * 100) / 100)%Q.

(** The expression
    [parseInt(t.split(':')[0]) * 60 + parseInt(t.split(':')[1])]
    of lines 56 and 57. *)
Definition toMinutes (t : string) : option Z :=
  nadd (nmul (parseInt (indexToString (split ":"%char t) 0)) (Some 60))
       (parseInt (indexToString (split ":"%char t) 1)).

(** The callback given to [peakHours.some], lines 50-60. *)
Definition inPeriod (currentHour currentMinutes : Z) (period : PeakHourPeriod) : bool :=
  let start := start period in
  let end_ := end_ period in
  let currentMinutesTotal := Some (currentHour * 60 + currentMinutes) in
  let startMinutes := toMinutes start in
  let endMinutes := toMinutes end_ in
  nge currentMinutesTotal startMinutes && nle currentMinutesTotal endMinutes.

(** [calculateDynamicPrice], pricing.ts lines 35-77.  The local
    [currentTimeString] is computed and never read, as in the source. *)
Definition calculateDynamicPrice (category : VehicleCategory) (f : PricingFactors) : Q :=
  let isRaining := isRaining f in
  let currentTime := currentTime f in
  let distance := distance f in
  let finalPrice := basePrice category in
  let distanceInKm := (distance / 1000)%Q in
  let finalPrice := (finalPrice + distanceInKm * pricePerKm category)%Q in
  let currentHour := getHours currentTime in
  let currentMinutes := getMinutes currentTime in
  let currentTimeString :=
    String.append (padStart (toString currentHour) 2 "0"%char)
      (String ":"%char (padStart (toString currentMinutes) 2 "0"%char)) in
  let isPeakHour :=
    existsb (inPeriod currentHour currentMinutes)
            (peakHours (dynamicPricing category)) in
  let finalPrice :=
    if isPeakHour
    then (finalPrice * peakHoursMultiplier (dynamicPricing category))%Q
    else finalPrice in
  let finalPrice :=
    if isRaining
    then (finalPrice * rainMultiplier (dynamicPricing category))%Q
    else finalPrice in
  let finalPrice := Math_max finalPrice (minPrice category) in
  (Math_round (finalPrice * 100) / 100)%Q.

(** ** What the specification says, in its own terms *)



(** The time [hh:mm], as minutes since midnight, lies within the window,
    both ends included. *)
Definition within_window (hh mm : Z) (p : PeakHourPeriod) : Prop :=
  exists s e : Z,
    toMinutes (start p) = Some s /\ toMinutes (end_ p) = Some e /\
    s <= hh * 60 + mm <= e.

Definition within_some_window (category : VehicleCategory) (t : Date) : Prop :=
  exists p, In p (peakHours (dynamicPricing category)) /\
            within_window (getHours t) (getMinutes t) p.

(** A window that starts later than it ends (an overnight window). *)
Definition overnight (p : PeakHourPeriod) : Prop :=
  exists s e : Z,
    toMinutes (start p) = Some s /\ toMinutes (end_ p) = Some e /\ e < s.

(** A well-formed "HH:mm" string: two digits, a colon, two digits. *)
Definition isDigit (c : ascii) : bool :=
  let n := Z.of_nat (nat_of_ascii c) in (48 <=? n) && (n <=? 57).

Definition digit (c : ascii) : Z := Z.of_nat (nat_of_ascii c) - 48.

Definition hhmm (h1 h0 m1 m0 : ascii) : string :=
  String h1 (String h0 (String ":"%char (String m1 (String m0 EmptyString)))).

(** The category with another list of peak-hour windows. *)
Definition withPeakHours (c : VehicleCategory) (l : list PeakHourPeriod) : VehicleCategory :=
  mkCategory (id c) (name c) (description c) (basePrice c) (pricePerKm c)
    (minPrice c) (icon c)
    (mkDynamicPricing (rainMultiplier (dynamicPricing c))
                      (peakHoursMultiplier (dynamicPricing c)) l).

End Pricing.

(* ===================================================================== *)
(** * The document store                                                  *)
(* ===================================================================== *)

Module Firestore.

(** Field values of a document. *)
Inductive Value :=
| VNull
| VBool (b : bool)
| VNum (q : Q)
| VStr (s : string)
| VTimestamp (t : Z)
| VArray (l : list Value)
| VMap (m : list (string * Value)).

(** A document (and a plain JavaScript object holding one) maps field names
    to values; a collection maps document ids to documents; the database maps
    collection names to collections. *)
Abbreviation Doc := (gmap string Value).
Abbreviation Collection := (gmap string (gmap string Value)).
Abbreviation Store := (gmap string (gmap string (gmap string Value))).

(** [COLLECTIONS], src/utils/firebase.ts. *)
Definition ACTIVE_RIDES : string := "activeRides".
Definition COMPLETED_RIDES : string := "completedRides".
Definition CANCELLED_RIDES : string := "cancelledRides".

(** JavaScript's ToBoolean on the result of reading a field ([None]: the
    field is absent and the read gives [undefined]). *)
Definition truthy (v : option Value) : bool :=
  match v with
  | None => false
  | Some VNull => false
  | Some (VBool b) => b
  | Some (VNum q) => negb (Qeq_bool q 0)
  | Some (VStr s) => negb (String.eqb s EmptyString)
  | Some (VTimestamp _) => true
  | Some (VArray _) => true
  | Some (VMap _) => true
  end.

(** [v === s] for a string literal [s]. *)
Definition strictEqStr (v : option Value) (s : string) : bool :=
  match v with
  | Some (VStr s') => String.eqb s' s
  | _ => false
  end.

(** The requests a handler awaits, and what the promise settles to. *)
Inductive Request :=
| GetDoc (c id : string)
| UpdateDoc (c id : string) (fields : Doc)
| SetDoc (c id : string) (data : Doc)
| AddDoc (c : string) (data : Doc)
| DeleteDoc (c id : string)
| Sleep (ms : Z).

Inductive Response :=
| RSnapshot (d : option Doc)   (* getDoc: the data, or a snapshot that does not exist *)
| RDone                        (* updateDoc, setDoc, deleteDoc, setTimeout *)
| RRef (id : string)           (* addDoc: the id of the new document *)
| RError (code : string).      (* the promise was rejected with this error code *)

(** An asynchronous handler: it returns, throws, or awaits a request and
    goes on with what that settles to. *)
Inductive Prog :=
| Done
| Throw (code : string)
| Call (rq : Request) (k : Response -> Prog).

(** What the environment decides for one request: it is served (and, for
    [addDoc], the client library draws this document id, taken to be new), or
    it is rejected with an error code and not applied. *)
Inductive Fate :=
| Served (autoId : string)
| Rejected (code : string).

(** The decision to serve a request that draws no document id. *)
Definition served : Fate := Served EmptyString.

Definition coll (db : Store) (c : string) : Collection := default ∅ (db !! c).

Definition getDoc (db : Store) (c id : string) : option Doc := coll db c !! id.

Definition putDoc (db : Store) (c id : string) (d : Doc) : Store :=
  <[c := <[id := d]> (coll db c)]> db.

Definition removeDoc (db : Store) (c id : string) : Store :=
  <[c := delete id (coll db c)]> db.

(** The store serving one request.  [updateDoc] merges the given fields into
    an existing document and fails with [not-found] otherwise; [setDoc]
    replaces or creates; [deleteDoc] of a missing document succeeds. *)
Definition serve (db : Store) (autoId : string) (rq : Request) : Store * Response :=
  match rq with
  | GetDoc c id => (db, RSnapshot (getDoc db c id))
  | UpdateDoc c id fields =>
      match getDoc db c id with
      | Some d => (putDoc db c id (fields ∪ d), RDone)
      | None => (db, RError "not-found")
      end
  | SetDoc c id data => (putDoc db c id data, RDone)
  | AddDoc c data => (putDoc db c autoId data, RRef autoId)
  | DeleteDoc c id => (removeDoc db c id, RDone)
  | Sleep _ => (db, RDone)
  end.

(** A timer always fires; any other request may be rejected. *)
Definition settle (db : Store) (f : Fate) (rq : Request) : Store * Response :=
  match rq, f with
  | Sleep _, _ => (db, RDone)
  | _, Served autoId => serve db autoId rq
  | _, Rejected code => (db, RError code)
  end.

Inductive Result :=
| Returned
| Thrown (code : string)
| Stopped.     (* the client died before the handler finished *)

Record Outcome := mkOutcome {
  final : Store;
  trace : list Request;
  result : Result
}.

(** Run a handler against the store.  [fates] holds one decision per request;
    when it runs out the client is gone: the requests already served stay
    applied and nothing more is sent. *)
Fixpoint run (fates : list Fate) (p : Prog) (db : Store) (sent : list Request) : Outcome :=
  match p with
  | Done => mkOutcome db sent Returned
  | Throw code => mkOutcome db sent (Thrown code)
  | Call rq k =>
      match fates with
      | [] => mkOutcome db sent Stopped
      | f :: fates' =>
          let '(db', resp) := settle db f rq in
          run fates' (k resp) db' (sent ++ [rq])
      end
  end.

Definition exec (fates : list Fate) (p : Prog) (db : Store) : Outcome :=
  run fates p db [].

(** [sends p rq]: along some run of [p], whatever the store answers, the
    request [rq] is sent. *)
Inductive sends : Prog -> Request -> Prop :=
| sends_here rq k : sends (Call rq k) rq
| sends_later rq k r rq' : sends (k r) rq' -> sends (Call rq k) rq'.

(** The value of [status] that a request writes, if it writes one. *)
Definition writtenStatus (rq : Request) : option Value :=
  match rq with
  | UpdateDoc _ _ fields => fields !! "status"
  | SetDoc _ _ data => data !! "status"
  | AddDoc _ data => data !! "status"
  | _ => None
  end.

Definition isWrite (rq : Request) : bool :=
  match rq with
  | GetDoc _ _ | Sleep _ => false
  | _ => true
  end.

(** The object [{ id: doc.id, ...doc.data() }] that the listeners build from a
    document snapshot: the data's own [id] field, if any, wins. *)
Definition snapshotObject (i : string) (data : Doc) : Doc :=
  data ∪ {["id" := VStr i]}.

(** [doc(db, collection, x.id)]: the id has to be a non-empty string, or
    [doc] throws.  (An id is taken to be a single path segment.) *)
Definition docId (v : option Value) : option string :=
  match v with
  | Some (VStr s) => if String.eqb s EmptyString then None else Some s
  | _ => None
  end.

End Firestore.

(* ===================================================================== *)
(** * The ride handlers                                                   *)
(* ===================================================================== *)

Module Rides.
Import JS Firestore.

(** [Ride.status], src/types/user.ts. *)
Inductive Status := pending | accepted | inProgress | completed | cancelled.

Definition statusName (s : Status) : string :=
  match s with
  | pending => "pending"
  | accepted => "accepted"
  | inProgress => "inProgress"
  | completed => "completed"
  | cancelled => "cancelled"
  end.

Definition statusValue (s : Status) : Value := VStr (statusName s).

(** The status a stored value stands for. *)
Definition statusOf (v : option Value) : option Status :=
  if strictEqStr v "pending" then Some pending
  else if strictEqStr v "accepted" then Some accepted
  else if strictEqStr v "inProgress" then Some inProgress
  else if strictEqStr v "completed" then Some completed
  else if strictEqStr v "cancelled" then Some cancelled
  else None.

(** What a handler closes over: the signed-in user, the component state it
    reads and the clock. *)
Record Session := mkSession {
  uid : string;                       (* user.uid *)
  email : option string;              (* user.email *)
  currentLocation : option (Q * Q);   (* state: [number, number] | null *)
  isProcessing : bool;                (* state *)
  selectedRide : option Doc;          (* state of DriverHome *)
  rideId : option string;             (* state of RideRequest *)
  now : Z                             (* Timestamp.now() *)
}.

Definition locationValue (l : Q * Q) : Value := VArray [VNum (fst l); VNum (snd l)].

(** The buttons that act on a ride. *)
Inductive Button :=
| BtnReject | BtnAccept | BtnNotifyArrival | BtnStart | BtnComplete
| BtnCancel | BtnCancelRequest.

(** ** src/pages/DriverHome.tsx *)

Module DriverHome.

(** [user.email?.split('@')[0] || 'Motorista'] *)
Definition driverName (e : option string) : string :=
  match e with
  | Some a =>
      let n := indexToString (split "@"%char a) 0 in
      if String.eqb n EmptyString then "Motorista" else n
  | None => "Motorista"
  end.

(** The object [driverInfo] of [handleAcceptRide], lines 606-617. *)
Definition driverInfo (u : Session) : Value :=
  VMap [ ("id", VStr (uid u));
         ("name", VStr (driverName (email u)));
         ("phone", VStr "64992521789");
         ("rating", VNum 5);
         ("vehicle", VMap [ ("model", VStr "Honda Civic");
                            ("plate", VStr "ABC1234");
                            ("color", VStr "Prata") ]);
         ("currentLocation",
            match currentLocation u with
            | Some l => locationValue l
            | None => VArray [VNum 0; VNum 0]
            end) ].

(** The fields written by [handleAcceptRide], lines 619-624. *)
Definition acceptFields (u : Session) : Doc :=
  <["status" := VStr "accepted"]>
  (<["driverId" := VStr (uid u)]>
  (<["acceptedAt" := VTimestamp (now u)]>
  (<["driver" := driverInfo u]> ∅))).

(** [handleAcceptRide], lines 585-644.  Every failure ends in
    the [catch], which reports it and returns. *)
Definition handleAcceptRide (u : Session) (ride : Doc) : Prog :=
  if isProcessing u then Done else
  match docId (ride !! "id") with
  | None => Done
  | Some rideId =>
      Call (GetDoc ACTIVE_RIDES rideId) (fun rideDoc =>
        match rideDoc with
        | RSnapshot None => Done
        | RSnapshot (Some rideData) =>
            if negb (strictEqStr (rideData !! "status") "pending")
               || truthy (rideData !! "driverId")
            then Done
            else Call (UpdateDoc ACTIVE_RIDES rideId (acceptFields u))
                      (fun _ => Done)
        | _ => Done
        end)
  end.

(** [handleNotifyArrival], lines 222-240. *)
Definition handleNotifyArrival (selectedRide : option Doc) : Prog :=
  match selectedRide with
  | None => Done
  | Some r =>
      match docId (r !! "id") with
      | None => Done
      | Some rideId =>
          Call (UpdateDoc ACTIVE_RIDES rideId (<["driverArrived" := VBool true]> ∅))
               (fun _ => Done)
      end
  end.

(** [handleStartRide], lines 242-267. *)
Definition handleStartRide (u : Session) (ride : Doc) : Prog :=
  if isProcessing u then Done else
  match docId (ride !! "id") with
  | None => Done
  | Some rideId =>
      Call (UpdateDoc ACTIVE_RIDES rideId
              (<["status" := VStr "inProgress"]>
               (<["startedAt" := VTimestamp (now u)]> ∅)))
           (fun _ => Done)
  end.

(** The document written by [handleCompleteRide], lines 278-284. *)
Definition completedCopy (u : Session) (ride : Doc) : Doc :=
  <["finalLocation" :=
      match currentLocation u with Some l => locationValue l | None => VNull end]>
  (<["completedBy" := VStr (uid u)]>
  (<["completedAt" := VTimestamp (now u)]>
  (<["status" := VStr "completed"]> ride))).

(** [handleCompleteRide], lines 269-303. *)
Definition handleCompleteRide (u : Session) (ride : Doc) : Prog :=
  if isProcessing u then Done else
  match docId (ride !! "id") with
  | None => Done
  | Some rideId =>
      Call (SetDoc COMPLETED_RIDES rideId (completedCopy u ride)) (fun r =>
        match r with
        | RError _ => Done
        | _ => Call (DeleteDoc ACTIVE_RIDES rideId) (fun _ => Done)
        end)
  end.

(** The document written by [handleRejectRide], lines 652-658. *)
Definition rejectedCopy (u : Session) (ride : Doc) : Doc :=
  <["driverId" := VStr (uid u)]>
  (<["cancelledBy" := VStr "driver"]>
  (<["cancelledAt" := VTimestamp (now u)]>
  (<["status" := VStr "cancelled"]> ride))).

(** [handleRejectRide], lines 646-678. *)
Definition handleRejectRide (u : Session) (ride : Doc) : Prog :=
  Call (AddDoc CANCELLED_RIDES (rejectedCopy u ride)) (fun r =>
    match r with
    | RError _ => Done
    | _ =>
        match docId (ride !! "id") with
        | None => Done
        | Some rideId => Call (DeleteDoc ACTIVE_RIDES rideId) (fun _ => Done)
        end
    end).

(** The card of a ride of [availableRides], lines 945-958. *)
Definition availableRideButtons (ride : Doc) : list Button := [BtnReject; BtnAccept].

(** The card of a ride of [myRides] (lines 796-829) and the header of the
    full-screen map over [selectedRide] (lines 340-368). *)
Definition activeRideButtons (ride : Doc) : list Button :=
  (if strictEqStr (ride !! "status") "accepted" then [BtnNotifyArrival; BtnStart] else [])
  ++ (if strictEqStr (ride !! "status") "inProgress" then [BtnComplete] else []).

(** The query behind [availableRides], lines 405-409:
    [where('status','==','pending')] and [where('driverId','==',null)]. *)
Definition isAvailable (data : Doc) : bool :=
  strictEqStr (data !! "status") "pending"
  && match data !! "driverId" with Some VNull => true | _ => false end.

Definition availableRidesQuery (db : Store) : list Doc :=
  map (fun '(i, data) => snapshotObject i data)
      (filter (fun '(_, data) => isAvailable data = true)
              (map_to_list (coll db ACTIVE_RIDES))).

End DriverHome.

(** ** The RideStatus page, src/unnamed/part_004 *)

Module RideStatus.

(** The document written by [handleCancelRide], lines 65-70. *)
Definition cancelledCopy (now : Z) (ride : Doc) : Doc :=
  <["cancelledBy" := VStr "passenger"]>
  (<["cancelledAt" := VTimestamp now]>
  (<["status" := VStr "cancelled"]> ride)).

(** [handleCancelRide], lines 60-81; [ride] and [user] are state that may
    still be null. *)
Definition handleCancelRide (user : option string) (now : Z) (ride : option Doc) : Prog :=
  match ride, user with
  | Some ride, Some _ =>
      Call (AddDoc CANCELLED_RIDES (cancelledCopy now ride)) (fun r =>
        match r with
        | RError _ => Done
        | _ =>
            match docId (ride !! "id") with
            | None => Done
            | Some rideId => Call (DeleteDoc ACTIVE_RIDES rideId) (fun _ => Done)
            end
        end)
  | _, _ => Done
  end.

(** The cancel button of the page, lines 117-124. *)
Definition rideStatusButtons (ride : Doc) : list Button :=
  if strictEqStr (ride !! "status") "pending" then [BtnCancel] else [].

End RideStatus.

(** ** src/pages/RideRequest.tsx *)

Module RideRequest.

(** [handleCancelRide], lines 444-467: the active document is deleted and
    nothing is archived. *)
Definition handleCancelRide (rideId : option string) : Prog :=
  match rideId with
  | None => Done
  | Some i =>
      if String.eqb i EmptyString then Done
      else Call (DeleteDoc ACTIVE_RIDES i) (fun _ => Done)
  end.

(** [createRideWithRetry], lines 414-431, for the ride
    document [newRide] built by [handleConfirmRide]. *)
Equations createRideWithRetry (newRide : Doc) (retryCount : nat) : Prog
  by wf (3 - retryCount)%nat lt :=
createRideWithRetry newRide retryCount :=
  Call (AddDoc ACTIVE_RIDES newRide) (fun r =>
    match r with
    | RError code =>
        match String.eqb code "resource-exhausted", lt_dec retryCount 3 with
        | true, left _ =>
            Call (Sleep (Math_pow2 retryCount * 1000))
                 (fun _ => createRideWithRetry newRide (retryCount + 1))
        | _, _ => Throw code
        end
    | _ => Done
    end).
Next Obligation. lia. Qed.

(** The page of a requested ride shows the driver once the ride object has
    one (line 1313) and the search with its cancel button otherwise (lines
    1379-1452). *)
Definition requestButtons (ride : Doc) : list Button :=
  if truthy (ride !! "driver") then [] else [BtnCancelRequest].

End RideRequest.

(** ** What the pages offer *)

(** What a click runs. *)
Definition onClick (u : Session) (b : Button) (ride : Doc) : Prog :=
  match b with
  | BtnReject => DriverHome.handleRejectRide u ride
  | BtnAccept => DriverHome.handleAcceptRide u ride
  | BtnNotifyArrival => DriverHome.handleNotifyArrival (selectedRide u)
  | BtnStart => DriverHome.handleStartRide u ride
  | BtnComplete => DriverHome.handleCompleteRide u ride
  | BtnCancel => RideStatus.handleCancelRide (Some (uid u)) (now u) (Some ride)
  | BtnCancelRequest => RideRequest.handleCancelRide (rideId u)
  end.

(** A page shows button [b] for the ride object [ride] that it holds. *)
Inductive offers : Doc -> Button -> Prop :=
| offers_available ride b :
    DriverHome.isAvailable ride = true ->
    In b (DriverHome.availableRideButtons ride) -> offers ride b
| offers_active ride b :
    In b (DriverHome.activeRideButtons ride) -> offers ride b
| offers_status ride b :
    In b (RideStatus.rideStatusButtons ride) -> offers ride b
| offers_request ride b :
    In b (RideRequest.requestButtons ride) -> offers ride b.

(** ** The lifecycle of the specification *)

(** [pending -> accepted -> inProgress -> completed], and [cancelled] from
    [pending] or [accepted]. *)
Definition allowed (from to : Status) : bool :=
  match from, to with
  | pending, accepted => true
  | accepted, inProgress => true
  | inProgress, completed => true
  | pending, cancelled => true
  | accepted, cancelled => true
  | _, _ => false
  end.

(** The check of [handleAcceptRide] on the snapshot it re-reads, line 601:
    the document exists, [status === 'pending'] and [driverId] is falsy. *)
Definition acceptable (snap : option Doc) : bool :=
  match snap with
  | Some rideData =>
      strictEqStr (rideData !! "status") "pending"
      && negb (truthy (rideData !! "driverId"))
  | None => false
  end.

(** The specification's reading of that check: the status is [pending] and
    the driver id is null or absent. *)
Definition pendingUnassigned (snap : option Doc) : Prop :=
  exists rideData, snap = Some rideData /\
    rideData !! "status" = Some (VStr "pending") /\
    (rideData !! "driverId" = None \/ rideData !! "driverId" = Some VNull).

(** The error code of a write refused for lack of quota. *)
Definition QUOTA : string := "resource-exhausted".

(** The requests of a creation that is retried [n] times: before retry
    number [i + 1] the handler waits [2 ^ i] seconds. *)
Fixpoint retryTrace (newRide : Doc) (first n : nat) : list Request :=
  match n with
  | O => [AddDoc ACTIVE_RIDES newRide]
  | S n' =>
      AddDoc ACTIVE_RIDES newRide
      :: Sleep (2 ^ Z.of_nat first * 1000)
      :: retryTrace newRide (S first) n'
  end.

(** The decision taken for attempt number [i] (from 0) of a creation: the
    requests alternate between [addDoc] and the timer. *)
Definition attemptFate (fates : list Fate) (i : nat) : option Fate :=
  nth_error fates (2 * i).

(** The ride [rideId] is held by collection [c]: as the document of that id,
    or as a copy that carries the id in its [id] field. *)
Definition holds (db : Store) (c rideId : string) : Prop :=
  exists i d, getDoc db c i = Some d /\
              (i = rideId \/ d !! "id" = Some (VStr rideId)).

End Rides.

(* ===================================================================== *)
(** * Sample data                                                         *)
(* ===================================================================== *)

Module Examples.
Import JS Pricing Firestore Rides DriverHome.

(** The default dynamic-pricing block of the admin console
    (src/pages/admin/Categories.tsx). *)
Definition morningPeak : PeakHourPeriod := mkPeriod "07:00" "09:00".
Definition eveningPeak : PeakHourPeriod := mkPeriod "17:00" "19:00".
Definition overnightPeak : PeakHourPeriod := mkPeriod "22:00" "06:00".

Definition defaultPricing : DynamicPricing :=
  mkDynamicPricing (12 # 10) (15 # 10) [morningPeak; eveningPeak].

(** The category of the specification's example: base 5, 2 per km, minimum 7. *)
Definition economy : VehicleCategory :=
  mkCategory "economy" "Economico" "Carros compactos" 5 2 7 "car" defaultPricing.



(** A ride as [handleConfirmRide] creates it, and the sessions of a driver
    and of the passenger. *)
Definition newRide : Doc :=
  <["userId" := VStr "p1"]>
  (<["userName" := VStr "Ana"]>
  (<["status" := VStr "pending"]>
  (<["createdAt" := VTimestamp 1000]>
  (<["distance" := VNum 3500]>
  (<["duration" := VNum 600]>
  (<["price" := VNum 12]>
  (<["driverId" := VNull]>
  (<["driver" := VNull]> ∅)))))))).

Definition db0 : Store := putDoc ∅ ACTIVE_RIDES "r1" newRide.

Definition driver : Session :=
  mkSession "d1" (Some "joao@example.com") (Some (-16 # 1, -48 # 1)) false
            None None 2000.

Definition passenger : Session :=
  mkSession "p1" (Some "ana@example.com") None false None (Some "r1") 3000.

(** What the listeners of both parties deliver while the ride is pending. *)
Definition viewPending : Doc := snapshotObject "r1" newRide.

(** The driver accepts. *)
Definition db1 : Store :=
  final (exec [served; served] (onClick driver BtnAccept viewPending) db0).

Definition viewAccepted : Doc :=
  snapshotObject "r1" (default ∅ (getDoc db1 ACTIVE_RIDES "r1")).

(** The driver starts the ride. *)
Definition db2 : Store :=
  final (exec [served] (onClick driver BtnStart viewAccepted) db1).

(** The passenger, whose page still shows the pending ride, cancels. *)
Definition db3 : Store :=
  final (exec [Served "c1"; served] (onClick passenger BtnCancel viewPending) db2).

(** A pending ride whose [driverId] is the empty string. *)
Definition blankDriverRide : Doc := <["driverId" := VStr EmptyString]> newRide.

Definition dbBlank : Store := putDoc ∅ ACTIVE_RIDES "r1" blankDriverRide.

(** A ride in progress, as the driver's page holds it. *)
Definition viewInProgress : Doc :=
  snapshotObject "r1" (default ∅ (getDoc db2 ACTIVE_RIDES "r1")).

(** The request by which the driver starts the accepted ride. *)
Definition startRequest : Request :=
  UpdateDoc ACTIVE_RIDES "r1"
    (<["status" := VStr "inProgress"]> (<["startedAt" := VTimestamp 2000]> ∅)).

(** The driver's list still shows the ride as [viewPending]; the document
    re-read from the store carries the empty string as [driverId]. *)
Definition acceptBlank : Outcome :=
  exec [served; served] (handleAcceptRide driver viewPending) dbBlank.

(** The driver's client dies between the two requests of a completion, and
    the passenger's between the two requests of a cancellation. *)
Definition crashedCompletion : Outcome :=
  exec [served] (handleCompleteRide driver viewInProgress) db2.

Definition crashedCancellation : Outcome :=
  exec [Served "c1"] (RideStatus.handleCancelRide (Some "p1") 3000 (Some viewPending)) db0.

(** The store refuses the first three creations for lack of quota. *)
Definition busyThenFree : list Fate :=
  [Rejected "resource-exhausted"; served;
   Rejected "resource-exhausted"; served;
   Rejected "resource-exhausted"; served;
   Served "r2"].

Definition noon : Date := mkDate 2024 3 15 12 0 0 0.
Definition noonLater : Date := mkDate 2025 11 2 12 0 59 999.
Definition eight : Date := mkDate 2024 3 15 8 0 0 0.

End Examples.

(* ===================================================================== *)
(** * The fare estimate of the request page                               *)
(* ===================================================================== *)

Module Estimate.
Import JS Pricing.

(** [a <= b] on strings: the order of the code units, a proper prefix first. *)
Fixpoint strLe (a b : string) : bool :=
  match a, b with
  | EmptyString, _ => true
  | String _ _, EmptyString => false
  | String x a', String y b' =>
      if (nat_of_ascii x <? nat_of_ascii y)%nat then true
      else if (nat_of_ascii y <? nat_of_ascii x)%nat then false
      else strLe a' b'
  end.

(** The string [currentTime] of RideRequest.tsx line 187. *)
Definition currentTimeString (now : Date) : string :=
  String.append (padStart (toString (getHours now)) 2 "0"%char)
    (String ":"%char (padStart (toString (getMinutes now)) 2 "0"%char)).

(** The callback given to [peakHours.some], lines 189-191:
    [currentTime >= period.start && currentTime <= period.end], on strings. *)
Definition inPeriodText (now : Date) (period : PeakHourPeriod) : bool :=
  strLe (start period) (currentTimeString now)
  && strLe (currentTimeString now) (end_ period).


(** A clock time "HH:mm": two digits, a colon, two digits, the minutes below
    60. *)
Definition isClockTime (s : string) : bool :=
  match s with
  | String h1 (String h0 (String c (String m1 (String m0 EmptyString)))) =>
      isDigit h1 && isDigit h0 && Ascii.eqb c ":"%char && isDigit m1 && isDigit m0
      && (10 * digit m1 + digit m0 <? 60)
  | _ => false
  end.

(** The character is absent from the string. *)
Fixpoint lacks (c : ascii) (s : string) : bool :=
  match s with
  | EmptyString => true
  | String x s' => negb (Ascii.eqb x c) && lacks c s'
  end.

End Estimate.

(* ===================================================================== *)
(** * More of src/pages/DriverHome.tsx                                    *)
(* ===================================================================== *)

Module DriverPage.
Import JS Firestore Rides.

Definition USERS : string := "users".
Definition DRIVERS : string := "drivers".

(** The query behind [myRides], lines 451-455: [where('driverId','==',uid)]
    and [where('status','in',['accepted','inProgress'])]. *)
Definition isMine (driver : string) (data : Doc) : bool :=
  strictEqStr (data !! "driverId") driver
  && (strictEqStr (data !! "status") "accepted"
      || strictEqStr (data !! "status") "inProgress").

Definition myRidesQuery (driver : string) (db : Store) : list Doc :=
  map (fun '(i, data) => snapshotObject i data)
      (filter (fun '(_, data) => isMine driver data = true)
              (map_to_list (coll db ACTIVE_RIDES))).

(** The fields written by [toggleOnlineStatus], lines 104-107. *)
Definition onlineFields (u : Session) (isOnline : bool) : Doc :=
  <["isOnline" := VBool (negb isOnline)]>
  (<["lastUpdate" := VTimestamp (now u)]> ∅).

(** [toggleOnlineStatus], lines 89-145, for the state [isOnline].  When the
    update fails the handler reads the document back, only to log it. *)
Definition toggleOnlineStatus (u : Session) (isOnline : bool) : Prog :=
  if isProcessing u then Done else
  if String.eqb (uid u) EmptyString then Done else
  Call (UpdateDoc DRIVERS (uid u) (onlineFields u isOnline)) (fun r =>
    match r with
    | RError _ => Call (GetDoc DRIVERS (uid u)) (fun _ => Done)
    | _ => Done
    end).

End DriverPage.

(* ===================================================================== *)
(** * Rating a driver, src/pages/RideRequest.tsx                          *)
(* ===================================================================== *)

Module Rating.
Import JS Firestore Rides DriverPage.

(** A field read as a number.  [None]: no number is stored there; the
    handler below writes numbers only, and a field holding anything else is
    read as missing. *)
Definition numberField (v : option Value) : option Q :=
  match v with
  | Some (VNum q) => Some q
  | _ => None
  end.

(** [x || d] for a number [x] that may be missing: 0 is falsy too. *)
Definition orDefault (x : option Q) (d : Q) : Q :=
  match x with
  | Some q => if Qeq_bool q 0 then d else q
  | None => d
  end.

(** Lines 1063-1067: the driver's new rating and number of ratings, from
    the stored fields and the stars given. *)
Definition newDriverRating (storedRating storedTotal : option Q) (rating : Q) : Q * Q :=
  let totalRatings := orDefault storedTotal 0 in
  let currentRating := orDefault storedRating 5 in
  let newRating := ((currentRating * totalRatings + rating) / (totalRatings + 1))%Q in
  (newRating, (totalRatings + 1)%Q).

(** The fields written to the completed ride, lines 1049-1053, and to the
    driver, lines 1069-1072. *)
Definition ratingFields (now : Z) (rating : Q) (ratingComment : string) : Doc :=
  <["rating" := VNum rating]>
  (<["ratingComment" := VStr ratingComment]>
  (<["ratedAt" := VTimestamp now]> ∅)).

Definition driverRatingFields (driverData : Doc) (rating : Q) : Doc :=
  let '(newRating, total) :=
    newDriverRating (numberField (driverData !! "rating"))
                    (numberField (driverData !! "totalRatings")) rating in
  <["rating" := VNum newRating]> (<["totalRatings" := VNum total]> ∅).

(** [ride.driver.id] *)
Definition driverIdOf (ride : Doc) : option Value :=
  match ride !! "driver" with
  | Some (VMap m) => snd <$> List.find (fun kv => String.eqb (fst kv) "id") m
  | _ => None
  end.

(** [handleSubmitRating], lines 1041-1092, for the state [ride], [rating]
    and [ratingComment].  A failure of the second part, the driver's
    average, is logged and goes no further. *)
Definition handleSubmitRating (now : Z) (rating : Q) (ratingComment : string)
    (ride : option Doc) : Prog :=
  match ride with
  | None => Done
  | Some ride =>
      if negb (truthy (ride !! "driver")) then Done else
      match docId (ride !! "id") with
      | None => Done
      | Some rideId =>
          Call (UpdateDoc COMPLETED_RIDES rideId (ratingFields now rating ratingComment))
            (fun r =>
               match r with
               | RError _ => Done
               | _ =>
                   match docId (driverIdOf ride) with
                   | None => Done
                   | Some driverId =>
                       Call (GetDoc DRIVERS driverId) (fun driverDoc =>
                         match driverDoc with
                         | RSnapshot (Some driverData) =>
                             Call (UpdateDoc DRIVERS driverId
                                     (driverRatingFields driverData rating))
                                  (fun _ => Done)
                         | _ => Done
                         end)
                   end
               end)
      end
  end.



End Rating.

(* ===================================================================== *)
(** * Confirming a ride, src/pages/RideRequest.tsx                        *)
(* ===================================================================== *)

Module Confirm.
Import JS Pricing Firestore Rides DriverPage.

Record Place := mkPlace {
  place : string;
  address : string;
  coordinates : Q * Q
}.

(** The state of the page that [handleConfirmRide] reads. *)
Record Form := mkForm {
  displayName : option string;        (* user.displayName *)
  origin : option Place;
  destination : option Place;
  selectedCategory : string;
  selectedPayment : string;
  categories : list VehicleCategory
}.

Definition placeValue (p : Place) : Value :=
  VMap [ ("place", VStr (place p));
         ("address", VStr (address p));
         ("coordinates", locationValue (coordinates p)) ].

(** [user.displayName || 'Usuário'] *)
Definition userName (n : option string) : string :=
  match n with
  | Some s => if String.eqb s EmptyString then "Usuário" else s
  | None => "Usuário"
  end.

(** The object [newRide], lines 389-410, for the route's distance in metres
    and duration in seconds. *)
Definition rideDocument (u : Session) (form : Form) (o d : Place)
    (vehicle : VehicleCategory) (route : Q * Q) : Doc :=
  let price := calculatePrice (fst route) (pricePerKm vehicle) (basePrice vehicle) in
  <["userId" := VStr (uid u)]>
  (<["userName" := VStr (userName (displayName form))]>
  (<["origin" := placeValue o]>
  (<["destination" := placeValue d]>
  (<["status" := VStr "pending"]>
  (<["createdAt" := VTimestamp (now u)]>
  (<["distance" := VNum (fst route)]>
  (<["duration" := VNum (snd route)]>
  (<["price" := VNum price]>
  (<["driverId" := VNull]>
  (<["driver" := VNull]>
  (<["vehicleCategory" := VStr (selectedCategory form)]>
  (<["paymentMethod" := VStr (selectedPayment form)]> ∅)))))))))))).

(** [try { p } catch (error) { handler(error) }] *)
Fixpoint catch (p : Prog) (handler : string -> Prog) : Prog :=
  match p with
  | Done => Done
  | Throw code => handler code
  | Call rq k => Call rq (fun r => catch (k r) handler)
  end.

(** [handleConfirmRide], lines 346-442.  [route] is what the routing
    service answers to [createRoute] for the two places: the distance and
    the duration, or nothing. *)
Definition handleConfirmRide (u : Session) (form : Form) (route : option (Q * Q)) : Prog :=
  match origin form, destination form with
  | Some o, Some d =>
      if String.eqb (selectedCategory form) EmptyString then Done else
      if String.eqb (uid u) EmptyString then Done else
      Call (GetDoc USERS (uid u)) (fun userDoc =>
        match userDoc with
        | RSnapshot (Some userData) =>
            if negb (strictEqStr (userData !! "role") "passenger") then Done else
            match List.find (fun c => String.eqb (Pricing.id c) (selectedCategory form))
                            (categories form) with
            | None => Done
            | Some selectedVehicle =>
                match route with
                | None => Done
                | Some routeInfo =>
                    catch (RideRequest.createRideWithRetry
                             (rideDocument u form o d selectedVehicle routeInfo) 0)
                          (fun _ => Done)
                end
            end
        | _ => Done
        end)
  | _, _ => Done
  end.

End Confirm.

(* ===================================================================== *)
(** * The listeners on a ride document                                    *)
(* ===================================================================== *)

Module Listeners.
Import JS Firestore Rides.

(** An asynchronous callback that ends by telling the page what to show. *)
Inductive Task (A : Type) : Type :=
| Ret (a : A)
| Await (rq : Request) (k : Response -> Task A).

Arguments Ret {A} a.
Arguments Await {A} rq k.

(** Run a callback against the store; [None]: the client is gone before the
    end. *)
Fixpoint runTask {A : Type} (fates : list Fate) (t : Task A) (db : Store) : Store * option A :=
  match t with
  | Ret a => (db, Some a)
  | Await rq k =>
      match fates with
      | [] => (db, None)
      | f :: fates' =>
          let '(db', resp) := settle db f rq in
          runTask fates' (k resp) db'
      end
  end.

(** What a callback does to the page. *)
Inductive View :=
| Show (ride : Doc)        (* setRide(ride) *)
| Leave (toast : string)   (* the toast, then navigate('/') *)
| Keep.                    (* the state is left as it was *)

(** The callback of the listener of the RideStatus page,
    src/unnamed/part_004 lines 24-49, on a snapshot of the active ride
    document [rideId]; a read that fails rejects the callback's promise. *)
Definition onStatusSnapshot (rideId : string) (snapshot : option Doc) : Task View :=
  match snapshot with
  | Some data => Ret (Show (snapshotObject rideId data))
  | None =>
      Await (GetDoc COMPLETED_RIDES rideId) (fun completedDoc =>
        match completedDoc with
        | RSnapshot (Some data) => Ret (Show (snapshotObject rideId data))
        | RSnapshot None =>
            Await (GetDoc CANCELLED_RIDES rideId) (fun cancelledDoc =>
              match cancelledDoc with
              | RSnapshot (Some data) => Ret (Show (snapshotObject rideId data))
              | RSnapshot None => Ret (Leave "Corrida não encontrada")
              | _ => Ret Keep
              end)
        | _ => Ret Keep
        end)
  end.

(** The callback of the listener of the request page,
    src/pages/RideRequest.tsx lines 980-1032: only the completed rides are
    searched. *)
Definition onRequestSnapshot (rideId : string) (snapshot : option Doc) : Task View :=
  match snapshot with
  | Some data => Ret (Show (snapshotObject rideId data))
  | None =>
      Await (GetDoc COMPLETED_RIDES rideId) (fun completedRideDoc =>
        match completedRideDoc with
        | RSnapshot (Some data) => Ret (Show (snapshotObject rideId data))
        | RSnapshot None => Ret (Leave "Corrida finalizada")
        | _ => Ret Keep
        end)
  end.

(** The request page opens the rating dialog for a ride it shows as
    completed (lines 986-988 and 1012-1015). *)
Definition showRatingModal (v : View) : bool :=
  match v with
  | Show ride => strictEqStr (ride !! "status") "completed"
  | _ => false
  end.

End Listeners.

(* ===================================================================== *)
(** * scripts/migrateRides.ts                                             *)
(* ===================================================================== *)

Module Migration.
Import JS Firestore Rides.

(** The collection of the old layout. *)
Definition LEGACY_RIDES : string := "rides".

(** Lines 24-33: where a ride goes. *)
Definition targetCollection (ride : Doc) : string :=
  if strictEqStr (ride !! "status") "completed" then COMPLETED_RIDES
  else if strictEqStr (ride !! "status") "cancelled" then CANCELLED_RIDES
  else ACTIVE_RIDES.

(** The two requests for one ride. *)
Definition migrationRequests (entry : string * Doc) : list Request :=
  let ride := snapshotObject (fst entry) (snd entry) in
  [AddDoc (targetCollection ride) ride; DeleteDoc LEGACY_RIDES (fst entry)].

(** The loop of lines 20-40 over the documents of the snapshot: a ride is
    copied, then removed from the old collection; an error is logged and
    the loop goes on with the next ride. *)
Fixpoint migrateLoop (docs : list (string * Doc)) : Prog :=
  match docs with
  | [] => Done
  | (i, data) :: rest =>
      let ride := snapshotObject i data in
      Call (AddDoc (targetCollection ride) ride) (fun r =>
        match r with
        | RError _ => migrateLoop rest
        | _ => Call (DeleteDoc LEGACY_RIDES i) (fun _ => migrateLoop rest)
        end)
  end.

(** [migrateRides], for the snapshot that [getDocs] returns. *)
Definition migrateRides (db : Store) : Prog :=
  migrateLoop (map_to_list (coll db LEGACY_RIDES)).

(** All the decisions are to serve. *)
Definition allServed (fates : list Fate) : bool :=
  forallb (fun f => match f with Served _ => true | Rejected _ => false end) fates.

(** The document ids drawn along a list of decisions. *)
Definition servedIds (fates : list Fate) : list string :=
  flat_map (fun f => match f with Served a => [a] | Rejected _ => [] end) fates.

End Migration.

(* ===================================================================== *)
(** * firestore.rules, the rides                                          *)
(* ===================================================================== *)

Module Rules.
Import JS Firestore Rides DriverPage.

(** [get(path).data.f == s]; an error (no such document, no such field)
    denies like [false], the rules having no negation. *)
Definition fieldIs (d : option Doc) (f s : string) : bool :=
  match d with
  | Some data => strictEqStr (data !! f) s
  | None => false
  end.

Definition isNull (d : option Doc) (f : string) : bool :=
  match d with
  | Some data => match data !! f with Some VNull => true | _ => false end
  | None => false
  end.

(** The helper functions of lines 10-33, for the signed-in user [auth]. *)
Definition isAdmin (db : Store) (auth : string) : bool :=
  fieldIs (getDoc db USERS auth) "email" "adm@gmail.com".

Definition isPassenger (db : Store) (auth : string) : bool :=
  fieldIs (getDoc db USERS auth) "role" "passenger".

Definition isApprovedDriver (db : Store) (auth : string) : bool :=
  fieldIs (getDoc db DRIVERS auth) "status" "approved".

(** [match /activeRides/{rideId}]: create, update and delete; [resource] is
    the stored document. *)
Definition activeRideCreate (db : Store) (auth : string) : bool :=
  isPassenger db auth.

Definition activeRideUpdate (db : Store) (auth : string) (resource : option Doc) : bool :=
  (isApprovedDriver db auth
   && (isNull resource "driverId" || fieldIs resource "driverId" auth))
  || (isPassenger db auth && fieldIs resource "userId" auth)
  || isAdmin db auth.

Definition activeRideDelete (db : Store) (auth : string) (resource : option Doc) : bool :=
  fieldIs resource "userId" auth
  || fieldIs resource "driverId" auth
  || isAdmin db auth.

(** [allow create] of [completedRides] and of [cancelledRides]. *)
Definition archiveCreate (db : Store) (auth : string) : bool :=
  isApprovedDriver db auth || isPassenger db auth || isAdmin db auth.

End Rules.

(* ===================================================================== *)
(** * Properties of the pricing functions                                 *)
(* ===================================================================== *)

Module PricingFacts.
Import JS Pricing.

Local Open Scope Q_scope.

(** Linear arithmetic over [Q], once the divisions by the constants of the
    code are written as multiplications. *)
Ltac qlra :=
  unfold Qdiv in *;
  change (/ 100) with (1 # 100) in *;
  change (/ 1000) with (1 # 1000) in *;
  lra.

(** ** Rounding *)



Lemma Math_round_mono (x y : Q) : x <= y -> Math_round x <= Math_round y.
Proof.
  intros H. unfold Math_round. rewrite <- Zle_Qle.
  apply Qfloor_resp_le. lra.
Qed.





Lemma round2_mono (x y : Q) :
  x <= y -> Math_round (x * 100) / 100 <= Math_round (y * 100) / 100.
Proof.
  intros H.
  pose proof (Math_round_mono (x * 100) (y * 100)) as M.
  assert (x * 100 <= y * 100) by qlra. specialize (M H0). qlra.
Qed.

(** ** [Math.max] *)


Lemma Math_max_ge_r (a b : Q) : b <= Math_max a b.
Proof.
  unfold Math_max. destruct (Qle_bool a b) eqn:E; [qlra |].
  destruct (Qlt_le_dec b a) as [L | L]; [qlra |].
  apply Qle_bool_iff in L. congruence.
Qed.

Lemma Math_max_ge_l (a b : Q) : a <= Math_max a b.
Proof.
  unfold Math_max. destruct (Qle_bool a b) eqn:E; [| qlra].
  apply Qle_bool_iff in E. exact E.
Qed.

Lemma Math_max_l (a b : Q) : b <= a -> Math_max a b == a.
Proof.
  intros H. unfold Math_max. destruct (Qle_bool a b) eqn:E; [| reflexivity].
  apply Qle_bool_iff in E. qlra.
Qed.

Lemma Math_max_r (a b : Q) : a <= b -> Math_max a b == b.
Proof.
  intros H. unfold Math_max. destruct (Qle_bool a b) eqn:E; [reflexivity |].
  apply Qle_bool_iff in H. congruence.
Qed.


End PricingFacts.

Module PricingClaims.
Import JS Pricing PricingFacts Examples.

Local Open Scope Q_scope.

(** ** Peak-hour windows *)

Lemma inPeriod_spec (h m : Z) (p : PeakHourPeriod) :
  inPeriod h m p = true <-> within_window h m p.
Proof.
  unfold inPeriod, within_window, nge, nle.
  destruct (toMinutes (start p)) as [s |], (toMinutes (end_ p)) as [e |];
    rewrite ?andb_false_r; split; intros H; try discriminate;
    try (destruct H as (s' & e' & Hs & He & H1 & H2); try discriminate).
  - apply andb_true_iff in H as [H1 H2].
    exists s, e. repeat split; lia.
  - injection Hs as <-. injection He as <-.
    apply andb_true_iff. split; lia.
Qed.

Lemma isPeakHour_spec (category : VehicleCategory) (t : Date) :
  existsb (inPeriod (getHours t) (getMinutes t))
          (peakHours (dynamicPricing category)) = true
  <-> within_some_window category t.
Proof.
  unfold within_some_window. rewrite existsb_exists.
  split; intros (p & Hin & H); exists p; split; auto; now apply inPeriod_spec.
Qed.

Lemma overnight_not_inPeriod (p : PeakHourPeriod) (h m : Z) :
  overnight p -> inPeriod h m p = false.
Proof.
  intros (s & e & Hs & He & Hlt).
  destruct (inPeriod h m p) eqn:E; [| reflexivity].
  apply inPeriod_spec in E as (s' & e' & Hs' & He' & H).
  rewrite Hs in Hs'. rewrite He in He'.
  injection Hs' as <-. injection He' as <-. lia.
Qed.

(** On a well-formed "HH:mm" string the code's conversion is
    [60 * HH + mm]. *)
Lemma isDigit_cases (c : ascii) :
  isDigit c = true ->
  In c ["0"; "1"; "2"; "3"; "4"; "5"; "6"; "7"; "8"; "9"]%char.
Proof.
  destruct c as [[] [] [] [] [] [] [] []]; intros H;
    try discriminate H; simpl; tauto.
Qed.

Lemma parseInt_two_digits (a b : ascii) :
  isDigit a = true -> isDigit b = true ->
  parseInt (String a (String b EmptyString)) = Some (10 * digit a + digit b)%Z.
Proof.
  intros Ha Hb.
  apply isDigit_cases in Ha. apply isDigit_cases in Hb.
  set (digits := ["0"; "1"; "2"; "3"; "4"; "5"; "6"; "7"; "8"; "9"]%char) in *.
  set (ok := fun x y : ascii =>
         match parseInt (String x (String y EmptyString)) with
         | Some z => (z =? 10 * digit x + digit y)%Z
         | None => false
         end).
  assert (T : forallb (fun x => forallb (ok x) digits) digits = true)
    by (vm_compute; reflexivity).
  rewrite forallb_forall in T. specialize (T a Ha).
  rewrite forallb_forall in T. specialize (T b Hb).
  unfold ok in T.
  destruct (parseInt _) as [z |]; [| discriminate].
  apply Z.eqb_eq in T. now subst.
Qed.

Lemma split_hhmm (h1 h0 m1 m0 : ascii) :
  isDigit h1 = true -> isDigit h0 = true ->
  isDigit m1 = true -> isDigit m0 = true ->
  split ":" (hhmm h1 h0 m1 m0)
  = [String h1 (String h0 EmptyString); String m1 (String m0 EmptyString)].
Proof.
  intros H1 H0 M1 M0.
  assert (N : forall c, isDigit c = true -> Ascii.eqb c ":" = false).
  { intros c Hc. apply isDigit_cases in Hc. simpl in Hc.
    repeat (destruct Hc as [<- | Hc]; [reflexivity |]). contradiction. }
  unfold hhmm. cbn [split].
  rewrite (N h1 H1), (N h0 H0), (N m1 M1), (N m0 M0). reflexivity.
Qed.

Lemma toMinutes_hhmm (h1 h0 m1 m0 : ascii) :
  isDigit h1 = true -> isDigit h0 = true ->
  isDigit m1 = true -> isDigit m0 = true ->
  toMinutes (hhmm h1 h0 m1 m0)
  = Some ((10 * digit h1 + digit h0) * 60 + (10 * digit m1 + digit m0))%Z.
Proof.
  intros H1 H0 M1 M0. unfold toMinutes.
  rewrite split_hhmm by assumption. cbn [indexToString nth_error].
  rewrite !parseInt_two_digits by assumption. reflexivity.
Qed.

(** The price before rounding, as the code computes it. *)
Lemma calculateDynamicPrice_unfold (category : VehicleCategory) (f : PricingFactors) :
  calculateDynamicPrice category f =
  let raw := basePrice category + distance f / 1000 * pricePerKm category in
  let peak := existsb (inPeriod (getHours (currentTime f)) (getMinutes (currentTime f)))
                      (peakHours (dynamicPricing category)) in
  let p1 := if peak then raw * peakHoursMultiplier (dynamicPricing category) else raw in
  let p2 := if isRaining f then p1 * rainMultiplier (dynamicPricing category) else p1 in
  Math_round (Math_max p2 (minPrice category) * 100) / 100.
Proof. reflexivity. Qed.

(** ** C5: the simple fare *)


(** ** C1: the dynamic fare *)



(** ** C8: the minimum fare *)



(** ** C9: overnight windows *)

(** C9.  A window whose start, in minutes since midnight, is later than its
    end never classifies a time as peak: its membership test is false at
    every time, and listing it among the peak hours of a category never
    changes a price. *)
Theorem overnight_window_never_peak (p : PeakHourPeriod) (Hov : overnight p) :
  (forall h m, inPeriod h m p = false) /\
  (forall h m, ~ within_window h m p) /\
  (forall category l f,
     calculateDynamicPrice (withPeakHours category (p :: l)) f
     = calculateDynamicPrice (withPeakHours category l) f).
Proof.
  split; [| split].
  - intros h m. now apply overnight_not_inPeriod.
  - intros h m W. apply inPeriod_spec in W.
    rewrite overnight_not_inPeriod in W by assumption. discriminate.
  - intros category l f.
    rewrite !calculateDynamicPrice_unfold. cbn.
    rewrite overnight_not_inPeriod by assumption. reflexivity.
Qed.

Lemma overnight_window_never_peak_witness :
  inPeriod 23 30 overnightPeak = false /\ inPeriod 2 0 overnightPeak = false.
Proof.
  assert (Hov : overnight overnightPeak).
  { exists 1320%Z, 360%Z.
    split; [reflexivity | split; [reflexivity | lia]]. }
  split; apply (proj1 (overnight_window_never_peak overnightPeak Hov)).
Defined.

(** ** C10: only the hour and the minute of the clock matter *)

(** C10.  For any two dates with the same hour and the same minute, and
    otherwise identical inputs, [calculateDynamicPrice] returns the same
    price. *)
Theorem price_depends_on_hour_minute
    (category : VehicleCategory) (rain : bool) (d : Q) (t1 t2 : Date)
    (Hh : getHours t1 = getHours t2) (Hm : getMinutes t1 = getMinutes t2) :
  calculateDynamicPrice category (mkFactors rain t1 d)
  = calculateDynamicPrice category (mkFactors rain t2 d).
Proof.
  rewrite !calculateDynamicPrice_unfold. cbn [currentTime isRaining distance].
  rewrite Hh, Hm. reflexivity.
Qed.

Lemma price_depends_on_hour_minute_witness :
  calculateDynamicPrice economy (mkFactors true noon 8000)
  = calculateDynamicPrice economy (mkFactors true noonLater 8000).
Proof.
  apply (price_depends_on_hour_minute economy true 8000 noon noonLater);
    reflexivity.
Defined.

(** ** C6: distance zero *)






End PricingClaims.

(* ===================================================================== *)
(** * Properties of the store and of running a handler                    *)
(* ===================================================================== *)

Module StoreFacts.
Import JS Firestore.

Lemma coll_putDoc (db : Store) (c c' i : string) (d : Doc) :
  coll (putDoc db c i d) c' = if decide (c = c') then <[i := d]> (coll db c) else coll db c'.
Proof.
  unfold coll, putDoc. case_decide as E.
  - subst. now rewrite lookup_insert_eq.
  - now rewrite lookup_insert_ne.
Qed.

Lemma coll_removeDoc (db : Store) (c c' i : string) :
  coll (removeDoc db c i) c' = if decide (c = c') then delete i (coll db c) else coll db c'.
Proof.
  unfold coll, removeDoc. case_decide as E.
  - subst. now rewrite lookup_insert_eq.
  - now rewrite lookup_insert_ne.
Qed.

Lemma getDoc_putDoc (db : Store) (c c' i i' : string) (d : Doc) :
  getDoc (putDoc db c i d) c' i' =
  if decide (c = c' /\ i = i') then Some d else getDoc db c' i'.
Proof.
  unfold getDoc. rewrite coll_putDoc.
  destruct (decide (c = c')) as [-> |]; case_decide as E.
  - destruct E as [_ ->]. now rewrite lookup_insert_eq.
  - rewrite lookup_insert_ne; [reflexivity | intros ->; apply E; auto].
  - destruct E as [-> _]. congruence.
  - reflexivity.
Qed.

Lemma getDoc_removeDoc (db : Store) (c c' i i' : string) :
  getDoc (removeDoc db c i) c' i' =
  if decide (c = c' /\ i = i') then None else getDoc db c' i'.
Proof.
  unfold getDoc. rewrite coll_removeDoc.
  destruct (decide (c = c')) as [-> |]; case_decide as E.
  - destruct E as [_ ->]. now rewrite lookup_delete_eq.
  - rewrite lookup_delete_ne; [reflexivity | intros ->; apply E; auto].
  - destruct E as [-> _]. congruence.
  - reflexivity.
Qed.

(** A rejected request, a read and a timer leave the store as it is. *)
Lemma settle_rejected (db : Store) (code : string) (rq : Request) :
  fst (settle db (Rejected code) rq) = db.
Proof. destruct rq; reflexivity. Qed.

Lemma settle_read (db : Store) (f : Fate) (rq : Request) :
  isWrite rq = false -> fst (settle db f rq) = db.
Proof. destruct rq, f; simpl; intros H; try discriminate; reflexivity. Qed.

(** A handler that has returned or thrown sends nothing more. *)
Lemma run_done (fates : list Fate) (db : Store) (sent : list Request) :
  run fates Done db sent = mkOutcome db sent Returned.
Proof. destruct fates; reflexivity. Qed.

Lemma run_throw (fates : list Fate) (code : string) (db : Store) (sent : list Request) :
  run fates (Throw code) db sent = mkOutcome db sent (Thrown code).
Proof. destruct fates; reflexivity. Qed.

(** The requests already sent stay at the front of the trace. *)
Lemma run_trace (fates : list Fate) (p : Prog) (db : Store) (sent : list Request) :
  trace (run fates p db sent) = sent ++ trace (run fates p db []).
Proof.
  revert p db sent.
  induction fates as [| f fates IH]; intros p db sent; destruct p as [| code | rq k];
    simpl; rewrite ?app_nil_r; try reflexivity.
  destruct (settle db f rq) as [db' resp].
  rewrite (IH _ _ (sent ++ [rq])), (IH _ _ [rq]).
  now rewrite <- app_assoc.
Qed.

Lemma run_final (fates : list Fate) (p : Prog) (db : Store) (sent : list Request) :
  final (run fates p db sent) = final (run fates p db []).
Proof.
  revert p db sent.
  induction fates as [| f fates IH]; intros p db sent; destruct p as [| code | rq k];
    simpl; try reflexivity.
  destruct (settle db f rq) as [db' resp].
  now rewrite (IH _ _ (sent ++ [rq])), (IH _ _ [rq]).
Qed.

Lemma run_result (fates : list Fate) (p : Prog) (db : Store) (sent : list Request) :
  result (run fates p db sent) = result (run fates p db []).
Proof.
  revert p db sent.
  induction fates as [| f fates IH]; intros p db sent; destruct p as [| code | rq k];
    simpl; try reflexivity.
  destruct (settle db f rq) as [db' resp].
  now rewrite (IH _ _ (sent ++ [rq])), (IH _ _ [rq]).
Qed.

(** One step of a run. *)
Lemma exec_call (f : Fate) (fates : list Fate) (rq : Request) (k : Response -> Prog)
    (db : Store) :
  let o := exec fates (k (snd (settle db f rq))) (fst (settle db f rq)) in
  trace (exec (f :: fates) (Call rq k) db) = rq :: trace o /\
  final (exec (f :: fates) (Call rq k) db) = final o /\
  result (exec (f :: fates) (Call rq k) db) = result o.
Proof.
  unfold exec. simpl. destruct (settle db f rq) as [db' resp]. simpl.
  rewrite run_trace, run_final, run_result. auto.
Qed.

(** Everything in the trace of a run is a request the handler can send. *)
Lemma trace_sends (fates : list Fate) (p : Prog) (db : Store) (rq : Request) :
  In rq (trace (exec fates p db)) -> sends p rq.
Proof.
  revert p db.
  induction fates as [| f fates IH]; intros p db; destruct p as [| code | rq0 k];
    try (simpl; tauto).
  destruct (exec_call f fates rq0 k db) as (Ht & _ & _). rewrite Ht.
  intros [<- | H].
  - constructor.
  - eapply sends_later, IH, H.
Qed.

(** A handler that sends no write leaves the store as it found it. *)
Lemma no_write_no_change (fates : list Fate) (p : Prog) (db : Store) :
  (forall rq, sends p rq -> isWrite rq = false) ->
  final (exec fates p db) = db.
Proof.
  revert p db.
  induction fates as [| f fates IH]; intros p db H; destruct p as [| code | rq0 k];
    try reflexivity.
  destruct (exec_call f fates rq0 k db) as (_ & Hf & _). rewrite Hf.
  assert (E : fst (settle db f rq0) = db).
  { apply settle_read, H. constructor. }
  rewrite E. apply IH. intros rq Hs. apply H. eapply sends_later, Hs.
Qed.

End StoreFacts.

(* ===================================================================== *)
(** * Properties of the ride handlers                                     *)
(* ===================================================================== *)

Module RideClaims.
Import JS Firestore Rides DriverHome StoreFacts Examples.

(** ** C2: accepting a ride *)

Lemma acceptFields_status (u : Session) :
  acceptFields u !! "status" = Some (VStr "accepted").
Proof. reflexivity. Qed.

Lemma acceptFields_driverId (u : Session) :
  acceptFields u !! "driverId" = Some (VStr (uid u)).
Proof. reflexivity. Qed.

Lemma acceptable_spec (snap : option Doc) :
  acceptable snap = true <->
  exists rideData, snap = Some rideData /\
    rideData !! "status" = Some (VStr "pending") /\
    truthy (rideData !! "driverId") = false.
Proof.
  unfold acceptable. split.
  - destruct snap as [rideData |]; [| discriminate].
    intros H. apply andb_true_iff in H as [Hs Hd].
    exists rideData. split; [reflexivity | split].
    + unfold strictEqStr in Hs.
      destruct (rideData !! "status") as [[] |]; try discriminate.
      apply String.eqb_eq in Hs. now subst.
    + now apply negb_true_iff in Hd.
  - intros (rideData & -> & Hs & Hd). rewrite Hs, Hd. reflexivity.
Qed.

#[local] Arguments acceptable : simpl never.

(** The runs of [handleAcceptRide], case by case. *)
Lemma exec_accept (u : Session) (ride : Doc) (db : Store) (fates : list Fate)
    (rideId : string) :
  isProcessing u = false ->
  docId (ride !! "id") = Some rideId ->
  exec fates (handleAcceptRide u ride) db =
  match fates with
  | [] => mkOutcome db [] Stopped
  | Rejected _ :: _ => mkOutcome db [GetDoc ACTIVE_RIDES rideId] Returned
  | Served _ :: rest =>
      match getDoc db ACTIVE_RIDES rideId with
      | Some rideData =>
          if acceptable (Some rideData) then
            match rest with
            | [] => mkOutcome db [GetDoc ACTIVE_RIDES rideId] Stopped
            | Served _ :: _ =>
                mkOutcome (putDoc db ACTIVE_RIDES rideId (acceptFields u ∪ rideData))
                  [GetDoc ACTIVE_RIDES rideId;
                   UpdateDoc ACTIVE_RIDES rideId (acceptFields u)]
                  Returned
            | Rejected _ :: _ =>
                mkOutcome db
                  [GetDoc ACTIVE_RIDES rideId;
                   UpdateDoc ACTIVE_RIDES rideId (acceptFields u)]
                  Returned
            end
          else mkOutcome db [GetDoc ACTIVE_RIDES rideId] Returned
      | None => mkOutcome db [GetDoc ACTIVE_RIDES rideId] Returned
      end
  end.
Proof.
  intros Eproc Eid. unfold exec, handleAcceptRide. rewrite Eproc, Eid.
  destruct fates as [| [a1 | c1] rest]; cbn [run settle serve];
    rewrite ?run_done; try reflexivity.
  destruct (getDoc db ACTIVE_RIDES rideId) as [rideData |] eqn:Eget;
    rewrite ?run_done; try reflexivity.
  unfold acceptable.
  destruct (strictEqStr (rideData !! "status") "pending"),
           (truthy (rideData !! "driverId"));
    cbn [negb orb andb]; rewrite ?run_done; try reflexivity.
  destruct rest as [| [a2 | c2] rest']; cbn [run settle serve];
    rewrite ?Eget, ?run_done; reflexivity.
Qed.

(** A write of [handleAcceptRide] comes after a re-read that passed the
    check, and is the update of lines 619-624. *)
Lemma accept_write_checked (u : Session) (ride : Doc) (db : Store)
    (fates : list Fate) (rq : Request) :
  In rq (trace (exec fates (handleAcceptRide u ride) db)) ->
  isWrite rq = true ->
  exists rideId,
    docId (ride !! "id") = Some rideId /\
    acceptable (getDoc db ACTIVE_RIDES rideId) = true /\
    rq = UpdateDoc ACTIVE_RIDES rideId (acceptFields u).
Proof.
  destruct (isProcessing u) eqn:Eproc.
  { unfold handleAcceptRide. rewrite Eproc. unfold exec. rewrite run_done.
    simpl. tauto. }
  destruct (docId (ride !! "id")) as [rideId |] eqn:Eid.
  2: { unfold handleAcceptRide. rewrite Eproc, Eid. unfold exec.
       rewrite run_done. simpl. tauto. }
  rewrite (exec_accept u ride db fates rideId Eproc Eid).
  intros Hin Hw.
  destruct fates as [| [a1 | c1] rest]; simpl in Hin;
    [tauto | | destruct Hin as [<- | []]; discriminate].
  destruct (getDoc db ACTIVE_RIDES rideId) as [rideData |] eqn:Eget;
    simpl in Hin; [| destruct Hin as [<- | []]; discriminate].
  destruct (acceptable (Some rideData)) eqn:Eacc;
    simpl in Hin; [| destruct Hin as [<- | []]; discriminate].
  exists rideId. split; [reflexivity | split; [rewrite Eget; exact Eacc |]].
  destruct rest as [| [a2 | c2] rest']; simpl in Hin;
    destruct Hin as [<- | Hin]; try discriminate;
    try (destruct Hin as [<- | []]); try tauto; auto.
Qed.

(** C2, as the code has it.  [handleAcceptRide] sends a write only after it
    has re-read the ride and found it to exist with [status] equal to
    [pending] and a falsy [driverId] (null, absent, or the empty string, 0 or
    [false]); that write sets [status] to [accepted] and [driverId] to the
    driver's id.  When the re-read ride fails the check or does not exist,
    nothing is written and the store is unchanged.  When the check passes
    and both requests are served, the stored ride carries the new fields. *)
Theorem accept_guard (u : Session) (ride : Doc) (db : Store) (fates : list Fate) :
  let o := exec fates (handleAcceptRide u ride) db in
  (forall rq, In rq (trace o) -> isWrite rq = true ->
     exists rideId rideData,
       docId (ride !! "id") = Some rideId /\
       getDoc db ACTIVE_RIDES rideId = Some rideData /\
       rideData !! "status" = Some (VStr "pending") /\
       truthy (rideData !! "driverId") = false /\
       rq = UpdateDoc ACTIVE_RIDES rideId (acceptFields u) /\
       writtenStatus rq = Some (VStr "accepted") /\
       acceptFields u !! "driverId" = Some (VStr (uid u))) /\
  (forall rideId,
     docId (ride !! "id") = Some rideId ->
     acceptable (getDoc db ACTIVE_RIDES rideId) = false ->
     final o = db /\ forall rq, In rq (trace o) -> isWrite rq = false) /\
  (forall rideId rideData a1 a2 rest,
     isProcessing u = false ->
     docId (ride !! "id") = Some rideId ->
     getDoc db ACTIVE_RIDES rideId = Some rideData ->
     acceptable (Some rideData) = true ->
     fates = Served a1 :: Served a2 :: rest ->
     getDoc (final o) ACTIVE_RIDES rideId = Some (acceptFields u ∪ rideData)).
Proof.
  cbv zeta. split.
  { intros rq Hin Hw.
    destruct (accept_write_checked u ride db fates rq Hin Hw)
      as (rideId & Hid & Hacc & ->).
    apply acceptable_spec in Hacc as (rideData & Eget & Hs & Hd).
    exists rideId, rideData. auto 10. }
  destruct (isProcessing u) eqn:Eproc.
  { unfold handleAcceptRide. rewrite Eproc. unfold exec. rewrite run_done. simpl.
    split; [tauto | discriminate]. }
  destruct (docId (ride !! "id")) as [rideId |] eqn:Eid.
  2: { unfold handleAcceptRide. rewrite Eproc, Eid. unfold exec. rewrite run_done.
       simpl. split; [tauto | discriminate]. }
  rewrite (exec_accept u ride db fates rideId Eproc Eid).
  split.
  - intros rideId' Hid' Hacc. injection Hid' as <-.
    destruct fates as [| [a1 | c1] rest]; simpl.
    + tauto.
    + destruct (getDoc db ACTIVE_RIDES rideId) as [rideData |];
        rewrite ?Hacc; simpl; (split; [reflexivity |]);
        intros rq [<- | []]; reflexivity.
    + split; [reflexivity |]. intros rq [<- | []]; reflexivity.
  - intros rideId' rideData a1 a2 rest _ Hid' Eget Hacc ->.
    injection Hid' as <-. rewrite Eget, Hacc. simpl.
    rewrite getDoc_putDoc. case_decide as E; [reflexivity |].
    exfalso. apply E. auto.
Qed.

(** C2, as stated, fails: a pending ride whose [driverId] is the empty
    string, neither null nor absent, passes the check and is written. *)
Lemma accept_guard_counterexample :
  getDoc dbBlank ACTIVE_RIDES "r1" = Some blankDriverRide /\
  blankDriverRide !! "status" = Some (VStr "pending") /\
  blankDriverRide !! "driverId" = Some (VStr EmptyString) /\
  ~ pendingUnassigned (getDoc dbBlank ACTIVE_RIDES "r1") /\
  trace acceptBlank =
    [GetDoc ACTIVE_RIDES "r1"; UpdateDoc ACTIVE_RIDES "r1" (acceptFields driver)] /\
  default ∅ (getDoc (final acceptBlank) ACTIVE_RIDES "r1") !! "status"
    = Some (VStr "accepted") /\
  default ∅ (getDoc (final acceptBlank) ACTIVE_RIDES "r1") !! "driverId"
    = Some (VStr "d1").
Proof.
  assert (E : getDoc dbBlank ACTIVE_RIDES "r1" = Some blankDriverRide)
    by (vm_compute; reflexivity).
  split; [exact E |].
  split; [vm_compute; reflexivity |].
  split; [vm_compute; reflexivity |].
  split.
  - rewrite E. intros (d & Hd & _ & [H | H]); injection Hd as <-;
      vm_compute in H; discriminate.
  - split; [vm_compute; reflexivity |].
    split; vm_compute; reflexivity.
Qed.

(** ** C3: the lifecycle *)

Lemma strictEqStr_true (v : option Value) (s : string) :
  strictEqStr v s = true -> v = Some (VStr s).
Proof.
  unfold strictEqStr. destruct v as [[] |]; try discriminate.
  intros H. apply String.eqb_eq in H. now subst.
Qed.

Lemma docId_id (ride : Doc) (rideId : string) :
  docId (ride !! "id") = Some rideId -> ride !! "id" = Some (VStr rideId).
Proof.
  unfold docId. destruct (ride !! "id") as [[] |]; try discriminate.
  destruct (String.eqb _ _); [discriminate |]. now intros [= ->].
Qed.

(** The copies written to the archives carry the terminal status, the time,
    and the fields of the ride. *)
Lemma completedCopy_status (u : Session) (ride : Doc) :
  completedCopy u ride !! "status" = Some (VStr "completed").
Proof. unfold completedCopy. now simplify_map_eq. Qed.

Lemma completedCopy_completedAt (u : Session) (ride : Doc) :
  completedCopy u ride !! "completedAt" = Some (VTimestamp (now u)).
Proof. unfold completedCopy. now simplify_map_eq. Qed.

Lemma completedCopy_id (u : Session) (ride : Doc) :
  completedCopy u ride !! "id" = ride !! "id".
Proof. unfold completedCopy. now simplify_map_eq. Qed.

Lemma rejectedCopy_status (u : Session) (ride : Doc) :
  rejectedCopy u ride !! "status" = Some (VStr "cancelled").
Proof. unfold rejectedCopy. now simplify_map_eq. Qed.

Lemma cancelledCopy_status (t : Z) (ride : Doc) :
  RideStatus.cancelledCopy t ride !! "status" = Some (VStr "cancelled").
Proof. unfold RideStatus.cancelledCopy. now simplify_map_eq. Qed.

Lemma cancelledCopy_cancelledAt (t : Z) (ride : Doc) :
  RideStatus.cancelledCopy t ride !! "cancelledAt" = Some (VTimestamp t).
Proof. unfold RideStatus.cancelledCopy. now simplify_map_eq. Qed.

Lemma cancelledCopy_id (t : Z) (ride : Doc) :
  RideStatus.cancelledCopy t ride !! "id" = ride !! "id".
Proof. unfold RideStatus.cancelledCopy. now simplify_map_eq. Qed.

(** The status, if any, written by a request that a handler can send. *)
Ltac sends_cases H :=
  repeat match type of H with
         | sends (Call _ _) _ =>
             let r := fresh "r" in
             let H' := fresh "Hs" in
             inversion H as [| ? ? r ? H']; subst; clear H;
             [| try (destruct r as [[?|] | | |]); cbn beta iota in H'; rename H' into H]
         | sends Done _ => inversion H
         | sends (Throw _) _ => inversion H
         | sends (match ?x with _ => _ end) _ => destruct x eqn:?
         | sends (if ?x then _ else _) _ => destruct x eqn:?
         end.

Lemma accept_writes (u : Session) (ride : Doc) (rq : Request) (v : Value) :
  sends (handleAcceptRide u ride) rq -> writtenStatus rq = Some v ->
  v = statusValue accepted.
Proof.
  unfold handleAcceptRide. intros H Hw.
  sends_cases H; simpl in Hw; try discriminate.
  all: rewrite ?acceptFields_status in Hw; now injection Hw as <-.
Qed.

Lemma reject_writes (u : Session) (ride : Doc) (rq : Request) (v : Value) :
  sends (handleRejectRide u ride) rq -> writtenStatus rq = Some v ->
  v = statusValue cancelled.
Proof.
  unfold handleRejectRide. intros H Hw.
  sends_cases H; simpl in Hw; try discriminate.
  all: rewrite ?rejectedCopy_status in Hw; now injection Hw as <-.
Qed.

Lemma notify_writes (sel : option Doc) (rq : Request) (v : Value) :
  sends (handleNotifyArrival sel) rq -> writtenStatus rq = Some v -> False.
Proof.
  unfold handleNotifyArrival. intros H Hw.
  sends_cases H; simpl in Hw; discriminate.
Qed.

Lemma start_writes (u : Session) (ride : Doc) (rq : Request) (v : Value) :
  sends (handleStartRide u ride) rq -> writtenStatus rq = Some v ->
  v = statusValue inProgress.
Proof.
  unfold handleStartRide. intros H Hw.
  sends_cases H; simpl in Hw; try discriminate.
  all: now injection Hw as <-.
Qed.

Lemma complete_writes (u : Session) (ride : Doc) (rq : Request) (v : Value) :
  sends (handleCompleteRide u ride) rq -> writtenStatus rq = Some v ->
  v = statusValue completed.
Proof.
  unfold handleCompleteRide. intros H Hw.
  sends_cases H; simpl in Hw; try discriminate.
  all: rewrite ?completedCopy_status in Hw; now injection Hw as <-.
Qed.

Lemma cancel_writes (user : option string) (t : Z) (ride : option Doc)
    (rq : Request) (v : Value) :
  sends (RideStatus.handleCancelRide user t ride) rq -> writtenStatus rq = Some v ->
  v = statusValue cancelled.
Proof.
  unfold RideStatus.handleCancelRide. intros H Hw.
  sends_cases H; simpl in Hw; try discriminate.
  all: rewrite ?cancelledCopy_status in Hw; now injection Hw as <-.
Qed.

(** The ride objects built from the query of the available rides satisfy
    its two conditions. *)
Lemma snapshotObject_lookup (i : string) (data : Doc) (f : string) :
  f <> "id" -> snapshotObject i data !! f = data !! f.
Proof.
  intros N. unfold snapshotObject. rewrite lookup_union.
  rewrite lookup_singleton_ne by congruence.
  now destruct (data !! f).
Qed.

Lemma availableRidesQuery_available (db : Store) (ride : Doc) :
  In ride (availableRidesQuery db) -> isAvailable ride = true.
Proof.
  unfold availableRidesQuery. rewrite in_map_iff.
  intros ([i data] & <- & Hin).
  apply list_elem_of_In, list_elem_of_filter in Hin as [Hav _].
  unfold isAvailable in *.
  now rewrite !snapshotObject_lookup by discriminate.
Qed.

Lemma request_cancel_writes (i : option string) (rq : Request) (v : Value) :
  sends (RideRequest.handleCancelRide i) rq -> writtenStatus rq = Some v -> False.
Proof.
  unfold RideRequest.handleCancelRide. intros H Hw.
  sends_cases H; simpl in Hw; discriminate.
Qed.

(** C3, as the code has it.  Every operation that a page offers for a ride
    object writes, whatever the store answers, only a status that the
    lifecycle allows after the status of that ride object; accepting writes
    only if the ride as re-read from the store is pending.  (Starting,
    completing and cancelling do not look at the stored ride again.) *)
Theorem offered_operations_follow_lifecycle
    (u : Session) (b : Button) (ride : Doc) (db : Store) (fates : list Fate)
    (rq : Request) (v : Value)
    (Hoff : offers ride b)
    (Hin : In rq (trace (exec fates (onClick u b ride) db)))
    (Hw : writtenStatus rq = Some v) :
  exists from to : Status,
    statusOf (ride !! "status") = Some from /\
    v = statusValue to /\
    allowed from to = true /\
    (b = BtnAccept ->
       exists rideId rideData,
         docId (ride !! "id") = Some rideId /\
         getDoc db ACTIVE_RIDES rideId = Some rideData /\
         statusOf (rideData !! "status") = Some pending).
Proof.
  assert (Hrd : b = BtnAccept ->
     exists rideId rideData,
       docId (ride !! "id") = Some rideId /\
       getDoc db ACTIVE_RIDES rideId = Some rideData /\
       statusOf (rideData !! "status") = Some pending).
  { intros ->. cbn [onClick] in Hin.
    assert (Hwr : isWrite rq = true) by (destruct rq; simpl in *; congruence).
    destruct (accept_write_checked u ride db fates rq Hin Hwr)
      as (rideId & Hid & Hacc & _).
    apply acceptable_spec in Hacc as (rideData & Eget & Hs & _).
    exists rideId, rideData. rewrite Hs. auto. }
  apply trace_sends in Hin.
  inversion Hoff as [? ? Hav Hb | ? ? Hb | ? ? Hb | ? ? Hb]; subst.
  - apply andb_true_iff in Hav as [Hst _].
    apply strictEqStr_true in Hst.
    exists pending. destruct Hb as [<- | [<- | []]]; cbn [onClick] in Hin.
    + exists cancelled. rewrite Hst.
      rewrite (reject_writes _ _ _ _ Hin Hw). auto.
    + exists accepted. rewrite Hst.
      rewrite (accept_writes _ _ _ _ Hin Hw). auto.
  - unfold activeRideButtons in Hb.
    destruct (strictEqStr (ride !! "status") "accepted") eqn:Ea.
    + apply strictEqStr_true in Ea. rewrite Ea in *. simpl in Hb.
      exists accepted. destruct Hb as [<- | [<- | []]]; cbn [onClick] in Hin.
      * destruct (notify_writes _ _ _ Hin Hw).
      * exists inProgress. rewrite (start_writes _ _ _ _ Hin Hw).
        split; [reflexivity | split; [reflexivity | split; [reflexivity |]]].
        discriminate.
    + destruct (strictEqStr (ride !! "status") "inProgress") eqn:Ei;
        simpl in Hb; [| destruct Hb].
      apply strictEqStr_true in Ei. rewrite Ei in *.
      destruct Hb as [<- | []]; cbn [onClick] in Hin.
      exists inProgress, completed. rewrite (complete_writes _ _ _ _ Hin Hw).
      split; [reflexivity | split; [reflexivity | split; [reflexivity |]]].
      discriminate.
  - unfold RideStatus.rideStatusButtons in Hb.
    destruct (strictEqStr (ride !! "status") "pending") eqn:Ep; [| destruct Hb].
    apply strictEqStr_true in Ep. rewrite Ep in *.
    destruct Hb as [<- | []]; cbn [onClick] in Hin.
    exists pending, cancelled. rewrite (cancel_writes _ _ _ _ _ Hin Hw).
    split; [reflexivity | split; [reflexivity | split; [reflexivity |]]].
    discriminate.
  - unfold RideRequest.requestButtons in Hb.
    destruct (truthy (ride !! "driver")); [destruct Hb |].
    destruct Hb as [<- | []]; cbn [onClick] in Hin.
    destruct (request_cancel_writes _ _ _ Hin Hw).
Qed.

Lemma offered_operations_follow_lifecycle_witness :
  exists from to : Status,
    statusOf (viewAccepted !! "status") = Some from /\
    VStr "inProgress" = statusValue to /\
    allowed from to = true /\
    (BtnStart = BtnAccept ->
       exists rideId rideData,
         docId (viewAccepted !! "id") = Some rideId /\
         getDoc db1 ACTIVE_RIDES rideId = Some rideData /\
         statusOf (rideData !! "status") = Some pending).
Proof.
  apply (offered_operations_follow_lifecycle driver BtnStart viewAccepted db1
           [served] startRequest (VStr "inProgress")).
  - apply offers_active. vm_compute. auto.
  - vm_compute. left. reflexivity.
  - vm_compute. reflexivity.
Defined.

(** C3, as stated, fails.  The passenger's page shows the ride as pending and
    offers to cancel it; meanwhile the driver accepts and starts the ride;
    the passenger's cancellation then archives the ride as cancelled and
    removes it while its stored status is [inProgress]. *)
Lemma lifecycle_counterexample :
  offers viewPending BtnCancel /\
  offers viewPending BtnAccept /\
  offers viewAccepted BtnStart /\
  statusOf (default ∅ (getDoc db0 ACTIVE_RIDES "r1") !! "status") = Some pending /\
  statusOf (default ∅ (getDoc db1 ACTIVE_RIDES "r1") !! "status") = Some accepted /\
  statusOf (default ∅ (getDoc db2 ACTIVE_RIDES "r1") !! "status") = Some inProgress /\
  getDoc db3 ACTIVE_RIDES "r1" = None /\
  default ∅ (getDoc db3 CANCELLED_RIDES "c1") !! "id" = Some (VStr "r1") /\
  statusOf (default ∅ (getDoc db3 CANCELLED_RIDES "c1") !! "status") = Some cancelled /\
  allowed inProgress cancelled = false.
Proof.
  split; [apply offers_status; vm_compute; auto |].
  split; [apply offers_available; vm_compute; auto |].
  split; [apply offers_active; vm_compute; auto |].
  repeat split; vm_compute; reflexivity.
Qed.

(** ** C4: archiving a ride *)

(** The runs of [handleCompleteRide], case by case. *)
Lemma exec_complete (u : Session) (ride : Doc) (db : Store) (fates : list Fate)
    (rideId : string) :
  isProcessing u = false ->
  docId (ride !! "id") = Some rideId ->
  let copy := SetDoc COMPLETED_RIDES rideId (completedCopy u ride) in
  let del := DeleteDoc ACTIVE_RIDES rideId in
  let db' := putDoc db COMPLETED_RIDES rideId (completedCopy u ride) in
  exec fates (handleCompleteRide u ride) db =
  match fates with
  | [] => mkOutcome db [] Stopped
  | Rejected _ :: _ => mkOutcome db [copy] Returned
  | Served _ :: [] => mkOutcome db' [copy] Stopped
  | Served _ :: Served _ :: _ =>
      mkOutcome (removeDoc db' ACTIVE_RIDES rideId) [copy; del] Returned
  | Served _ :: Rejected _ :: _ => mkOutcome db' [copy; del] Returned
  end.
Proof.
  intros Eproc Eid. unfold exec, handleCompleteRide. rewrite Eproc, Eid.
  destruct fates as [| [a1 | c1] [| [a2 | c2] rest]]; cbn [run settle serve];
    rewrite ?run_done; reflexivity.
Qed.

(** The runs of the passenger's [handleCancelRide], case by case. *)
Lemma exec_cancel (user : string) (t : Z) (ride : Doc) (db : Store)
    (fates : list Fate) (rideId : string) :
  docId (ride !! "id") = Some rideId ->
  let copy := AddDoc CANCELLED_RIDES (RideStatus.cancelledCopy t ride) in
  let del := DeleteDoc ACTIVE_RIDES rideId in
  exec fates (RideStatus.handleCancelRide (Some user) t (Some ride)) db =
  match fates with
  | [] => mkOutcome db [] Stopped
  | Rejected _ :: _ => mkOutcome db [copy] Returned
  | Served a :: [] =>
      mkOutcome (putDoc db CANCELLED_RIDES a (RideStatus.cancelledCopy t ride)) [copy] Stopped
  | Served a :: Served _ :: _ =>
      mkOutcome (removeDoc (putDoc db CANCELLED_RIDES a (RideStatus.cancelledCopy t ride))
                           ACTIVE_RIDES rideId)
                [copy; del] Returned
  | Served a :: Rejected _ :: _ =>
      mkOutcome (putDoc db CANCELLED_RIDES a (RideStatus.cancelledCopy t ride))
                [copy; del] Returned
  end.
Proof.
  intros Eid. unfold exec, RideStatus.handleCancelRide.
  destruct fates as [| [a1 | c1] [| [a2 | c2] rest]]; cbn [run settle serve];
    rewrite ?Eid; cbn [run settle serve]; rewrite ?run_done; reflexivity.
Qed.

Lemma archives_differ :
  COMPLETED_RIDES <> ACTIVE_RIDES /\ CANCELLED_RIDES <> ACTIVE_RIDES.
Proof. split; discriminate. Qed.

Lemma getDoc_put_other (db : Store) (c c' i i' : string) (d : Doc) :
  c <> c' -> getDoc (putDoc db c i d) c' i' = getDoc db c' i'.
Proof.
  intros N. rewrite getDoc_putDoc. case_decide as E; [| reflexivity].
  destruct E. contradiction.
Qed.

Lemma getDoc_put_same (db : Store) (c i : string) (d : Doc) :
  getDoc (putDoc db c i d) c i = Some d.
Proof.
  rewrite getDoc_putDoc. case_decide as E; [reflexivity |].
  exfalso. apply E. auto.
Qed.

Lemma getDoc_remove_other (db : Store) (c c' i i' : string) :
  c <> c' -> getDoc (removeDoc db c i) c' i' = getDoc db c' i'.
Proof.
  intros N. rewrite getDoc_removeDoc. case_decide as E; [| reflexivity].
  destruct E. contradiction.
Qed.

Lemma getDoc_remove_same (db : Store) (c i : string) :
  getDoc (removeDoc db c i) c i = None.
Proof.
  rewrite getDoc_removeDoc. case_decide as E; [reflexivity |].
  exfalso. apply E. auto.
Qed.

Lemma holds_doc (db : Store) (c rideId : string) :
  is_Some (getDoc db c rideId) -> holds db c rideId.
Proof. intros [d Hd]. exists rideId, d. auto. Qed.

(** Whatever the store answers and whenever the client dies, a completion
    leaves the ride in the active collection or in the archive. *)
Lemma complete_never_loses (u : Session) (ride : Doc) (db : Store)
    (fates : list Fate) (rideId : string) :
  docId (ride !! "id") = Some rideId ->
  is_Some (getDoc db ACTIVE_RIDES rideId) ->
  holds (final (exec fates (handleCompleteRide u ride) db)) ACTIVE_RIDES rideId \/
  holds (final (exec fates (handleCompleteRide u ride) db)) COMPLETED_RIDES rideId.
Proof.
  intros Eid Hact. destruct archives_differ as [Nc _].
  destruct (isProcessing u) eqn:Eproc.
  { unfold handleCompleteRide, exec. rewrite Eproc, run_done. simpl.
    left. now apply holds_doc. }
  rewrite (exec_complete u ride db fates rideId Eproc Eid). cbv zeta.
  destruct fates as [| [a1 | c1] [| [a2 | c2] rest]]; simpl;
    try (left; now apply holds_doc);
    right; apply holds_doc; rewrite ?getDoc_remove_other by congruence;
    rewrite getDoc_put_same; eauto.
Qed.

Lemma cancel_never_loses (user : string) (t : Z) (ride : Doc) (db : Store)
    (fates : list Fate) (rideId : string) :
  docId (ride !! "id") = Some rideId ->
  is_Some (getDoc db ACTIVE_RIDES rideId) ->
  holds (final (exec fates (RideStatus.handleCancelRide (Some user) t (Some ride)) db))
        ACTIVE_RIDES rideId \/
  holds (final (exec fates (RideStatus.handleCancelRide (Some user) t (Some ride)) db))
        CANCELLED_RIDES rideId.
Proof.
  intros Eid Hact. destruct archives_differ as [_ Nc].
  rewrite (exec_cancel user t ride db fates rideId Eid). cbv zeta.
  destruct fates as [| [a1 | c1] [| [a2 | c2] rest]]; simpl;
    try (left; now apply holds_doc);
    right; exists a1, (RideStatus.cancelledCopy t ride);
    (split; [rewrite ?getDoc_remove_other by congruence; apply getDoc_put_same
            | right; rewrite cancelledCopy_id; now apply docId_id]).
Qed.

(** C4, as the code has it.  Completion and cancellation each send two
    requests: first the copy of the ride, with its terminal status and the
    time, to the archive ([completedRides] under the ride's id,
    [cancelledRides] under a new id), then the deletion of the active
    document.  Nothing ties the two together: when the client dies between
    them, or the deletion is refused, the ride is in both collections.  No
    run leaves the ride in neither. *)
Theorem archive_then_delete
    (u : Session) (ride : Doc) (rideId : string) (db : Store) (a1 a2 code : string)
    (Hproc : isProcessing u = false)
    (Hid : docId (ride !! "id") = Some rideId)
    (Hact : is_Some (getDoc db ACTIVE_RIDES rideId)) :
  let complete := handleCompleteRide u ride in
  let cancel := RideStatus.handleCancelRide (Some (uid u)) (now u) (Some ride) in
  (trace (exec [Served a1; Served a2] complete db)
     = [SetDoc COMPLETED_RIDES rideId (completedCopy u ride);
        DeleteDoc ACTIVE_RIDES rideId] /\
   completedCopy u ride !! "status" = Some (VStr "completed") /\
   completedCopy u ride !! "completedAt" = Some (VTimestamp (now u)) /\
   getDoc (final (exec [Served a1; Served a2] complete db)) COMPLETED_RIDES rideId
     = Some (completedCopy u ride) /\
   getDoc (final (exec [Served a1; Served a2] complete db)) ACTIVE_RIDES rideId
     = None) /\
  (trace (exec [Served a1; Served a2] cancel db)
     = [AddDoc CANCELLED_RIDES (RideStatus.cancelledCopy (now u) ride);
        DeleteDoc ACTIVE_RIDES rideId] /\
   RideStatus.cancelledCopy (now u) ride !! "status" = Some (VStr "cancelled") /\
   RideStatus.cancelledCopy (now u) ride !! "cancelledAt" = Some (VTimestamp (now u)) /\
   RideStatus.cancelledCopy (now u) ride !! "id" = Some (VStr rideId) /\
   getDoc (final (exec [Served a1; Served a2] cancel db)) CANCELLED_RIDES a1
     = Some (RideStatus.cancelledCopy (now u) ride) /\
   getDoc (final (exec [Served a1; Served a2] cancel db)) ACTIVE_RIDES rideId
     = None) /\
  (result (exec [Served a1] complete db) = Stopped /\
   holds (final (exec [Served a1] complete db)) COMPLETED_RIDES rideId /\
   holds (final (exec [Served a1] complete db)) ACTIVE_RIDES rideId) /\
  (result (exec [Served a1] cancel db) = Stopped /\
   holds (final (exec [Served a1] cancel db)) CANCELLED_RIDES rideId /\
   holds (final (exec [Served a1] cancel db)) ACTIVE_RIDES rideId) /\
  (holds (final (exec [Served a1; Rejected code] complete db)) COMPLETED_RIDES rideId /\
   holds (final (exec [Served a1; Rejected code] complete db)) ACTIVE_RIDES rideId) /\
  (holds (final (exec [Served a1; Rejected code] cancel db)) CANCELLED_RIDES rideId /\
   holds (final (exec [Served a1; Rejected code] cancel db)) ACTIVE_RIDES rideId) /\
  (forall fates,
     holds (final (exec fates complete db)) ACTIVE_RIDES rideId \/
     holds (final (exec fates complete db)) COMPLETED_RIDES rideId) /\
  (forall fates,
     holds (final (exec fates cancel db)) ACTIVE_RIDES rideId \/
     holds (final (exec fates cancel db)) CANCELLED_RIDES rideId).
Proof.
  cbv zeta. destruct archives_differ as [Nc Nx].
  pose proof (docId_id ride rideId Hid) as Hrid.
  pose proof (exec_complete u ride db) as Ec. cbv zeta in Ec.
  pose proof (exec_cancel (uid u) (now u) ride db) as Ex. cbv zeta in Ex.
  assert (Hcopy : holds (putDoc db COMPLETED_RIDES rideId (completedCopy u ride))
                        COMPLETED_RIDES rideId).
  { apply holds_doc. rewrite getDoc_put_same. eauto. }
  assert (Hcopy' : holds (putDoc db CANCELLED_RIDES a1 (RideStatus.cancelledCopy (now u) ride))
                         CANCELLED_RIDES rideId).
  { exists a1, (RideStatus.cancelledCopy (now u) ride).
    split; [apply getDoc_put_same | right].
    now rewrite cancelledCopy_id. }
  assert (Hstill : forall c i d, c <> ACTIVE_RIDES ->
                     holds (putDoc db c i d) ACTIVE_RIDES rideId).
  { intros c i d N. apply holds_doc. now rewrite getDoc_put_other. }
  repeat match goal with |- _ /\ _ => split end.
  - rewrite (Ec _ rideId Hproc Hid). reflexivity.
  - apply completedCopy_status.
  - apply completedCopy_completedAt.
  - rewrite (Ec _ rideId Hproc Hid). simpl.
    rewrite getDoc_remove_other by congruence. apply getDoc_put_same.
  - rewrite (Ec _ rideId Hproc Hid). simpl. apply getDoc_remove_same.
  - rewrite (Ex _ rideId Hid). reflexivity.
  - apply cancelledCopy_status.
  - apply cancelledCopy_cancelledAt.
  - now rewrite cancelledCopy_id.
  - rewrite (Ex _ rideId Hid). simpl.
    rewrite getDoc_remove_other by congruence. apply getDoc_put_same.
  - rewrite (Ex _ rideId Hid). simpl. apply getDoc_remove_same.
  - rewrite (Ec _ rideId Hproc Hid). reflexivity.
  - rewrite (Ec _ rideId Hproc Hid). exact Hcopy.
  - rewrite (Ec _ rideId Hproc Hid). now apply Hstill.
  - rewrite (Ex _ rideId Hid). reflexivity.
  - rewrite (Ex _ rideId Hid). exact Hcopy'.
  - rewrite (Ex _ rideId Hid). now apply Hstill.
  - rewrite (Ec _ rideId Hproc Hid). exact Hcopy.
  - rewrite (Ec _ rideId Hproc Hid). now apply Hstill.
  - rewrite (Ex _ rideId Hid). exact Hcopy'.
  - rewrite (Ex _ rideId Hid). now apply Hstill.
  - intros fates. now apply complete_never_loses.
  - intros fates. now apply cancel_never_loses.
Qed.

Lemma viewInProgress_active : is_Some (getDoc db2 ACTIVE_RIDES "r1").
Proof. apply is_Some_alt. vm_compute. exact I. Qed.

Lemma archive_then_delete_witness :
  getDoc (final (exec [served; served] (handleCompleteRide driver viewInProgress) db2))
         ACTIVE_RIDES "r1" = None /\
  holds (final (exec [served] (handleCompleteRide driver viewInProgress) db2))
        ACTIVE_RIDES "r1".
Proof.
  pose proof (archive_then_delete driver viewInProgress "r1" db2 EmptyString EmptyString
                "unavailable"
                eq_refl eq_refl viewInProgress_active) as H.
  cbv zeta in H.
  destruct H as ((_ & _ & _ & _ & H1) & _ & (_ & _ & H2) & _).
  split; [exact H1 | exact H2].
Defined.

(** C4, as stated, fails in its last words: when the client dies between the
    copy and the delete the ride is in both collections, not in neither;
    this for the completion and for the cancellation. *)
Lemma archive_counterexample :
  (result crashedCompletion = Stopped /\
   trace crashedCompletion
     = [SetDoc COMPLETED_RIDES "r1" (completedCopy driver viewInProgress)] /\
   is_Some (getDoc (final crashedCompletion) COMPLETED_RIDES "r1") /\
   is_Some (getDoc (final crashedCompletion) ACTIVE_RIDES "r1") /\
   ~ (~ holds (final crashedCompletion) ACTIVE_RIDES "r1" /\
      ~ holds (final crashedCompletion) COMPLETED_RIDES "r1")) /\
  (result crashedCancellation = Stopped /\
   trace crashedCancellation
     = [AddDoc CANCELLED_RIDES (RideStatus.cancelledCopy 3000 viewPending)] /\
   default ∅ (getDoc (final crashedCancellation) CANCELLED_RIDES "c1") !! "id"
     = Some (VStr "r1") /\
   is_Some (getDoc (final crashedCancellation) ACTIVE_RIDES "r1") /\
   ~ (~ holds (final crashedCancellation) ACTIVE_RIDES "r1" /\
      ~ holds (final crashedCancellation) CANCELLED_RIDES "r1")).
Proof.
  assert (A1 : is_Some (getDoc (final crashedCompletion) ACTIVE_RIDES "r1"))
    by (apply is_Some_alt; vm_compute; exact I).
  assert (A2 : is_Some (getDoc (final crashedCancellation) ACTIVE_RIDES "r1"))
    by (apply is_Some_alt; vm_compute; exact I).
  split.
  - split; [reflexivity |].
    split; [vm_compute; reflexivity |].
    split; [apply is_Some_alt; vm_compute; exact I |].
    split; [exact A1 |].
    intros [N _]. apply N, holds_doc, A1.
  - split; [reflexivity |].
    split; [vm_compute; reflexivity |].
    split; [vm_compute; reflexivity |].
    split; [exact A2 |].
    intros [N _]. apply N, holds_doc, A2.
Qed.

End RideClaims.

(* ===================================================================== *)
(** * Properties of the creation of a ride                                *)
(* ===================================================================== *)

Module RetryClaims.
Import JS Firestore Rides RideRequest StoreFacts Examples.

(** ** C7: creating a ride, with retries *)

(** One attempt of [createRideWithRetry], for each answer of the store. *)
Lemma run_create_served (newRide : Doc) (n : nat) (a : string) (fates : list Fate)
    (db : Store) (sent : list Request) :
  run (Served a :: fates) (createRideWithRetry newRide n) db sent
  = mkOutcome (putDoc db ACTIVE_RIDES a newRide)
              (sent ++ [AddDoc ACTIVE_RIDES newRide]) Returned.
Proof.
  rewrite createRideWithRetry_equation_1. cbn [run settle serve].
  now rewrite run_done.
Qed.

Lemma run_create_other (newRide : Doc) (n : nat) (code : string) (fates : list Fate)
    (db : Store) (sent : list Request) :
  code <> QUOTA ->
  run (Rejected code :: fates) (createRideWithRetry newRide n) db sent
  = mkOutcome db (sent ++ [AddDoc ACTIVE_RIDES newRide]) (Thrown code).
Proof.
  intros N. rewrite createRideWithRetry_equation_1. cbn [run settle serve].
  apply String.eqb_neq in N. unfold QUOTA in N. rewrite N.
  now rewrite run_throw.
Qed.

Lemma run_create_spent (newRide : Doc) (n : nat) (fates : list Fate)
    (db : Store) (sent : list Request) :
  (3 <= n)%nat ->
  run (Rejected QUOTA :: fates) (createRideWithRetry newRide n) db sent
  = mkOutcome db (sent ++ [AddDoc ACTIVE_RIDES newRide]) (Thrown QUOTA).
Proof.
  intros N. rewrite createRideWithRetry_equation_1. cbn [run settle serve].
  cbn [QUOTA String.eqb Ascii.eqb Bool.eqb andb].
  change (String.eqb QUOTA "resource-exhausted") with true. cbv iota.
  destruct (lt_dec n 3) as [L | L]; [lia |].
  now rewrite run_throw.
Qed.

Lemma run_create_retry (newRide : Doc) (n : nat) (f : Fate) (fates : list Fate)
    (db : Store) (sent : list Request) :
  (n < 3)%nat ->
  run (Rejected QUOTA :: f :: fates) (createRideWithRetry newRide n) db sent
  = run fates (createRideWithRetry newRide (n + 1)) db
        (sent ++ [AddDoc ACTIVE_RIDES newRide; Sleep (2 ^ Z.of_nat n * 1000)]).
Proof.
  intros N. rewrite createRideWithRetry_equation_1 at 1. cbn [run settle serve].
  change (String.eqb QUOTA "resource-exhausted") with true. cbv iota.
  destruct (lt_dec n 3) as [L | L]; [| lia].
  cbn [run settle]. unfold Math_pow2. now rewrite <- app_assoc.
Qed.

Lemma nth_error_skip2 {A : Type} (x y : A) (l : list A) (i : nat) :
  nth_error (x :: y :: l) (2 * S i) = nth_error l (2 * i).
Proof. replace (2 * S i)%nat with (S (S (2 * i))) by lia. reflexivity. Qed.

(** From retry count [n], with [k] retries left and enough decisions to reach
    the end: the run makes [m <= k] retries, all of them after a refusal for
    lack of quota, and ends with the outcome of attempt [m]. *)
Lemma run_create_policy (newRide : Doc) (db : Store) (k : nat) :
  forall (n : nat) (fates : list Fate) (sent : list Request),
    (n + k = 3)%nat -> (2 * k + 1 <= length fates)%nat ->
    exists m : nat,
      (m <= k)%nat /\
      trace (run fates (createRideWithRetry newRide n) db sent)
        = sent ++ retryTrace newRide n m /\
      (forall i, (i < m)%nat -> attemptFate fates i = Some (Rejected QUOTA)) /\
      match attemptFate fates m with
      | Some (Served a) =>
          result (run fates (createRideWithRetry newRide n) db sent) = Returned /\
          final (run fates (createRideWithRetry newRide n) db sent)
            = putDoc db ACTIVE_RIDES a newRide
      | Some (Rejected code) =>
          result (run fates (createRideWithRetry newRide n) db sent) = Thrown code /\
          (code <> QUOTA \/ m = k) /\
          final (run fates (createRideWithRetry newRide n) db sent) = db
      | None => False
      end.
Proof.
  induction k as [| k IH]; intros n fates sent Hn Hlen.
  - destruct fates as [| [a | code] rest]; [simpl in Hlen; lia | |];
      exists 0%nat; (split; [lia |]).
    + rewrite run_create_served. simpl. repeat split; auto. intros; lia.
    + destruct (decide (code = QUOTA)) as [-> | N].
      * rewrite run_create_spent by lia. simpl. repeat split; auto. intros; lia.
      * rewrite run_create_other by assumption. simpl.
        repeat split; auto. intros; lia.
  - destruct fates as [| [a | code] rest]; [simpl in Hlen; lia | |].
    + exists 0%nat. split; [lia |].
      rewrite run_create_served. simpl. repeat split; auto. intros; lia.
    + destruct (decide (code = QUOTA)) as [-> | N].
      * destruct rest as [| s rest]; [simpl in Hlen; lia |].
        rewrite run_create_retry by lia.
        destruct (IH (n + 1)%nat rest
                     (sent ++ [AddDoc ACTIVE_RIDES newRide;
                               Sleep (2 ^ Z.of_nat n * 1000)]))
          as (m & Hm & Ht & Hre & Hlast); [lia | simpl in Hlen; lia |].
        exists (S m). split; [lia |]. split; [| split].
        -- rewrite Ht, <- app_assoc. simpl. now rewrite Nat.add_1_r.
        -- intros [| i] Hi; [reflexivity |].
           unfold attemptFate. rewrite nth_error_skip2. apply Hre. lia.
        -- unfold attemptFate in *. rewrite nth_error_skip2.
           destruct (nth_error rest (2 * m)) as [[a | code] |]; auto.
           destruct Hlast as (Hr & [Hc | Hc] & Hf); repeat split; auto.
      * exists 0%nat. split; [lia |].
        rewrite run_create_other by assumption. simpl.
        repeat split; auto. intros; lia.
Qed.

(** C7.  The creation of a ride is retried only after a failure whose code
    is [resource-exhausted], at most 3 times, after a delay of
    [2 ^ retryCount] seconds before each retry; any other error, and
    [resource-exhausted] once the three retries are spent, is thrown to the
    caller and nothing more is sent. *)
Theorem createRideWithRetry_policy (newRide : Doc) (db : Store) (fates : list Fate)
    (Hlen : (7 <= length fates)%nat) :
  exists n : nat,
    (n <= 3)%nat /\
    trace (exec fates (createRideWithRetry newRide 0) db) = retryTrace newRide 0 n /\
    (forall i, (i < n)%nat -> attemptFate fates i = Some (Rejected QUOTA)) /\
    match attemptFate fates n with
    | Some (Served autoId) =>
        result (exec fates (createRideWithRetry newRide 0) db) = Returned /\
        final (exec fates (createRideWithRetry newRide 0) db)
          = putDoc db ACTIVE_RIDES autoId newRide
    | Some (Rejected code) =>
        result (exec fates (createRideWithRetry newRide 0) db) = Thrown code /\
        (code <> QUOTA \/ n = 3%nat) /\
        final (exec fates (createRideWithRetry newRide 0) db) = db
    | None => False
    end.
Proof.
  unfold exec.
  destruct (run_create_policy newRide db 3 0 fates []) as (m & H); [lia | simpl; lia |].
  exists m. exact H.
Qed.

Lemma createRideWithRetry_policy_witness :
  exists n : nat,
    (n <= 3)%nat /\
    trace (exec busyThenFree (createRideWithRetry Examples.newRide 0) ∅)
      = retryTrace Examples.newRide 0 n /\
    (forall i, (i < n)%nat -> attemptFate busyThenFree i = Some (Rejected QUOTA)) /\
    match attemptFate busyThenFree n with
    | Some (Served autoId) =>
        result (exec busyThenFree (createRideWithRetry Examples.newRide 0) ∅) = Returned /\
        final (exec busyThenFree (createRideWithRetry Examples.newRide 0) ∅)
          = putDoc ∅ ACTIVE_RIDES autoId Examples.newRide
    | Some (Rejected code) =>
        result (exec busyThenFree (createRideWithRetry Examples.newRide 0) ∅)
          = Thrown code /\
        (code <> QUOTA \/ n = 3%nat) /\
        final (exec busyThenFree (createRideWithRetry Examples.newRide 0) ∅) = ∅
    | None => False
    end.
Proof.
  apply (createRideWithRetry_policy Examples.newRide ∅ busyThenFree).
  simpl. lia.
Defined.

(** The delays of a creation that succeeds at the fourth attempt: 1, 2 and
    4 seconds. *)
Example three_retries :
  trace (exec busyThenFree (createRideWithRetry Examples.newRide 0) ∅)
  = [AddDoc ACTIVE_RIDES Examples.newRide; Sleep 1000;
     AddDoc ACTIVE_RIDES Examples.newRide; Sleep 2000;
     AddDoc ACTIVE_RIDES Examples.newRide; Sleep 4000;
     AddDoc ACTIVE_RIDES Examples.newRide]
  /\ result (exec busyThenFree (createRideWithRetry Examples.newRide 0) ∅) = Returned.
Proof. split; vm_compute; reflexivity. Qed.

End RetryClaims.

(* ===================================================================== *)
(** * Further properties of the pricing functions                         *)
(* ===================================================================== *)

Module PricingMore.
Import JS Pricing PricingFacts PricingClaims Estimate Examples.

Local Open Scope Q_scope.

Lemma Math_max_mono (a a' b : Q) : a <= a' -> Math_max a b <= Math_max a' b.
Proof.
  intros H.
  destruct (Qlt_le_dec b a) as [L | L].
  - rewrite (Math_max_l a b), (Math_max_l a' b) by qlra. exact H.
  - rewrite (Math_max_r a b) by qlra. apply Math_max_ge_r.
Qed.

Lemma Math_round_compat (x y : Q) : x == y -> Math_round x = Math_round y.
Proof.
  intros E. unfold Math_round. f_equal. apply Qfloor_comp. now rewrite E.
Qed.

(** ** A longer ride never costs less *)

(** X1.  With a per-km rate that is not negative, [calculatePrice] is
    monotone in the distance. *)
Theorem calculatePrice_monotone (d1 d2 r b : Q) (Hr : 0 <= r) (Hd : d1 <= d2) :
  calculatePrice d1 r b <= calculatePrice d2 r b.
Proof.
  unfold calculatePrice. cbv zeta. apply round2_mono.
  assert (0 <= (d2 - d1) * r) by (apply Qmult_le_0_compat; qlra).
  qlra.
Qed.

Lemma calculatePrice_monotone_witness :
  calculatePrice 1000 2 5 <= calculatePrice 2500 2 5.
Proof.
  apply calculatePrice_monotone; vm_compute; discriminate.
Defined.

(** X2.  With a per-km rate and multipliers that are not negative, the
    dynamic price is monotone in the distance, whatever the weather and the
    time. *)
Theorem calculateDynamicPrice_monotone
    (category : VehicleCategory) (rain : bool) (t : Date) (d1 d2 : Q)
    (Hk : 0 <= pricePerKm category)
    (Hp : 0 <= peakHoursMultiplier (dynamicPricing category))
    (Hr : 0 <= rainMultiplier (dynamicPricing category))
    (Hd : d1 <= d2) :
  calculateDynamicPrice category (mkFactors rain t d1)
  <= calculateDynamicPrice category (mkFactors rain t d2).
Proof.
  rewrite !calculateDynamicPrice_unfold. cbn [currentTime isRaining distance].
  cbv zeta. apply round2_mono, Math_max_mono.
  assert (R : basePrice category + d1 / 1000 * pricePerKm category
              <= basePrice category + d2 / 1000 * pricePerKm category).
  { assert (0 <= (d2 - d1) * pricePerKm category)
      by (apply Qmult_le_0_compat; qlra).
    qlra. }
  destruct (existsb _ _), rain; try exact R;
    repeat (apply Qmult_le_compat_r; [| assumption]); exact R.
Qed.

Lemma calculateDynamicPrice_monotone_witness :
  calculateDynamicPrice economy (mkFactors true eight 1000)
  <= calculateDynamicPrice economy (mkFactors true eight 9000).
Proof.
  apply calculateDynamicPrice_monotone; vm_compute; discriminate.
Defined.

(** ** The dynamic price against the simple one *)

(** X3.  For the same distance, rate and base price, the dynamic price is
    never below the simple price when the raw price is not negative and both
    multipliers are at least 1; without rain and outside the peak windows
    the two are equal as soon as the raw price reaches the minimum price. *)
Theorem dynamic_price_at_least_simple
    (category : VehicleCategory) (f : PricingFactors)
    (Hraw : 0 <= basePrice category + distance f / 1000 * pricePerKm category)
    (Hp : 1 <= peakHoursMultiplier (dynamicPricing category))
    (Hr : 1 <= rainMultiplier (dynamicPricing category)) :
  calculatePrice (distance f) (pricePerKm category) (basePrice category)
  <= calculateDynamicPrice category f /\
  (isRaining f = false ->
   ~ within_some_window category (currentTime f) ->
   minPrice category
   <= basePrice category + distance f / 1000 * pricePerKm category ->
   calculateDynamicPrice category f
   == calculatePrice (distance f) (pricePerKm category) (basePrice category)).
Proof.
  rewrite calculateDynamicPrice_unfold. unfold calculatePrice. cbv zeta.
  set (raw := basePrice category + distance f / 1000 * pricePerKm category) in *.
  split.
  - apply round2_mono.
    eapply Qle_trans; [| apply Math_max_ge_l].
    set (P := peakHoursMultiplier (dynamicPricing category)) in *.
    set (R := rainMultiplier (dynamicPricing category)) in *.
    assert (A : raw <= raw * P).
    { assert (0 <= raw * (P - 1)) by (apply Qmult_le_0_compat; qlra). qlra. }
    assert (B : forall x, 0 <= x -> x <= x * R).
    { intros x Hx.
      assert (0 <= x * (R - 1)) by (apply Qmult_le_0_compat; qlra). qlra. }
    destruct (existsb _ _), (isRaining f).
    + eapply Qle_trans; [exact A | apply B; qlra].
    + exact A.
    + apply B, Hraw.
    + qlra.
  - intros Hrain Hoff Hmin. rewrite Hrain.
    destruct (existsb _ _) eqn:E.
    { exfalso. apply Hoff, isPeakHour_spec, E. }
    rewrite (Math_round_compat (Math_max raw (minPrice category) * 100) (raw * 100)).
    + reflexivity.
    + rewrite Math_max_l by exact Hmin. reflexivity.
Qed.

Lemma dynamic_price_at_least_simple_witness :
  calculatePrice 8000 2 5
  <= calculateDynamicPrice economy (mkFactors true eight 8000).
Proof.
  apply (proj1 (dynamic_price_at_least_simple economy (mkFactors true eight 8000)
                  ltac:(vm_compute; discriminate)
                  ltac:(vm_compute; discriminate)
                  ltac:(vm_compute; discriminate))).
Defined.

(** ** Windows that are not written as HH:mm *)

Lemma split_lacks (sep : ascii) (s : string) :
  lacks sep s = true -> split sep s = [s].
Proof.
  induction s as [| c s IH]; [reflexivity |].
  cbn [lacks split]. intros H. apply andb_true_iff in H as [Hc Hs].
  apply negb_true_iff in Hc. rewrite Hc, (IH Hs). reflexivity.
Qed.

Lemma toMinutes_lacks (s : string) : lacks ":" s = true -> toMinutes s = None.
Proof.
  intros H. unfold toMinutes. rewrite (split_lacks _ _ H).
  cbn [indexToString nth_error].
  change (parseInt "undefined") with (@None Z).
  destruct (nmul _ _); reflexivity.
Qed.

(** X4.  A window whose start or whose end contains no colon is never
    matched: its second component reads as NaN, and both comparisons with
    NaN are false. *)
Theorem window_without_colon_never_peak (p : PeakHourPeriod)
    (H : lacks ":" (start p) = true \/ lacks ":" (end_ p) = true) :
  forall h m, inPeriod h m p = false.
Proof.
  intros h m. unfold inPeriod. cbv zeta.
  destruct H as [H | H]; rewrite (toMinutes_lacks _ H).
  - reflexivity.
  - unfold nle. apply andb_false_r.
Qed.

Lemma window_without_colon_never_peak_witness :
  inPeriod 8 0 (mkPeriod "0700" "0900") = false.
Proof.
  apply window_without_colon_never_peak. left. reflexivity.
Defined.

(** ** The estimate of the request page *)

Lemma isDigit_range (c : ascii) : isDigit c = true -> (0 <= digit c <= 9)%Z.
Proof. unfold isDigit, digit. lia. Qed.

Lemma isClockTime_inv (s : string) :
  isClockTime s = true ->
  exists h1 h0 m1 m0,
    s = hhmm h1 h0 m1 m0 /\
    isDigit h1 = true /\ isDigit h0 = true /\
    isDigit m1 = true /\ isDigit m0 = true /\
    (10 * digit m1 + digit m0 < 60)%Z.
Proof.
  destruct s as [| h1 [| h0 [| c [| m1 [| m0 [| x s]]]]]]; try discriminate.
  cbn [isClockTime]. intros H.
  apply andb_true_iff in H as [H B]. apply andb_true_iff in H as [H M0].
  apply andb_true_iff in H as [H M1]. apply andb_true_iff in H as [H C].
  apply andb_true_iff in H as [H1 H0].
  apply Ascii.eqb_eq in C. subst c.
  exists h1, h0, m1, m0.
  repeat split; try assumption. lia.
Qed.

(** A number below 100, padded to two characters, is its two digits. *)
Lemma padStart_two_digits (n : Z) :
  (0 <= n < 100)%Z ->
  exists a b,
    padStart (toString n) 2 "0" = String a (String b EmptyString) /\
    isDigit a = true /\ isDigit b = true /\ (10 * digit a + digit b = n)%Z.
Proof.
  intros Hn.
  set (ok := fun k : nat =>
         match padStart (toString (Z.of_nat k)) 2 "0" with
         | String a (String b EmptyString) =>
             isDigit a && isDigit b && (10 * digit a + digit b =? Z.of_nat k)%Z
         | _ => false
         end).
  assert (T : forallb ok (seq 0 100) = true) by (vm_compute; reflexivity).
  rewrite forallb_forall in T.
  specialize (T (Z.to_nat n)). unfold ok in T.
  rewrite Z2Nat.id in T by lia.
  assert (I : In (Z.to_nat n) (seq 0 100)) by (apply in_seq; lia).
  specialize (T I).
  destruct (padStart _ _ _) as [| a [| b [| c r]]]; try discriminate.
  apply andb_true_iff in T as [T E]. apply andb_true_iff in T as [A B].
  exists a, b. repeat split; try assumption. lia.
Qed.

Lemma currentTimeString_hhmm (now : Date) :
  (0 <= getHours now < 24)%Z -> (0 <= getMinutes now < 60)%Z ->
  exists h1 h0 m1 m0,
    currentTimeString now = hhmm h1 h0 m1 m0 /\
    isDigit h1 = true /\ isDigit h0 = true /\
    isDigit m1 = true /\ isDigit m0 = true /\
    (10 * digit h1 + digit h0 = getHours now)%Z /\
    (10 * digit m1 + digit m0 = getMinutes now)%Z.
Proof.
  intros Hh Hm.
  destruct (padStart_two_digits (getHours now)) as (h1 & h0 & Eh & H1 & H0 & Vh);
    [lia |].
  destruct (padStart_two_digits (getMinutes now)) as (m1 & m0 & Em & M1 & M0 & Vm);
    [lia |].
  exists h1, h0, m1, m0. unfold currentTimeString. rewrite Eh, Em.
  repeat split; assumption.
Qed.

(** On two clock times the order of the strings is the order of the numbers
    HHmm. *)
Lemma strLe_hhmm (a1 a0 b1 b0 c1 c0 d1 d0 : ascii) :
  isDigit a1 = true -> isDigit a0 = true -> isDigit b1 = true -> isDigit b0 = true ->
  isDigit c1 = true -> isDigit c0 = true -> isDigit d1 = true -> isDigit d0 = true ->
  strLe (hhmm a1 a0 b1 b0) (hhmm c1 c0 d1 d0)
  = (100 * (10 * digit a1 + digit a0) + (10 * digit b1 + digit b0)
     <=? 100 * (10 * digit c1 + digit c0) + (10 * digit d1 + digit d0))%Z.
Proof.
  intros A1 A0 B1 B0 C1 C0 D1 D0.
  apply isDigit_range in A1, A0, B1, B0, C1, C0, D1, D0.
  unfold digit in *. unfold hhmm. cbn [strLe].
  rewrite (Nat.ltb_irrefl (nat_of_ascii ":")).
  repeat match goal with
         | |- context [(?x <? ?y)%nat] => destruct (Nat.ltb_spec x y)
         end;
    symmetry; first [apply Z.leb_le; lia | apply Z.leb_gt; lia].
Qed.

Lemma inPeriodText_inPeriod (now : Date) (p : PeakHourPeriod) :
  (0 <= getHours now < 24)%Z -> (0 <= getMinutes now < 60)%Z ->
  isClockTime (start p) = true -> isClockTime (end_ p) = true ->
  inPeriodText now p = inPeriod (getHours now) (getMinutes now) p.
Proof.
  intros Hh Hm Hs He.
  destruct (currentTimeString_hhmm now Hh Hm)
    as (h1 & h0 & m1 & m0 & Ec & H1 & H0 & M1 & M0 & Vh & Vm).
  destruct (isClockTime_inv _ Hs) as (s1 & s0 & t1 & t0 & Es & S1 & S0 & T1 & T0 & Bs).
  destruct (isClockTime_inv _ He) as (e1 & e0 & u1 & u0 & Ee & E1 & E0 & U1 & U0 & Be).
  unfold inPeriodText, inPeriod. cbv zeta. rewrite Ec, Es, Ee.
  rewrite !strLe_hhmm, !toMinutes_hhmm by assumption.
  unfold nge, nle. rewrite <- Vh, <- Vm.
  apply isDigit_range in H1, H0, M1, M0, S1, S0, T1, T0, E1, E0, U1, U0.
  f_equal.
  - destruct (Z.leb_spec
                (100 * (10 * digit s1 + digit s0) + (10 * digit t1 + digit t0))
                (100 * (10 * digit h1 + digit h0) + (10 * digit m1 + digit m0)));
      symmetry; first [apply Z.leb_le; lia | apply Z.leb_gt; lia].
  - destruct (Z.leb_spec
                (100 * (10 * digit h1 + digit h0) + (10 * digit m1 + digit m0))
                (100 * (10 * digit e1 + digit e0) + (10 * digit u1 + digit u0)));
      symmetry; first [apply Z.leb_le; lia | apply Z.leb_gt; lia].
Qed.

(** Two tests that agree on every element of a list that passes a check
    agree on the list. *)
Lemma existsb_agree {A : Type} (f g ok : A -> bool) (l : list A) :
  (forall x, ok x = true -> f x = g x) ->
  forallb ok l = true -> existsb f l = existsb g l.
Proof.
  intros H. induction l as [| x l IH]; [reflexivity |].
  cbn [forallb existsb]. intros Hw. apply andb_true_iff in Hw as [Hx Hl].
  now rewrite (H x Hx), (IH Hl).
Qed.

(** X5.  At a valid clock time and for windows written as HH:mm with
    minutes below 60, the peak-hour test of the request page, which compares
    the strings, gives the answer of [calculateDynamicPrice], which compares
    minutes since midnight. *)
Theorem estimate_peak_test_agrees (category : VehicleCategory) (now : Date)
    (Hh : (0 <= getHours now < 24)%Z) (Hm : (0 <= getMinutes now < 60)%Z)
    (Hw : forallb (fun p => isClockTime (start p) && isClockTime (end_ p))
                  (peakHours (dynamicPricing category)) = true) :
  existsb (inPeriodText now) (peakHours (dynamicPricing category))
  = existsb (inPeriod (getHours now) (getMinutes now))
            (peakHours (dynamicPricing category)).
Proof.
  eapply existsb_agree; [| exact Hw].
  intros p Hp. cbv beta in Hp. apply andb_true_iff in Hp as [Hs He].
  now apply inPeriodText_inPeriod.
Qed.

Lemma estimate_peak_test_agrees_witness :
  existsb (inPeriodText eight) (peakHours (dynamicPricing economy))
  = existsb (inPeriod (getHours eight) (getMinutes eight))
            (peakHours (dynamicPricing economy)).
Proof.
  apply estimate_peak_test_agrees; [cbn; lia | cbn; lia | reflexivity].
Defined.



End PricingMore.

(* ===================================================================== *)
(** * Further properties of the ride handlers                             *)
(* ===================================================================== *)

Module RideMore.
Import JS Firestore Rides DriverHome DriverPage StoreFacts RideClaims Examples.

(** The runs of a handler that sends one update and returns. *)
Lemma exec_update (fates : list Fate) (c i : string) (fields : Doc) (db : Store) :
  exec fates (Call (UpdateDoc c i fields) (fun _ => Done)) db =
  match fates with
  | [] => mkOutcome db [] Stopped
  | Rejected _ :: _ => mkOutcome db [UpdateDoc c i fields] Returned
  | Served _ :: _ =>
      match getDoc db c i with
      | Some d => mkOutcome (putDoc db c i (fields ∪ d)) [UpdateDoc c i fields] Returned
      | None => mkOutcome db [UpdateDoc c i fields] Returned
      end
  end.
Proof.
  unfold exec. destruct fates as [| [a | code] rest]; cbn [run settle serve];
    try destruct (getDoc db c i); rewrite ?run_done; reflexivity.
Qed.

(** What one update does to the store, whatever is decided. *)
Lemma update_frame (fates : list Fate) (c i : string) (fields : Doc) (db : Store) :
  let o := exec fates (Call (UpdateDoc c i fields) (fun _ => Done)) db in
  (forall c' i', c' <> c \/ i' <> i -> getDoc (final o) c' i' = getDoc db c' i') /\
  (getDoc (final o) c i = getDoc db c i \/
   exists d, getDoc db c i = Some d /\ getDoc (final o) c i = Some (fields ∪ d)).
Proof.
  cbv zeta. rewrite exec_update.
  destruct fates as [| [a | code] rest]; cbn [final]; auto.
  destruct (getDoc db c i) as [d |] eqn:E; cbn [final]; [| rewrite E; auto].
  split.
  - intros c' i' N. rewrite getDoc_putDoc. case_decide as D; [| reflexivity].
    destruct D as [<- <-]. destruct N; contradiction.
  - right. exists d. split; [reflexivity | apply getDoc_put_same].
Qed.

(** ** Rejecting a ride *)

Lemma exec_reject (u : Session) (ride : Doc) (db : Store) (fates : list Fate)
    (rideId : string) :
  docId (ride !! "id") = Some rideId ->
  let copy := AddDoc CANCELLED_RIDES (rejectedCopy u ride) in
  let del := DeleteDoc ACTIVE_RIDES rideId in
  exec fates (handleRejectRide u ride) db =
  match fates with
  | [] => mkOutcome db [] Stopped
  | Rejected _ :: _ => mkOutcome db [copy] Returned
  | Served a :: [] =>
      mkOutcome (putDoc db CANCELLED_RIDES a (rejectedCopy u ride)) [copy] Stopped
  | Served a :: Served _ :: _ =>
      mkOutcome (removeDoc (putDoc db CANCELLED_RIDES a (rejectedCopy u ride))
                           ACTIVE_RIDES rideId)
                [copy; del] Returned
  | Served a :: Rejected _ :: _ =>
      mkOutcome (putDoc db CANCELLED_RIDES a (rejectedCopy u ride)) [copy; del] Returned
  end.
Proof.
  intros Eid. unfold exec, handleRejectRide.
  destruct fates as [| [a1 | c1] [| [a2 | c2] rest]]; cbn [run settle serve];
    rewrite ?Eid; cbn [run settle serve]; rewrite ?run_done; reflexivity.
Qed.

Lemma rejectedCopy_fields (u : Session) (ride : Doc) :
  rejectedCopy u ride !! "cancelledBy" = Some (VStr "driver") /\
  rejectedCopy u ride !! "driverId" = Some (VStr (uid u)) /\
  rejectedCopy u ride !! "cancelledAt" = Some (VTimestamp (now u)) /\
  rejectedCopy u ride !! "id" = ride !! "id".
Proof. unfold rejectedCopy. repeat split; now simplify_map_eq. Qed.

(** X7.  A driver's rejection of a ride first adds a copy to
    [cancelledRides], with status cancelled, the driver's id and the time,
    and then deletes the active document, so that the ride is withdrawn
    for every driver; it does so even while another operation of this
    driver is being processed.  When the copy is refused nothing changes,
    and no run loses the ride. *)
Theorem reject_archives_then_deletes
    (u : Session) (ride : Doc) (rideId : string) (db : Store) (a1 a2 code : string)
    (Hid : docId (ride !! "id") = Some rideId)
    (Hact : is_Some (getDoc db ACTIVE_RIDES rideId)) :
  let reject := handleRejectRide u ride in
  (trace (exec [Served a1; Served a2] reject db)
     = [AddDoc CANCELLED_RIDES (rejectedCopy u ride); DeleteDoc ACTIVE_RIDES rideId] /\
   getDoc (final (exec [Served a1; Served a2] reject db)) CANCELLED_RIDES a1
     = Some (rejectedCopy u ride) /\
   getDoc (final (exec [Served a1; Served a2] reject db)) ACTIVE_RIDES rideId = None) /\
  (rejectedCopy u ride !! "status" = Some (VStr "cancelled") /\
   rejectedCopy u ride !! "cancelledBy" = Some (VStr "driver") /\
   rejectedCopy u ride !! "driverId" = Some (VStr (uid u)) /\
   rejectedCopy u ride !! "cancelledAt" = Some (VTimestamp (now u)) /\
   rejectedCopy u ride !! "id" = Some (VStr rideId)) /\
  (forall rest, final (exec (Rejected code :: rest) reject db) = db) /\
  (forall fates,
     holds (final (exec fates reject db)) ACTIVE_RIDES rideId \/
     holds (final (exec fates reject db)) CANCELLED_RIDES rideId).
Proof.
  cbv zeta. destruct archives_differ as [_ Nx].
  pose proof (exec_reject u ride db) as Er. cbv zeta in Er.
  destruct (rejectedCopy_fields u ride) as (F1 & F2 & F3 & F4).
  split; [| split; [| split]].
  - rewrite (Er _ rideId Hid). cbn [trace final].
    split; [reflexivity | split].
    + rewrite getDoc_remove_other by congruence. apply getDoc_put_same.
    + apply getDoc_remove_same.
  - rewrite rejectedCopy_status, F4, (docId_id _ _ Hid). auto.
  - intros rest. rewrite (Er _ rideId Hid). reflexivity.
  - intros fates. rewrite (Er _ rideId Hid).
    destruct fates as [| [b1 | c1] [| [b2 | c2] rest]]; cbn [final];
      try (left; apply holds_doc; rewrite ?getDoc_put_other by congruence; exact Hact);
      right; exists b1, (rejectedCopy u ride);
      (split; [rewrite ?getDoc_remove_other by congruence; apply getDoc_put_same
              | right; rewrite F4; now apply docId_id]).
Qed.

Lemma reject_archives_then_deletes_witness :
  getDoc (final (exec [Served "c1"; served] (handleRejectRide driver viewPending) db0))
         ACTIVE_RIDES "r1" = None.
Proof.
  apply (reject_archives_then_deletes driver viewPending "r1" db0 "c1" EmptyString
           EmptyString).
  - reflexivity.
  - apply is_Some_alt. vm_compute. exact I.
Defined.

(** ** Starting a ride and announcing the arrival *)

(** X8.  Starting a ride touches one document only, the active ride of that
    id: when the update is served and the document exists, its status
    becomes inProgress and its start time the current time, every other
    field staying as stored; in every run all other documents stay as they
    were, and a ride that is not stored is not created. *)
Theorem start_updates_only_its_ride
    (u : Session) (ride : Doc) (rideId : string) (db : Store)
    (Hproc : isProcessing u = false)
    (Hid : docId (ride !! "id") = Some rideId) :
  let start := handleStartRide u ride in
  (forall a rest d,
     getDoc db ACTIVE_RIDES rideId = Some d ->
     exists d',
       getDoc (final (exec (Served a :: rest) start db)) ACTIVE_RIDES rideId = Some d' /\
       d' !! "status" = Some (VStr "inProgress") /\
       d' !! "startedAt" = Some (VTimestamp (now u)) /\
       forall f, f <> "status" -> f <> "startedAt" -> d' !! f = d !! f) /\
  (forall fates c i,
     c <> ACTIVE_RIDES \/ i <> rideId ->
     getDoc (final (exec fates start db)) c i = getDoc db c i) /\
  (forall fates,
     getDoc db ACTIVE_RIDES rideId = None -> final (exec fates start db) = db).
Proof.
  cbv zeta. unfold handleStartRide. rewrite Hproc, Hid.
  split; [| split].
  - intros a rest d Hd. rewrite exec_update, Hd. cbn [final].
    eexists. split; [apply getDoc_put_same |].
    split; [| split].
    + now simplify_map_eq.
    + now simplify_map_eq.
    + intros f N1 N2. rewrite lookup_union.
      rewrite !lookup_insert_ne by congruence. rewrite lookup_empty.
      now destruct (d !! f).
  - intros fates c i N. now apply update_frame.
  - intros fates Hd. rewrite exec_update, Hd. now destruct fates as [| []].
Qed.

Lemma start_updates_only_its_ride_witness :
  getDoc (final (exec [served] (handleStartRide driver viewAccepted) db1))
         COMPLETED_RIDES "r1"
  = getDoc db1 COMPLETED_RIDES "r1".
Proof.
  apply (start_updates_only_its_ride driver viewAccepted "r1" db1);
    [reflexivity | reflexivity | left; discriminate].
Defined.

(** X9.  Announcing the arrival sets the field [driverArrived] of the
    selected ride and nothing else: the status and every other field stay as
    stored, all other documents stay as they were, and nothing is written
    when no ride is selected or the ride is not stored. *)
Theorem notify_arrival_sets_one_field
    (sel : Doc) (rideId : string) (db : Store)
    (Hid : docId (sel !! "id") = Some rideId) :
  let notify := handleNotifyArrival (Some sel) in
  (forall a rest d,
     getDoc db ACTIVE_RIDES rideId = Some d ->
     exists d',
       getDoc (final (exec (Served a :: rest) notify db)) ACTIVE_RIDES rideId = Some d' /\
       d' !! "driverArrived" = Some (VBool true) /\
       forall f, f <> "driverArrived" -> d' !! f = d !! f) /\
  (forall fates c i,
     c <> ACTIVE_RIDES \/ i <> rideId ->
     getDoc (final (exec fates notify db)) c i = getDoc db c i) /\
  (forall fates,
     getDoc db ACTIVE_RIDES rideId = None -> final (exec fates notify db) = db) /\
  (forall fates, final (exec fates (handleNotifyArrival None) db) = db).
Proof.
  cbv zeta. unfold handleNotifyArrival. rewrite Hid.
  split; [| split; [| split]].
  - intros a rest d Hd. rewrite exec_update, Hd. cbn [final].
    eexists. split; [apply getDoc_put_same |].
    split.
    + now simplify_map_eq.
    + intros f N. rewrite lookup_union.
      rewrite lookup_insert_ne by congruence. rewrite lookup_empty.
      now destruct (d !! f).
  - intros fates c i N. now apply update_frame.
  - intros fates Hd. rewrite exec_update, Hd. now destruct fates as [| []].
  - intros fates. unfold exec. now rewrite run_done.
Qed.

Lemma notify_arrival_sets_one_field_witness :
  exists d',
    getDoc (final (exec [served] (handleNotifyArrival (Some viewAccepted)) db1))
           ACTIVE_RIDES "r1" = Some d' /\
    d' !! "driverArrived" = Some (VBool true) /\
    forall f, f <> "driverArrived" ->
      d' !! f = default ∅ (getDoc db1 ACTIVE_RIDES "r1") !! f.
Proof.
  apply (proj1 (notify_arrival_sets_one_field viewAccepted "r1" db1 eq_refl)).
  vm_compute. reflexivity.
Defined.

(** ** Cancelling from the request page *)

Lemma exec_request_cancel (fates : list Fate) (i : string) (db : Store) :
  i <> EmptyString ->
  exec fates (RideRequest.handleCancelRide (Some i)) db =
  match fates with
  | [] => mkOutcome db [] Stopped
  | Rejected _ :: _ => mkOutcome db [DeleteDoc ACTIVE_RIDES i] Returned
  | Served _ :: _ => mkOutcome (removeDoc db ACTIVE_RIDES i) [DeleteDoc ACTIVE_RIDES i] Returned
  end.
Proof.
  intros N. unfold exec, RideRequest.handleCancelRide.
  apply String.eqb_neq in N. rewrite N.
  destruct fates as [| [a | code] rest]; cbn [run settle serve];
    rewrite ?run_done; reflexivity.
Qed.

Lemma holds_coll (db db' : Store) (c rideId : string) :
  coll db' c = coll db c -> holds db' c rideId -> holds db c rideId.
Proof.
  intros E (i & d & Hd & H). exists i, d. split; [| exact H].
  unfold getDoc in *. now rewrite <- E.
Qed.

(** X10.  The cancellation of the request page deletes the active ride and
    archives nothing: the other collections are never touched, and once the
    deletion is served a ride that no archive held before is stored
    nowhere. *)
Theorem request_cancel_keeps_no_copy (i : string) (db : Store)
    (Hi : i <> EmptyString) :
  let cancel := RideRequest.handleCancelRide (Some i) in
  (forall fates c, c <> ACTIVE_RIDES -> coll (final (exec fates cancel db)) c = coll db c) /\
  (forall a rest,
     getDoc (final (exec (Served a :: rest) cancel db)) ACTIVE_RIDES i = None) /\
  (forall a rest,
     ~ holds db COMPLETED_RIDES i -> ~ holds db CANCELLED_RIDES i ->
     ~ holds (final (exec (Served a :: rest) cancel db)) COMPLETED_RIDES i /\
     ~ holds (final (exec (Served a :: rest) cancel db)) CANCELLED_RIDES i).
Proof.
  cbv zeta.
  assert (F : forall fates c, c <> ACTIVE_RIDES ->
                coll (final (exec fates (RideRequest.handleCancelRide (Some i)) db)) c
                = coll db c).
  { intros fates c N. rewrite exec_request_cancel by exact Hi.
    destruct fates as [| [a | code] rest]; cbn [final]; try reflexivity.
    rewrite coll_removeDoc. case_decide; [congruence | reflexivity]. }
  split; [exact F | split].
  - intros a rest. rewrite exec_request_cancel by exact Hi. cbn [final].
    apply getDoc_remove_same.
  - intros a rest H1 H2. split; intros H.
    + apply H1. eapply holds_coll; [| exact H]. now apply F.
    + apply H2. eapply holds_coll; [| exact H]. now apply F.
Qed.

Lemma request_cancel_keeps_no_copy_witness :
  getDoc (final (exec [served] (RideRequest.handleCancelRide (Some "r1")) db0))
         ACTIVE_RIDES "r1" = None.
Proof.
  apply (request_cancel_keeps_no_copy "r1" db0). discriminate.
Defined.

(** ** The two lists of the driver's page *)

Lemma availableRidesQuery_intro (db : Store) (i : string) (d : Doc) :
  getDoc db ACTIVE_RIDES i = Some d -> isAvailable d = true ->
  In (snapshotObject i d) (availableRidesQuery db).
Proof.
  intros Hd Hav. unfold availableRidesQuery. apply in_map_iff.
  exists (i, d). split; [reflexivity |].
  apply list_elem_of_In, list_elem_of_filter. split; [exact Hav |].
  now apply elem_of_map_to_list.
Qed.

Lemma availableRidesQuery_inv (db : Store) (ride : Doc) :
  In ride (availableRidesQuery db) ->
  exists i d, getDoc db ACTIVE_RIDES i = Some d /\ isAvailable d = true /\
              ride = snapshotObject i d.
Proof.
  unfold availableRidesQuery. rewrite in_map_iff.
  intros ([i d] & <- & Hin).
  apply list_elem_of_In, list_elem_of_filter in Hin as [Hav Hin].
  apply elem_of_map_to_list in Hin. eauto.
Qed.

Lemma myRidesQuery_intro (driver : string) (db : Store) (i : string) (d : Doc) :
  getDoc db ACTIVE_RIDES i = Some d -> isMine driver d = true ->
  In (snapshotObject i d) (myRidesQuery driver db).
Proof.
  intros Hd Hm. unfold myRidesQuery. apply in_map_iff.
  exists (i, d). split; [reflexivity |].
  apply list_elem_of_In, list_elem_of_filter. split; [exact Hm |].
  now apply elem_of_map_to_list.
Qed.

Lemma myRidesQuery_mine (driver : string) (db : Store) (ride : Doc) :
  In ride (myRidesQuery driver db) -> isMine driver ride = true.
Proof.
  unfold myRidesQuery. rewrite in_map_iff.
  intros ([i data] & <- & Hin).
  apply list_elem_of_In, list_elem_of_filter in Hin as [Hm _].
  unfold isMine in *.
  now rewrite !snapshotObject_lookup by discriminate.
Qed.

Lemma accepted_doc_fields (u : Session) (rideData : Doc) :
  (acceptFields u ∪ rideData) !! "status" = Some (VStr "accepted") /\
  (acceptFields u ∪ rideData) !! "driverId" = Some (VStr (uid u)).
Proof.
  split; apply lookup_union_Some_l; reflexivity.
Qed.

Lemma accepted_served (u : Session) (ride : Doc) (db : Store) (rideId : string)
    (rideData : Doc) (a1 a2 : string) (rest : list Fate) :
  isProcessing u = false ->
  docId (ride !! "id") = Some rideId ->
  getDoc db ACTIVE_RIDES rideId = Some rideData ->
  acceptable (Some rideData) = true ->
  final (exec (Served a1 :: Served a2 :: rest) (handleAcceptRide u ride) db)
  = putDoc db ACTIVE_RIDES rideId (acceptFields u ∪ rideData).
Proof.
  intros Hproc Hid Hget Hacc.
  rewrite (exec_accept u ride db _ rideId Hproc Hid), Hget, Hacc. reflexivity.
Qed.

(** X11.  Once an accept has been served, the ride is in the list of
    rides of the accepting driver and of no other driver, it has left the
    list of available rides, which every driver is shown, and no other ride
    has entered that list. *)
Theorem accept_moves_ride_to_my_rides
    (u : Session) (ride : Doc) (db : Store) (rideId : string) (rideData : Doc)
    (a1 a2 : string) (rest : list Fate)
    (Hproc : isProcessing u = false)
    (Hid : docId (ride !! "id") = Some rideId)
    (Hget : getDoc db ACTIVE_RIDES rideId = Some rideData)
    (Hacc : acceptable (Some rideData) = true) :
  let db1 := final (exec (Served a1 :: Served a2 :: rest) (handleAcceptRide u ride) db) in
  let view := snapshotObject rideId (acceptFields u ∪ rideData) in
  In view (myRidesQuery (uid u) db1) /\
  (forall other, other <> uid u -> ~ In view (myRidesQuery other db1)) /\
  ~ In view (availableRidesQuery db1) /\
  (forall ride', In ride' (availableRidesQuery db1) -> In ride' (availableRidesQuery db)).
Proof.
  cbv zeta. rewrite (accepted_served u ride db rideId rideData a1 a2 rest) by assumption.
  destruct (accepted_doc_fields u rideData) as [Fs Fd].
  split; [| split; [| split]].
  - apply myRidesQuery_intro; [apply getDoc_put_same |].
    unfold isMine. rewrite Fs, Fd. cbn. now rewrite String.eqb_refl.
  - intros other N H. apply myRidesQuery_mine in H. unfold isMine in H.
    rewrite !snapshotObject_lookup in H by discriminate.
    rewrite Fd in H. cbn in H. apply andb_true_iff in H as [H _].
    apply String.eqb_eq in H. congruence.
  - intros H. apply availableRidesQuery_available in H. unfold isAvailable in H.
    rewrite !snapshotObject_lookup in H by discriminate.
    rewrite Fs in H. discriminate.
  - intros ride' H. apply availableRidesQuery_inv in H as (i & d & Hd & Hav & ->).
    rewrite getDoc_putDoc in Hd. case_decide as E.
    + injection Hd as <-. unfold isAvailable in Hav. rewrite Fs in Hav. discriminate.
    + now apply availableRidesQuery_intro.
Qed.

Lemma accept_moves_ride_to_my_rides_witness :
  In (snapshotObject "r1" (acceptFields driver ∪ newRide))
     (myRidesQuery (uid driver)
        (final (exec [served; served] (handleAcceptRide driver viewPending) db0))).
Proof.
  assert (Hid : docId (viewPending !! "id") = Some "r1") by (vm_compute; reflexivity).
  assert (Hget : getDoc db0 ACTIVE_RIDES "r1" = Some newRide)
    by apply getDoc_put_same.
  assert (Hacc : acceptable (Some newRide) = true) by (vm_compute; reflexivity).
  exact (proj1 (accept_moves_ride_to_my_rides driver viewPending db0 "r1" newRide
                  EmptyString EmptyString [] eq_refl Hid Hget Hacc)).
Defined.

(** X12.  After an accept has been served, no later accept of that ride, by
    this or any other driver and from whatever ride object, writes
    anything: the store stays as the first accept left it. *)
Theorem accepted_ride_cannot_be_accepted_again
    (u : Session) (ride : Doc) (db : Store) (rideId : string) (rideData : Doc)
    (a1 a2 : string) (rest : list Fate)
    (Hproc : isProcessing u = false)
    (Hid : docId (ride !! "id") = Some rideId)
    (Hget : getDoc db ACTIVE_RIDES rideId = Some rideData)
    (Hacc : acceptable (Some rideData) = true) :
  let db1 := final (exec (Served a1 :: Served a2 :: rest) (handleAcceptRide u ride) db) in
  forall (u' : Session) (ride' : Doc) (fates : list Fate),
    docId (ride' !! "id") = Some rideId ->
    final (exec fates (handleAcceptRide u' ride') db1) = db1 /\
    (forall rq, In rq (trace (exec fates (handleAcceptRide u' ride') db1)) ->
                isWrite rq = false).
Proof.
  cbv zeta. rewrite (accepted_served u ride db rideId rideData a1 a2 rest) by assumption.
  intros u' ride' fates Hid'.
  set (db1 := putDoc db ACTIVE_RIDES rideId (acceptFields u ∪ rideData)).
  assert (Hno : acceptable (getDoc db1 ACTIVE_RIDES rideId) = false).
  { unfold db1. rewrite getDoc_put_same. unfold acceptable.
    rewrite (proj1 (accepted_doc_fields u rideData)). reflexivity. }
  assert (W : forall rq, In rq (trace (exec fates (handleAcceptRide u' ride') db1)) ->
                         isWrite rq = false).
  { intros rq Hin. destruct (isWrite rq) eqn:Ew; [| reflexivity].
    destruct (accept_write_checked u' ride' db1 fates rq Hin Ew) as (i & Ei & Ha & _).
    rewrite Hid' in Ei. injection Ei as <-. congruence. }
  split; [| exact W].
  destruct (isProcessing u') eqn:Hp.
  - unfold handleAcceptRide. rewrite Hp. unfold exec. now rewrite run_done.
  - rewrite (exec_accept u' ride' db1 fates rideId Hp Hid').
    destruct fates as [| [b1 | c1] rest']; try reflexivity.
    destruct (getDoc db1 ACTIVE_RIDES rideId) as [d |]; [| reflexivity].
    rewrite Hno. reflexivity.
Qed.

Lemma accepted_ride_cannot_be_accepted_again_witness :
  let db1 := final (exec [served; served] (handleAcceptRide driver viewPending) db0) in
  final (exec [served; served]
           (handleAcceptRide (mkSession "d2" None None false None None 2500) viewPending)
           db1)
  = db1.
Proof.
  assert (Hid : docId (viewPending !! "id") = Some "r1") by (vm_compute; reflexivity).
  assert (Hget : getDoc db0 ACTIVE_RIDES "r1" = Some newRide)
    by apply getDoc_put_same.
  assert (Hacc : acceptable (Some newRide) = true) by (vm_compute; reflexivity).
  exact (proj1 (accepted_ride_cannot_be_accepted_again driver viewPending db0 "r1"
                  newRide EmptyString EmptyString [] eq_refl Hid Hget Hacc
                  (mkSession "d2" None None false None None 2500) viewPending
                  [served; served] Hid)).
Defined.

(** ** Going online *)

Lemma toggle_final (u : Session) (isOnline : bool) (db : Store) (fates : list Fate) :
  isProcessing u = false -> uid u <> EmptyString ->
  final (exec fates (toggleOnlineStatus u isOnline) db) =
  match fates, getDoc db DRIVERS (uid u) with
  | Served _ :: _, Some d => putDoc db DRIVERS (uid u) (onlineFields u isOnline ∪ d)
  | _, _ => db
  end.
Proof.
  intros Hp N. apply String.eqb_neq in N.
  unfold exec, toggleOnlineStatus. rewrite Hp, N.
  destruct fates as [| [a | code] [| f rest]]; cbn [run settle serve];
    try (destruct (getDoc db DRIVERS (uid u)) as [d |] eqn:E);
    cbn [run settle serve final]; rewrite ?run_done; try reflexivity;
    try (destruct f; cbn [run settle serve]; rewrite ?run_done; reflexivity).
Qed.

(** X13.  Going online or offline updates the driver's own document and
    nothing else: when the update is served on a stored document its
    [isOnline] field becomes the opposite of the page's state, the fields
    other than [isOnline] and [lastUpdate] staying as stored; a driver
    without a document gets none, whatever is decided, and no other
    document ever changes. *)
Theorem toggle_online_updates_own_document
    (u : Session) (isOnline : bool) (db : Store)
    (Hproc : isProcessing u = false) (Huid : uid u <> EmptyString) :
  let toggle := toggleOnlineStatus u isOnline in
  (forall a rest d,
     getDoc db DRIVERS (uid u) = Some d ->
     exists d',
       getDoc (final (exec (Served a :: rest) toggle db)) DRIVERS (uid u) = Some d' /\
       d' !! "isOnline" = Some (VBool (negb isOnline)) /\
       forall f, f <> "isOnline" -> f <> "lastUpdate" -> d' !! f = d !! f) /\
  (forall fates,
     getDoc db DRIVERS (uid u) = None -> final (exec fates toggle db) = db) /\
  (forall fates c i,
     c <> DRIVERS \/ i <> uid u ->
     getDoc (final (exec fates toggle db)) c i = getDoc db c i).
Proof.
  cbv zeta. split; [| split].
  - intros a rest d Hd. rewrite toggle_final, Hd by assumption.
    eexists. split; [apply getDoc_put_same |]. split.
    + unfold onlineFields. now simplify_map_eq.
    + intros f N1 N2. unfold onlineFields. rewrite lookup_union.
      rewrite !lookup_insert_ne by congruence. rewrite lookup_empty.
      now destruct (d !! f).
  - intros fates Hd. rewrite toggle_final, Hd by assumption.
    now destruct fates as [| []].
  - intros fates c i N. rewrite toggle_final by assumption.
    destruct fates as [| [a | code] rest]; try reflexivity.
    destruct (getDoc db DRIVERS (uid u)) as [d |]; [| reflexivity].
    rewrite getDoc_putDoc. case_decide as D; [| reflexivity].
    destruct D as [<- <-]. destruct N; contradiction.
Qed.

Lemma toggle_online_updates_own_document_witness :
  final (exec [served; served] (toggleOnlineStatus driver false) db0) = db0.
Proof.
  apply (toggle_online_updates_own_document driver false db0);
    [reflexivity | discriminate | reflexivity].
Defined.

End RideMore.

(* ===================================================================== *)
(** * Properties of the rating of a driver                                *)
(* ===================================================================== *)

Module RatingFacts.
Import JS Firestore Rides DriverPage Rating StoreFacts RideClaims PricingFacts Examples.

Local Open Scope Q_scope.






(** ** The handler *)

Local Close Scope Q_scope.

Lemma drivers_differ : DRIVERS <> COMPLETED_RIDES.
Proof. discriminate. Qed.

(** The store after a run of [handleSubmitRating]. *)
Lemma rating_final (t : Z) (rating : Q) (comment : string) (ride : Doc)
    (rideId driverId : string) (db : Store) (fates : list Fate) :
  truthy (ride !! "driver") = true ->
  docId (ride !! "id") = Some rideId ->
  docId (driverIdOf ride) = Some driverId ->
  final (exec fates (handleSubmitRating t rating comment (Some ride)) db) =
  match fates, getDoc db COMPLETED_RIDES rideId with
  | Served _ :: rest, Some d =>
      let db1 := putDoc db COMPLETED_RIDES rideId (ratingFields t rating comment ∪ d) in
      match rest, getDoc db DRIVERS driverId with
      | Served _ :: Served _ :: _, Some driverData =>
          putDoc db1 DRIVERS driverId
                 (driverRatingFields driverData rating ∪ driverData)
      | _, _ => db1
      end
  | _, _ => db
  end.
Proof.
  intros Hdrv Hid Hdid. pose proof drivers_differ as N.
  unfold exec, handleSubmitRating. rewrite Hdrv, Hid. cbn [negb].
  destruct fates as [| [a | code] rest]; cbn [run settle serve];
    [reflexivity | | rewrite run_done; now destruct (getDoc db COMPLETED_RIDES rideId)].
  destruct (getDoc db COMPLETED_RIDES rideId) as [d |];
    cbn [run settle serve]; [| rewrite run_done; reflexivity].
  rewrite Hdid. rewrite run_final.
  set (db1 := putDoc db COMPLETED_RIDES rideId (ratingFields t rating comment ∪ d)).
  assert (E : getDoc db1 DRIVERS driverId = getDoc db DRIVERS driverId).
  { unfold db1. apply getDoc_put_other. congruence. }
  destruct rest as [| [a1 | c1] rest]; cbn [run settle serve];
    [now destruct (getDoc db DRIVERS driverId) | | rewrite run_done;
       now destruct (getDoc db DRIVERS driverId)].
  rewrite E.
  destruct (getDoc db DRIVERS driverId) as [driverData |] eqn:Ed;
    [| rewrite run_done; now destruct rest as [| []]].
  rewrite run_final.
  destruct rest as [| [a2 | c2] rest]; cbn [run settle serve];
    [reflexivity | | rewrite run_done; reflexivity].
  rewrite E. rewrite run_done. reflexivity.
Qed.

(** X15.  A rating is stored on the completed ride first and on the driver
    second, and the two do not depend on each other the same way: when the
    first update is refused, or the ride is not among the completed rides,
    nothing at all is written; once it is served, the ride keeps its rating
    whatever happens to the driver's part; and when everything is served
    the driver's document, whose two fields are numbers or missing, carries
    the new average and count.  No other document changes. *)
Theorem rating_is_stored_ride_first
    (t : Z) (rating : Q) (comment : string) (ride : Doc)
    (rideId driverId : string) (db : Store)
    (Hdrv : truthy (ride !! "driver") = true)
    (Hid : docId (ride !! "id") = Some rideId)
    (Hdid : docId (driverIdOf ride) = Some driverId) :
  let submit := handleSubmitRating t rating comment (Some ride) in
  (forall code rest, final (exec (Rejected code :: rest) submit db) = db) /\
  (forall fates,
     getDoc db COMPLETED_RIDES rideId = None -> final (exec fates submit db) = db) /\
  (forall a rest d,
     getDoc db COMPLETED_RIDES rideId = Some d ->
     getDoc (final (exec (Served a :: rest) submit db)) COMPLETED_RIDES rideId
     = Some (ratingFields t rating comment ∪ d)) /\
  (forall a1 a2 a3 rest d driverData,
     getDoc db COMPLETED_RIDES rideId = Some d ->
     getDoc db DRIVERS driverId = Some driverData ->
     (forall f, f = "rating" \/ f = "totalRatings" ->
                driverData !! f = None \/ exists q, driverData !! f = Some (VNum q)) ->
     getDoc (final (exec (Served a1 :: Served a2 :: Served a3 :: rest) submit db))
            DRIVERS driverId
     = Some (driverRatingFields driverData rating ∪ driverData)) /\
  (forall fates c i,
     (c <> COMPLETED_RIDES \/ i <> rideId) -> (c <> DRIVERS \/ i <> driverId) ->
     getDoc (final (exec fates submit db)) c i = getDoc db c i).
Proof.
  cbv zeta. pose proof drivers_differ as N.
  pose proof (rating_final t rating comment ride rideId driverId db) as F.
  split; [| split; [| split; [| split]]].
  - intros code rest. now rewrite F.
  - intros fates Hd. rewrite F, Hd by assumption. now destruct fates as [| []].
  - intros a rest d Hd. rewrite F, Hd by assumption. cbv zeta.
    destruct rest as [| [a1 | c1] [| [a2 | c2] rest]];
      try apply getDoc_put_same;
      destruct (getDoc db DRIVERS driverId);
      rewrite ?getDoc_put_other by congruence; apply getDoc_put_same.
  - intros a1 a2 a3 rest d driverData Hd Hdd _.
    rewrite F, Hd, Hdd by assumption. apply getDoc_put_same.
  - intros fates c i N1 N2. rewrite F by assumption.
    assert (P1 : forall db' x, getDoc (putDoc db' COMPLETED_RIDES rideId x) c i
                               = getDoc db' c i).
    { intros db' x. rewrite getDoc_putDoc. case_decide as D; [| reflexivity].
      destruct D as [<- <-]. destruct N1; contradiction. }
    assert (P2 : forall db' x, getDoc (putDoc db' DRIVERS driverId x) c i
                               = getDoc db' c i).
    { intros db' x. rewrite getDoc_putDoc. case_decide as D; [| reflexivity].
      destruct D as [<- <-]. destruct N2; contradiction. }
    destruct fates as [| [a | code] rest]; try reflexivity.
    destruct (getDoc db COMPLETED_RIDES rideId) as [d |]; [| reflexivity].
    cbv zeta.
    destruct rest as [| [a1 | c1] [| [a2 | c2] rest]];
      try destruct (getDoc db DRIVERS driverId);
      rewrite ?P2, ?P1; reflexivity.
Qed.

Lemma rating_is_stored_ride_first_witness :
  final (exec [Rejected "unavailable"]
           (handleSubmitRating 4000 4 "ok" (Some viewAccepted)) db0)
  = db0.
Proof.
  assert (H1 : truthy (viewAccepted !! "driver") = true) by (vm_compute; reflexivity).
  assert (H2 : docId (viewAccepted !! "id") = Some "r1") by (vm_compute; reflexivity).
  assert (H3 : docId (driverIdOf viewAccepted) = Some "d1") by (vm_compute; reflexivity).
  exact (proj1 (rating_is_stored_ride_first 4000 4 "ok" viewAccepted "r1" "d1" db0
                  H1 H2 H3) "unavailable" []).
Defined.

End RatingFacts.

(* ===================================================================== *)
(** * Properties of the confirmation of a ride                            *)
(* ===================================================================== *)

Module ConfirmFacts.
Import JS Pricing Firestore Rides DriverHome DriverPage Confirm Rules.
Import StoreFacts RideClaims Examples.

Lemma sends_catch (p : Prog) (handler : string -> Prog) (rq : Request) :
  sends (catch p handler) rq -> sends p rq \/ exists code, sends (handler code) rq.
Proof.
  induction p as [| code | rq0 k IH]; cbn [catch]; intros H.
  - inversion H.
  - right. eauto.
  - inversion H as [| ? ? r ? H']; subst.
    + left. constructor.
    + destruct (IH r H') as [L | R]; [left; eapply sends_later, L | right; exact R].
Qed.

(** A creation sends the ride document and timers, nothing else. *)
Lemma sends_create (newRide : Doc) (rq : Request) :
  forall m n, (3 - n <= m)%nat ->
    sends (RideRequest.createRideWithRetry newRide n) rq ->
    rq = AddDoc ACTIVE_RIDES newRide \/ exists ms, rq = Sleep ms.
Proof.
  induction m as [| m IH]; intros n Hn H;
    rewrite RideRequest.createRideWithRetry_equation_1 in H;
    inversion H as [| ? ? r ? H']; subst; auto;
    destruct r as [sn | | i | code]; try (inversion H'; fail);
    destruct (String.eqb code "resource-exhausted"), (lt_dec n 3);
    try (inversion H'; fail); try lia.
  inversion H' as [| ? ? r' ? H'']; subst; [right; eauto |].
  apply (IH (n + 1)%nat); [lia | exact H''].
Qed.

(** A handler whose errors are all caught never throws. *)
Lemma run_catch_result (fates : list Fate) (p : Prog) (db : Store) (sent : list Request)
    (code : string) :
  result (run fates (catch p (fun _ => Done)) db sent) <> Thrown code.
Proof.
  revert p db sent. induction fates as [| f fates IH]; intros p db sent;
    destruct p as [| c | rq k]; cbn [catch run]; try discriminate.
  destruct (settle db f rq) as [db' resp]. apply IH.
Qed.

Lemma rideDocument_fields (u : Session) (form : Form) (o d : Place)
    (vehicle : VehicleCategory) (route : Q * Q) :
  isAvailable (rideDocument u form o d vehicle route) = true /\
  rideDocument u form o d vehicle route !! "userId" = Some (VStr (uid u)) /\
  rideDocument u form o d vehicle route !! "price"
  = Some (VNum (calculatePrice (fst route) (pricePerKm vehicle) (basePrice vehicle))).
Proof.
  unfold isAvailable, rideDocument. cbv zeta. repeat split; now simplify_map_eq.
Qed.

(** X16.  [handleConfirmRide] writes nothing but the creation of one ride
    document, and only when the stored user document exists and has the
    role passenger, the selected category is among the loaded ones and the
    route is known.  The document is a pending ride without driver, of
    this user, and its price is [calculatePrice] of the route's distance
    and the category's rate and base price: neither the minimum price nor
    the multipliers enter.  With everything in place and served the ride
    is stored, and the handler never throws. *)
Theorem confirm_creates_one_pending_ride
    (u : Session) (form : Form) (route : option (Q * Q)) (db : Store) :
  let confirm := handleConfirmRide u form route in
  (forall fates rq,
     In rq (trace (exec fates confirm db)) -> isWrite rq = true ->
     exists userData o d vehicle routeInfo,
       getDoc db USERS (uid u) = Some userData /\
       userData !! "role" = Some (VStr "passenger") /\
       isPassenger db (uid u) = true /\
       origin form = Some o /\ destination form = Some d /\
       List.find (fun c => String.eqb (Pricing.id c) (selectedCategory form))
                 (categories form) = Some vehicle /\
       route = Some routeInfo /\
       rq = AddDoc ACTIVE_RIDES (rideDocument u form o d vehicle routeInfo) /\
       isAvailable (rideDocument u form o d vehicle routeInfo) = true /\
       rideDocument u form o d vehicle routeInfo !! "userId" = Some (VStr (uid u)) /\
       rideDocument u form o d vehicle routeInfo !! "price"
       = Some (VNum (calculatePrice (fst routeInfo) (pricePerKm vehicle)
                                    (basePrice vehicle)))) /\
  (forall fates code, result (exec fates confirm db) <> Thrown code) /\
  (forall userData o d vehicle routeInfo a1 a2 rest,
     uid u <> EmptyString -> selectedCategory form <> EmptyString ->
     getDoc db USERS (uid u) = Some userData ->
     userData !! "role" = Some (VStr "passenger") ->
     origin form = Some o -> destination form = Some d ->
     List.find (fun c => String.eqb (Pricing.id c) (selectedCategory form))
               (categories form) = Some vehicle ->
     route = Some routeInfo ->
     getDoc (final (exec (Served a1 :: Served a2 :: rest) confirm db)) ACTIVE_RIDES a2
     = Some (rideDocument u form o d vehicle routeInfo)).
Proof.
  cbv zeta. split; [| split].
  - intros fates rq Hin Hw. unfold handleConfirmRide in Hin.
    destruct (origin form) as [o |]; [| destruct fates; contradiction].
    destruct (destination form) as [d |]; [| destruct fates; contradiction].
    destruct (String.eqb (selectedCategory form) EmptyString);
      [destruct fates; contradiction |].
    destruct (String.eqb (uid u) EmptyString); [destruct fates; contradiction |].
    destruct fates as [| f rest]; [contradiction |].
    match type of Hin with
    | In _ (trace (exec _ (Call ?rq0 ?k) _)) =>
        destruct (exec_call f rest rq0 k db) as (Ht & _ & _)
    end.
    rewrite Ht in Hin. clear Ht.
    destruct Hin as [<- | Hin]; [discriminate |].
    apply trace_sends in Hin.
    destruct f as [a | code]; cbn [settle serve snd] in Hin; [| inversion Hin].
    destruct (getDoc db USERS (uid u)) as [userData |] eqn:Eu; [| inversion Hin].
    destruct (strictEqStr (userData !! "role") "passenger") eqn:Er;
      cbn [negb] in Hin; [| inversion Hin].
    destruct (List.find _ (categories form)) as [vehicle |] eqn:Ef; [| inversion Hin].
    destruct route as [routeInfo |]; [| inversion Hin].
    apply sends_catch in Hin as [Hin | [code Hin]]; [| inversion Hin].
    apply (sends_create _ _ 3%nat) in Hin as [-> | [ms ->]];
      [| discriminate Hw | lia].
    destruct (rideDocument_fields u form o d vehicle routeInfo) as (F1 & F2 & F3).
    exists userData, o, d, vehicle, routeInfo.
    repeat split; try assumption; try reflexivity.
    + now apply strictEqStr_true.
    + unfold isPassenger, fieldIs. now rewrite Eu.
  - intros fates code. unfold handleConfirmRide.
    destruct (origin form) as [o |]; [| destruct fates; discriminate].
    destruct (destination form) as [d |]; [| destruct fates; discriminate].
    destruct (String.eqb (selectedCategory form) EmptyString);
      [destruct fates; discriminate |].
    destruct (String.eqb (uid u) EmptyString); [destruct fates; discriminate |].
    destruct fates as [| f rest]; [discriminate |].
    unfold exec. cbn [run].
    destruct (settle db f (GetDoc USERS (uid u))) as [db' resp].
    destruct resp as [[userData |] | | i | c]; rewrite ?run_done; try discriminate.
    destruct (negb _); rewrite ?run_done; try discriminate.
    destruct (List.find _ _); rewrite ?run_done; try discriminate.
    destruct route; rewrite ?run_done; try discriminate.
    apply run_catch_result.
  - intros userData o d vehicle routeInfo a1 a2 rest Nu Nc Hu Hr Ho Hd Hf ->.
    apply String.eqb_neq in Nu, Nc.
    unfold exec, handleConfirmRide. rewrite Ho, Hd, Nc, Nu.
    cbn [run settle serve]. rewrite Hu.
    unfold strictEqStr. rewrite Hr. cbn [String.eqb Ascii.eqb Bool.eqb negb].
    rewrite Hf. rewrite RideRequest.createRideWithRetry_equation_1.
    cbn [catch run settle serve]. rewrite run_done. cbn [final].
    apply getDoc_put_same.
Qed.

End ConfirmFacts.

(* ===================================================================== *)
(** * What the passenger's pages show when the ride leaves the active
      collection                                                          *)
(* ===================================================================== *)

Module ListenerFacts.
Import JS Firestore Rides DriverHome DriverPage Rating Listeners.
Import StoreFacts RideClaims RatingFacts Examples.

Lemma runTask_ret {A : Type} (fates : list Fate) (a : A) (db : Store) :
  runTask fates (Ret a) db = (db, Some a).
Proof. destruct fates; reflexivity. Qed.

Lemma snapshotObject_own_id (i : string) (data : Doc) (v : Value) :
  data !! "id" = Some v -> snapshotObject i data !! "id" = Some v.
Proof. intros H. unfold snapshotObject. now apply lookup_union_Some_l. Qed.

(** X17.  Once a completion has been served, the listeners of both
    passenger pages, called because the active document is gone, find the
    copy among the completed rides and show it; the request page opens the
    rating dialog, and a rating submitted from there, once its first
    update is served, is stored on that copy. *)
Theorem completed_ride_is_shown_and_can_be_rated
    (u : Session) (ride : Doc) (rideId : string) (db : Store) (a1 a2 : string)
    (Hproc : isProcessing u = false)
    (Hid : docId (ride !! "id") = Some rideId) :
  let db' := final (exec [Served a1; Served a2] (handleCompleteRide u ride) db) in
  let shown := snapshotObject rideId (completedCopy u ride) in
  getDoc db' ACTIVE_RIDES rideId = None /\
  (forall f rest,
     runTask (Served f :: rest) (onStatusSnapshot rideId (getDoc db' ACTIVE_RIDES rideId)) db'
     = (db', Some (Show shown))) /\
  (forall f rest,
     runTask (Served f :: rest) (onRequestSnapshot rideId (getDoc db' ACTIVE_RIDES rideId)) db'
     = (db', Some (Show shown))) /\
  showRatingModal (Show shown) = true /\
  (forall t rating comment driverId b rest,
     truthy (ride !! "driver") = true ->
     docId (driverIdOf ride) = Some driverId ->
     getDoc (final (exec (Served b :: rest)
                      (handleSubmitRating t rating comment (Some shown)) db'))
            COMPLETED_RIDES rideId
     = Some (ratingFields t rating comment ∪ completedCopy u ride)).
Proof.
  cbv zeta. destruct archives_differ as [Nc _].
  pose proof (exec_complete u ride db [Served a1; Served a2] rideId Hproc Hid) as Ec.
  cbv zeta in Ec. rewrite Ec. cbn [final].
  set (db' := removeDoc (putDoc db COMPLETED_RIDES rideId (completedCopy u ride))
                        ACTIVE_RIDES rideId).
  assert (Hgone : getDoc db' ACTIVE_RIDES rideId = None) by apply getDoc_remove_same.
  assert (Hcopy : getDoc db' COMPLETED_RIDES rideId = Some (completedCopy u ride)).
  { unfold db'. rewrite getDoc_remove_other by congruence. apply getDoc_put_same. }
  split; [exact Hgone | split; [| split; [| split]]].
  - intros f rest. rewrite Hgone. cbn [onStatusSnapshot runTask settle serve].
    rewrite Hcopy. apply runTask_ret.
  - intros f rest. rewrite Hgone. cbn [onRequestSnapshot runTask settle serve].
    rewrite Hcopy. apply runTask_ret.
  - cbn [showRatingModal]. rewrite snapshotObject_lookup by discriminate.
    now rewrite completedCopy_status.
  - intros t rating comment driverId b rest Hdrv Hdid.
    assert (Hid' : snapshotObject rideId (completedCopy u ride) !! "id"
                   = Some (VStr rideId)).
    { apply snapshotObject_own_id. rewrite completedCopy_id. now apply docId_id. }
    assert (Hdr : snapshotObject rideId (completedCopy u ride) !! "driver"
                  = ride !! "driver").
    { rewrite snapshotObject_lookup by discriminate.
      unfold completedCopy. now simplify_map_eq. }
    rewrite (rating_final t rating comment _ rideId driverId db').
    + rewrite Hcopy. cbv zeta.
      destruct rest as [| [b1 | c1] [| [b2 | c2] rest]];
        try apply getDoc_put_same;
        destruct (getDoc db' DRIVERS driverId);
        rewrite ?getDoc_put_other by discriminate; apply getDoc_put_same.
    + now rewrite Hdr.
    + rewrite Hid', <- (docId_id _ _ Hid). exact Hid.
    + unfold driverIdOf in *. now rewrite Hdr.
Qed.

Lemma completed_ride_is_shown_and_can_be_rated_witness :
  showRatingModal (Show (snapshotObject "r1" (completedCopy driver viewInProgress)))
  = true.
Proof.
  assert (Hid : docId (viewInProgress !! "id") = Some "r1")
    by (vm_compute; reflexivity).
  exact (proj1 (proj2 (proj2 (proj2
           (completed_ride_is_shown_and_can_be_rated driver viewInProgress "r1" db2
              EmptyString EmptyString eq_refl Hid))))).
Defined.

(** X18.  A cancelled ride is archived under a new id, so the listeners,
    which look the ride up under its own id, do not find the copy: after a
    served cancellation by the passenger, or rejection by a driver, of a
    ride that no archive holds under its id, the status page reports that
    the ride was not found and the request page that it is finished, and
    both leave. *)
Theorem cancelled_ride_is_not_found
    (u : Session) (ride : Doc) (rideId : string) (db : Store) (a1 a2 : string)
    (Hid : docId (ride !! "id") = Some rideId)
    (Hnew : a1 <> rideId)
    (Hc : getDoc db COMPLETED_RIDES rideId = None)
    (Hx : getDoc db CANCELLED_RIDES rideId = None) :
  let cancel := RideStatus.handleCancelRide (Some (uid u)) (now u) (Some ride) in
  let reject := handleRejectRide u ride in
  forall db',
    db' = final (exec [Served a1; Served a2] cancel db) \/
    db' = final (exec [Served a1; Served a2] reject db) ->
    is_Some (getDoc db' CANCELLED_RIDES a1) /\
    (forall f1 f2 rest,
       runTask (Served f1 :: Served f2 :: rest)
               (onStatusSnapshot rideId (getDoc db' ACTIVE_RIDES rideId)) db'
       = (db', Some (Leave "Corrida não encontrada"))) /\
    (forall f rest,
       runTask (Served f :: rest)
               (onRequestSnapshot rideId (getDoc db' ACTIVE_RIDES rideId)) db'
       = (db', Some (Leave "Corrida finalizada"))).
Proof.
  cbv zeta. intros db' Hdb.
  destruct archives_differ as [Nc Nx].
  assert (S : exists copy,
             db' = removeDoc (putDoc db CANCELLED_RIDES a1 copy) ACTIVE_RIDES rideId).
  { destruct Hdb as [-> | ->].
    - rewrite (exec_cancel (uid u) (now u) ride db _ rideId Hid). cbn [final]. eauto.
    - rewrite (RideMore.exec_reject u ride db _ rideId Hid). cbn [final]. eauto. }
  destruct S as [copy ->].
  set (db' := removeDoc (putDoc db CANCELLED_RIDES a1 copy) ACTIVE_RIDES rideId).
  assert (Hgone : getDoc db' ACTIVE_RIDES rideId = None) by apply getDoc_remove_same.
  assert (Hc' : getDoc db' COMPLETED_RIDES rideId = None).
  { unfold db'. rewrite getDoc_remove_other by congruence.
    rewrite getDoc_put_other by discriminate. exact Hc. }
  assert (Hx' : getDoc db' CANCELLED_RIDES rideId = None).
  { unfold db'. rewrite getDoc_remove_other by congruence.
    rewrite getDoc_putDoc. case_decide as D; [| exact Hx].
    destruct D as [_ D]. contradiction. }
  split; [| split].
  - unfold db'. rewrite getDoc_remove_other by congruence.
    rewrite getDoc_put_same. eauto.
  - intros f1 f2 rest. rewrite Hgone.
    cbn [onStatusSnapshot runTask settle serve]. rewrite Hc'.
    cbn [runTask settle serve]. rewrite Hx'. apply runTask_ret.
  - intros f rest. rewrite Hgone.
    cbn [onRequestSnapshot runTask settle serve]. rewrite Hc'. apply runTask_ret.
Qed.

Lemma cancelled_ride_is_not_found_witness :
  runTask [served; served]
    (onStatusSnapshot "r1"
       (getDoc (final (exec [Served "c1"; Served EmptyString]
                         (RideStatus.handleCancelRide (Some (uid passenger))
                            (now passenger) (Some viewPending)) db0))
               ACTIVE_RIDES "r1"))
    (final (exec [Served "c1"; Served EmptyString]
              (RideStatus.handleCancelRide (Some (uid passenger)) (now passenger)
                 (Some viewPending)) db0))
  = (final (exec [Served "c1"; Served EmptyString]
              (RideStatus.handleCancelRide (Some (uid passenger)) (now passenger)
                 (Some viewPending)) db0),
     Some (Leave "Corrida não encontrada")).
Proof.
  assert (Hid : docId (viewPending !! "id") = Some "r1") by (vm_compute; reflexivity).
  assert (Hnew : "c1" <> "r1") by discriminate.
  assert (Hc : getDoc db0 COMPLETED_RIDES "r1" = None) by (vm_compute; reflexivity).
  assert (Hx : getDoc db0 CANCELLED_RIDES "r1" = None) by (vm_compute; reflexivity).
  exact (proj1 (proj2 (cancelled_ride_is_not_found passenger viewPending "r1" db0
                         "c1" EmptyString Hid Hnew Hc Hx _ (or_introl eq_refl)))
               EmptyString EmptyString []).
Defined.

End ListenerFacts.

(* ===================================================================== *)
(** * Properties of the migration script                                  *)
(* ===================================================================== *)

Module MigrationFacts.
Import JS Firestore Rides Migration StoreFacts RideClaims Examples.

Lemma target_not_legacy (ride : Doc) : targetCollection ride <> LEGACY_RIDES.
Proof.
  unfold targetCollection.
  destruct (strictEqStr _ "completed"); [discriminate |].
  destruct (strictEqStr _ "cancelled"); discriminate.
Qed.

Lemma legacy_not_target (ride : Doc) : LEGACY_RIDES <> targetCollection ride.
Proof. intros E. now apply (target_not_legacy ride). Qed.

(** One ride of the loop. *)
Lemma migrate_step (i : string) (data : Doc) (rest : list (string * Doc))
    (f : Fate) (fates : list Fate) (db : Store) :
  let ride := snapshotObject i data in
  let db1 a := putDoc db (targetCollection ride) a ride in
  let after fs db := exec fs (migrateLoop rest) db in
  let o := exec (f :: fates) (migrateLoop ((i, data) :: rest)) db in
  match f, fates with
  | Rejected _, _ =>
      final o = final (after fates db) /\
      trace o = AddDoc (targetCollection ride) ride :: trace (after fates db) /\
      result o = result (after fates db)
  | Served a, [] =>
      final o = db1 a /\ trace o = [AddDoc (targetCollection ride) ride] /\
      result o = Stopped
  | Served a, Served _ :: fates' =>
      final o = final (after fates' (removeDoc (db1 a) LEGACY_RIDES i)) /\
      trace o = migrationRequests (i, data)
                ++ trace (after fates' (removeDoc (db1 a) LEGACY_RIDES i)) /\
      result o = result (after fates' (removeDoc (db1 a) LEGACY_RIDES i))
  | Served a, Rejected _ :: fates' =>
      final o = final (after fates' (db1 a)) /\
      trace o = migrationRequests (i, data) ++ trace (after fates' (db1 a)) /\
      result o = result (after fates' (db1 a))
  end.
Proof.
  cbv zeta. unfold exec. cbn [migrateLoop run].
  destruct f as [a | code]; cbn [settle serve].
  - destruct fates as [| [b | code] fates']; cbn [run settle serve];
      [auto | |]; rewrite run_final, run_trace, run_result; auto.
  - rewrite run_final, run_trace, run_result. auto.
Qed.

Lemma migrate_all_served (docs : list (string * Doc)) :
  forall (db : Store) (fates : list Fate),
    allServed fates = true ->
    (2 * length docs <= length fates)%nat ->
    let o := exec fates (migrateLoop docs) db in
    result o = Returned /\
    trace o = flat_map migrationRequests docs /\
    (forall i, In i (map fst docs) -> getDoc (final o) LEGACY_RIDES i = None) /\
    (forall i, ~ In i (map fst docs) ->
               getDoc (final o) LEGACY_RIDES i = getDoc db LEGACY_RIDES i).
Proof.
  induction docs as [| [i data] rest IH]; intros db fates Hs Hl; cbv zeta.
  - unfold exec. cbn [migrateLoop]. rewrite run_done. cbn. tauto.
  - destruct fates as [| [a | code] [| [b | code'] fates']]; cbn in Hs, Hl;
      try discriminate; try lia.
    pose proof (migrate_step i data rest (Served a) (Served b :: fates') db) as St.
    cbv zeta in St. destruct St as (Ef & Et & Er).
    set (ride := snapshotObject i data) in *.
    set (db2 := removeDoc (putDoc db (targetCollection ride) a ride) LEGACY_RIDES i) in *.
    destruct (IH db2 fates' Hs ltac:(lia)) as (Ir & It & Iin & Iout).
    rewrite Ef, Et, Er.
    assert (E2 : forall j, j <> i -> getDoc db2 LEGACY_RIDES j = getDoc db LEGACY_RIDES j).
    { intros j N. unfold db2. rewrite getDoc_removeDoc.
      case_decide as D; [destruct D; congruence |].
      apply getDoc_put_other, target_not_legacy. }
    split; [exact Ir | split; [| split]].
    + cbn [flat_map]. now rewrite It.
    + intros j Hj. cbn [map fst In] in Hj.
      destruct (in_dec string_dec j (map fst rest)) as [Hin | Hout]; [now apply Iin |].
      destruct Hj as [<- | Hj]; [| contradiction].
      rewrite (Iout i Hout). apply getDoc_remove_same.
    + intros j Hj. cbn [map fst In] in Hj.
      rewrite Iout by tauto. apply E2. intros ->. tauto.
Qed.

(** X19.  When every request is served, the migration sends, for each
    ride of the old collection in turn, the creation of its copy in the
    collection that its status selects (completed, cancelled, and active
    for every other status or none) and then the deletion of the old
    document; it returns, and the old collection is empty. *)
Theorem migration_moves_every_ride (db : Store) (fates : list Fate)
    (Hs : allServed fates = true)
    (Hl : (2 * length (map_to_list (coll db LEGACY_RIDES)) <= length fates)%nat) :
  let o := exec fates (migrateRides db) db in
  result o = Returned /\
  trace o = flat_map migrationRequests (map_to_list (coll db LEGACY_RIDES)) /\
  coll (final o) LEGACY_RIDES = ∅.
Proof.
  cbv zeta. unfold migrateRides.
  destruct (migrate_all_served _ db fates Hs Hl) as (Hr & Ht & Hin & Hout).
  split; [exact Hr | split; [exact Ht |]].
  apply map_eq. intros i. rewrite lookup_empty.
  change (getDoc (final (exec fates (migrateLoop (map_to_list (coll db LEGACY_RIDES))) db))
                 LEGACY_RIDES i = None).
  destruct (in_dec string_dec i (map fst (map_to_list (coll db LEGACY_RIDES))))
    as [I | O]; [now apply Hin |].
  rewrite (Hout i O).
  destruct (getDoc db LEGACY_RIDES i) as [d |] eqn:E; [| reflexivity].
  exfalso. apply O. apply in_map_iff. exists (i, d). split; [reflexivity |].
  apply list_elem_of_In, elem_of_map_to_list. exact E.
Qed.

(** A store with two rides of the old layout. *)
Lemma migration_moves_every_ride_witness :
  let db := putDoc (putDoc ∅ LEGACY_RIDES "r1" newRide) LEGACY_RIDES "r2"
                   (<["status" := VStr "completed"]> newRide) in
  coll (final (exec [Served "n1"; served; Served "n2"; served] (migrateRides db) db))
       LEGACY_RIDES = ∅.
Proof.
  intros db.
  apply (migration_moves_every_ride db [Served "n1"; served; Served "n2"; served]).
  - reflexivity.
  - vm_compute. lia.
Defined.

(** ** No ride is lost *)

(** The loop leaves alone the old documents that are not in its list, and
    the documents of the other collections whose ids it does not draw. *)
Lemma migrate_frame_legacy (docs : list (string * Doc)) :
  forall (db : Store) (fates : list Fate) (i : string),
    ~ In i (map fst docs) ->
    getDoc (final (exec fates (migrateLoop docs) db)) LEGACY_RIDES i
    = getDoc db LEGACY_RIDES i.
Proof.
  induction docs as [| [j data] rest IH]; intros db fates i N.
  - unfold exec. cbn [migrateLoop]. now rewrite run_done.
  - cbn [map fst In] in N.
    destruct fates as [| f fates]; [reflexivity |].
    pose proof (migrate_step j data rest f fates db) as St. cbv zeta in St.
    destruct f as [a | code]; [destruct fates as [| [b | code] fates'] |];
      destruct St as (Ef & _ & _); rewrite Ef.
    + apply getDoc_put_other, target_not_legacy.
    + rewrite IH by tauto. rewrite getDoc_removeDoc.
      case_decide as D; [destruct D; tauto |].
      apply getDoc_put_other, target_not_legacy.
    + rewrite IH by tauto. apply getDoc_put_other, target_not_legacy.
    + rewrite IH by tauto. reflexivity.
Qed.

Lemma migrate_frame_copy (docs : list (string * Doc)) :
  forall (db : Store) (fates : list Fate) (c a : string),
    c <> LEGACY_RIDES -> ~ In a (servedIds fates) ->
    getDoc (final (exec fates (migrateLoop docs) db)) c a = getDoc db c a.
Proof.
  induction docs as [| [j data] rest IH]; intros db fates c a Nc Na.
  - unfold exec. cbn [migrateLoop]. now rewrite run_done.
  - destruct fates as [| f fates]; [reflexivity |].
    pose proof (migrate_step j data rest f fates db) as St. cbv zeta in St.
    assert (P : forall b, b <> a ->
              getDoc (putDoc db (targetCollection (snapshotObject j data)) b
                             (snapshotObject j data)) c a = getDoc db c a).
    { intros b Nb. rewrite getDoc_putDoc. case_decide as D; [| reflexivity].
      destruct D. congruence. }
    destruct f as [b | code]; [destruct fates as [| [b' | code] fates'] |];
      destruct St as (Ef & _ & _); rewrite Ef; cbn in Na.
    + apply P. intros ->. tauto.
    + rewrite IH by tauto. rewrite getDoc_remove_other by congruence.
      apply P. intros ->. tauto.
    + rewrite IH by tauto. apply P. intros ->. tauto.
    + now rewrite IH.
Qed.

Lemma migrate_never_loses (docs : list (string * Doc)) :
  forall (db : Store) (fates : list Fate),
    NoDup (map fst docs) ->
    NoDup (servedIds fates) ->
    (forall i data, In (i, data) docs -> getDoc db LEGACY_RIDES i = Some data) ->
    forall i data, In (i, data) docs ->
      let o := exec fates (migrateLoop docs) db in
      getDoc (final o) LEGACY_RIDES i = Some data \/
      exists a, getDoc (final o) (targetCollection (snapshotObject i data)) a
                = Some (snapshotObject i data).
Proof.
  induction docs as [| [j dj] rest IH]; intros db fates Hd Hf Hdb i data Hin;
    [contradiction |].
  cbv zeta. apply NoDup_cons in Hd as [Hj Hd].
  assert (Hj' : ~ In j (map fst rest)) by (now rewrite <- list_elem_of_In).
  assert (Hrest : forall db',
            (forall k, k <> j -> getDoc db' LEGACY_RIDES k = getDoc db LEGACY_RIDES k) ->
            forall k d, In (k, d) rest -> getDoc db' LEGACY_RIDES k = Some d).
  { intros db' E k d Hk. rewrite E; [apply Hdb; now right |].
    intros ->. apply Hj'. apply in_map_iff. now exists (j, d). }
  destruct fates as [| f fates]; [left; now apply Hdb |].
  pose proof (migrate_step j dj rest f fates db) as St. cbv zeta in St.
  set (ride := snapshotObject j dj) in *.
  assert (Pl : forall b k, getDoc (putDoc db (targetCollection ride) b ride) LEGACY_RIDES k
                           = getDoc db LEGACY_RIDES k).
  { intros b k. apply getDoc_put_other, target_not_legacy. }
  destruct f as [a | code]; [destruct fates as [| [b | code] fates'] |];
    destruct St as (Ef & _ & _); rewrite Ef; cbn [servedIds flat_map app] in Hf.
  - left. rewrite Pl. now apply Hdb.
  - apply NoDup_cons in Hf as [Ha Hf]. apply NoDup_cons in Hf as [_ Hf].
    destruct Hin as [[= <- <-] | Hin].
    + right. exists a. rewrite migrate_frame_copy.
      * rewrite getDoc_remove_other by apply legacy_not_target. apply getDoc_put_same.
      * apply target_not_legacy.
      * rewrite <- list_elem_of_In. intros H. apply Ha. now right.
    + apply IH; try assumption. apply Hrest.
      intros k N. rewrite getDoc_removeDoc.
      case_decide as D; [destruct D; congruence | apply Pl].
  - apply NoDup_cons in Hf as [Ha Hf].
    destruct Hin as [[= <- <-] | Hin].
    + right. exists a. rewrite migrate_frame_copy.
      * apply getDoc_put_same.
      * apply target_not_legacy.
      * now rewrite <- list_elem_of_In.
    + apply IH; try assumption. apply Hrest. intros k N. apply Pl.
  - destruct Hin as [[= <- <-] | Hin].
    + left. rewrite migrate_frame_legacy by exact Hj'. apply Hdb. now left.
    + apply IH; try assumption. apply Hrest. reflexivity.
Qed.

(** X20.  Whatever is refused and whenever the script dies, no ride of the
    old collection is lost, provided the ids drawn for the copies are
    pairwise distinct: at the end every ride is still in the old
    collection, unchanged, or its copy is in the collection that its status
    selects. *)
Theorem migration_never_loses_a_ride (db : Store) (fates : list Fate)
    (Hfresh : NoDup (servedIds fates)) :
  forall i data,
    getDoc db LEGACY_RIDES i = Some data ->
    let o := exec fates (migrateRides db) db in
    getDoc (final o) LEGACY_RIDES i = Some data \/
    exists a, getDoc (final o) (targetCollection (snapshotObject i data)) a
              = Some (snapshotObject i data).
Proof.
  intros i data Hd. unfold migrateRides.
  apply migrate_never_loses.
  - apply NoDup_fst_map_to_list.
  - exact Hfresh.
  - intros k d Hk. apply list_elem_of_In, elem_of_map_to_list in Hk. exact Hk.
  - apply list_elem_of_In, elem_of_map_to_list. exact Hd.
Qed.

Lemma migration_never_loses_a_ride_witness :
  let db := putDoc ∅ LEGACY_RIDES "r1" newRide in
  let o := exec [Served "n1"; Rejected "unavailable"] (migrateRides db) db in
  getDoc (final o) LEGACY_RIDES "r1" = Some newRide \/
  exists a, getDoc (final o) (targetCollection (snapshotObject "r1" newRide)) a
            = Some (snapshotObject "r1" newRide).
Proof.
  intros db.
  apply (migration_never_loses_a_ride db [Served "n1"; Rejected "unavailable"]).
  - repeat constructor. intros H. inversion H.
  - apply getDoc_put_same.
Defined.

End MigrationFacts.

(* ===================================================================== *)
(** * The handlers against the security rules                             *)
(* ===================================================================== *)

Module RulesFacts.
Import JS Firestore Rides DriverHome DriverPage Rules.
Import StoreFacts RideClaims Examples.

(** Writes to the ride collections do not change who is who. *)
Lemma roles_put (db : Store) (c i : string) (d : Doc) (auth : string) :
  c <> USERS -> c <> DRIVERS ->
  isAdmin (putDoc db c i d) auth = isAdmin db auth /\
  isPassenger (putDoc db c i d) auth = isPassenger db auth /\
  isApprovedDriver (putDoc db c i d) auth = isApprovedDriver db auth.
Proof.
  intros N1 N2. unfold isAdmin, isPassenger, isApprovedDriver.
  now rewrite !getDoc_put_other by assumption.
Qed.

Lemma isAvailable_unassigned (d : Doc) :
  isAvailable d = true -> d !! "driverId" = Some VNull.
Proof.
  unfold isAvailable. intros H. apply andb_true_iff in H as [_ H].
  destruct (d !! "driverId") as [[] |]; try discriminate. reflexivity.
Qed.

(** X21.  Under the security rules a driver cannot finish the rejection of
    an available ride.  For an approved driver who is neither the ride's
    passenger nor the administrator, the rules allow the copy into
    [cancelledRides] and then refuse the deletion of the active document,
    whose [driverId] is null; after that run the ride is still stored
    unchanged and still listed as available, and [cancelledRides] has one
    more copy of it. *)
Theorem rules_refuse_the_delete_of_a_rejection
    (u : Session) (ride : Doc) (rideId : string) (db : Store) (stored : Doc)
    (a code : string)
    (Hid : docId (ride !! "id") = Some rideId)
    (Hget : getDoc db ACTIVE_RIDES rideId = Some stored)
    (Hav : isAvailable stored = true)
    (Hdrv : isApprovedDriver db (uid u) = true)
    (Hpas : fieldIs (Some stored) "userId" (uid u) = false)
    (Hadm : isAdmin db (uid u) = false) :
  let db1 := putDoc db CANCELLED_RIDES a (rejectedCopy u ride) in
  let o := exec [Served a; Rejected code] (handleRejectRide u ride) db in
  archiveCreate db (uid u) = true /\
  activeRideDelete db1 (uid u) (getDoc db1 ACTIVE_RIDES rideId) = false /\
  final o = db1 /\
  getDoc (final o) ACTIVE_RIDES rideId = Some stored /\
  In (snapshotObject rideId stored) (availableRidesQuery (final o)) /\
  getDoc (final o) CANCELLED_RIDES a = Some (rejectedCopy u ride).
Proof.
  cbv zeta.
  rewrite (RideMore.exec_reject u ride db _ rideId Hid). cbn [final].
  assert (Hget1 : getDoc (putDoc db CANCELLED_RIDES a (rejectedCopy u ride))
                         ACTIVE_RIDES rideId = Some stored).
  { rewrite getDoc_put_other by discriminate. exact Hget. }
  destruct (roles_put db CANCELLED_RIDES a (rejectedCopy u ride) (uid u))
    as (Ra & _ & _); try discriminate.
  split; [| split; [| split; [| split; [| split]]]].
  - unfold archiveCreate. now rewrite Hdrv.
  - rewrite Hget1. unfold activeRideDelete. rewrite Hpas, Ra, Hadm.
    unfold fieldIs, strictEqStr. now rewrite (isAvailable_unassigned _ Hav).
  - reflexivity.
  - exact Hget1.
  - now apply RideMore.availableRidesQuery_intro.
  - apply getDoc_put_same.
Qed.

Lemma rules_refuse_the_delete_of_a_rejection_witness :
  let db := putDoc db0 DRIVERS "d1" (<["status" := VStr "approved"]> ∅) in
  let db1 := putDoc db CANCELLED_RIDES "c1" (rejectedCopy driver viewPending) in
  activeRideDelete db1 (uid driver) (getDoc db1 ACTIVE_RIDES "r1") = false.
Proof.
  intros db.
  assert (Hid : docId (viewPending !! "id") = Some "r1") by (vm_compute; reflexivity).
  assert (Hget : getDoc db ACTIVE_RIDES "r1" = Some newRide).
  { unfold db. rewrite getDoc_put_other by discriminate. apply getDoc_put_same. }
  assert (Hav : isAvailable newRide = true) by (vm_compute; reflexivity).
  assert (Hdrv : isApprovedDriver db (uid driver) = true) by (vm_compute; reflexivity).
  assert (Hpas : fieldIs (Some newRide) "userId" (uid driver) = false)
    by (vm_compute; reflexivity).
  assert (Hadm : isAdmin db (uid driver) = false) by (vm_compute; reflexivity).
  exact (proj1 (proj2 (rules_refuse_the_delete_of_a_rejection driver viewPending "r1"
                         db newRide "c1" "permission-denied"
                         Hid Hget Hav Hdrv Hpas Hadm))).
Defined.

(** X22.  Once an accept has been served, the update rule of the active
    rides lets the accepting driver, if approved, update the ride, and
    refuses every other user who is neither the administrator nor the
    ride's passenger: the rule makes the ride the accepting driver's own. *)
Theorem rules_reserve_an_accepted_ride
    (u : Session) (ride : Doc) (db : Store) (rideId : string) (rideData : Doc)
    (a1 a2 : string) (rest : list Fate)
    (Hproc : isProcessing u = false)
    (Hid : docId (ride !! "id") = Some rideId)
    (Hget : getDoc db ACTIVE_RIDES rideId = Some rideData)
    (Hacc : acceptable (Some rideData) = true) :
  let db1 := final (exec (Served a1 :: Served a2 :: rest) (handleAcceptRide u ride) db) in
  (isApprovedDriver db (uid u) = true ->
   activeRideUpdate db1 (uid u) (getDoc db1 ACTIVE_RIDES rideId) = true) /\
  (forall other,
     other <> uid u ->
     isAdmin db other = false ->
     isPassenger db other && fieldIs (Some rideData) "userId" other = false ->
     activeRideUpdate db1 other (getDoc db1 ACTIVE_RIDES rideId) = false).
Proof.
  cbv zeta.
  rewrite (RideMore.accepted_served u ride db rideId rideData a1 a2 rest) by assumption.
  rewrite getDoc_put_same.
  destruct (RideMore.accepted_doc_fields u rideData) as [_ Fd].
  assert (Fu : (acceptFields u ∪ rideData) !! "userId" = rideData !! "userId").
  { rewrite lookup_union. unfold acceptFields.
    rewrite !lookup_insert_ne by discriminate. rewrite lookup_empty.
    now destruct (rideData !! "userId"). }
  split.
  - intros Hdrv. unfold activeRideUpdate.
    destruct (roles_put db ACTIVE_RIDES rideId (acceptFields u ∪ rideData) (uid u))
      as (_ & _ & Rd); try discriminate.
    rewrite Rd, Hdrv. unfold fieldIs at 1, isNull. rewrite Fd.
    cbn [strictEqStr]. rewrite String.eqb_refl. reflexivity.
  - intros other N Hadm Hpas. unfold activeRideUpdate.
    destruct (roles_put db ACTIVE_RIDES rideId (acceptFields u ∪ rideData) other)
      as (Ra & Rp & _); try discriminate.
    rewrite Ra, Rp, Hadm.
    assert (E1 : fieldIs (Some (acceptFields u ∪ rideData)) "driverId" other = false).
    { unfold fieldIs. rewrite Fd. cbn [strictEqStr].
      apply String.eqb_neq. congruence. }
    assert (E2 : isNull (Some (acceptFields u ∪ rideData)) "driverId" = false).
    { unfold isNull. now rewrite Fd. }
    assert (E3 : fieldIs (Some (acceptFields u ∪ rideData)) "userId" other
                 = fieldIs (Some rideData) "userId" other).
    { unfold fieldIs. now rewrite Fu. }
    rewrite E1, E2, E3, Hpas. now rewrite andb_false_r.
Qed.

Lemma rules_reserve_an_accepted_ride_witness :
  let db := putDoc db0 DRIVERS "d1" (<["status" := VStr "approved"]> ∅) in
  let db1 := final (exec [served; served] (handleAcceptRide driver viewPending) db) in
  activeRideUpdate db1 "d2" (getDoc db1 ACTIVE_RIDES "r1") = false.
Proof.
  intros db.
  assert (Hid : docId (viewPending !! "id") = Some "r1") by (vm_compute; reflexivity).
  assert (Hget : getDoc db ACTIVE_RIDES "r1" = Some newRide).
  { unfold db. rewrite getDoc_put_other by discriminate. apply getDoc_put_same. }
  assert (Hacc : acceptable (Some newRide) = true) by (vm_compute; reflexivity).
  assert (Hadm : isAdmin db "d2" = false) by (vm_compute; reflexivity).
  assert (Hpas : isPassenger db "d2" && fieldIs (Some newRide) "userId" "d2" = false)
    by (vm_compute; reflexivity).
  exact (proj2 (rules_reserve_an_accepted_ride driver viewPending db "r1" newRide
                  EmptyString EmptyString [] eq_refl Hid Hget Hacc)
               "d2" ltac:(discriminate) Hadm Hpas).
Defined.

End RulesFacts.
